(** * ARINC 429 flight-data simulator: codec, sample generator, broadcaster

    A shallow embedding of [utils/data_models.py], [utils/arinc429.py],
    [data_generator.py] and the registry operations of [api_server.py].

    Modelling conventions.
    - A Python [float] is a rational number ([Q]); arithmetic is exact.
      NaN, the infinities and binary rounding error are outside the model.
      Every concrete input used below is evaluated exactly by IEEE doubles
      as well (for instance [41.2622 * 10000 = 412622.0] and
      [60.0 * 10000 = 600000.0]).  The one place where rounding decides
      more than the last digit is the sum [bearing + 360] of
      [_calculate_bearing], reduced modulo 360 afterwards: there, and in
      the sum that the float [%] itself makes, the rounding is the
      function [float_round].
    - A Python [int] is [Z]; a [list] is [list]; a [str] is a [string],
      whose characters are the code points below 256.
    - Methods that mutate [self] or raise are written in a state-and-error
      monad: a computation takes the object's state and returns either a
      value or the raised exception, together with the state as mutated up
      to that point.
    - [math.cos], [math.sin], [math.radians], [random.uniform],
      [datetime.now] and [json.dumps] are library calls: the trigonometric
      functions and the serializer are section variables, the random draws
      and the clock readings are explicit inputs of each call. *)

From Stdlib Require Import ZArith QArith Qabs Qround String Ascii Bool Lia Lqa.
From stdpp Require Import base list.

Set Default Proof Using "Type".
Open Scope string_scope.
Open Scope Z_scope.

(** ** Exceptions and the state-and-error monad *)

Inductive exn : Type :=
| ValueError (msg : string)
| ZeroDivisionError
| ValidationError (field : string)
| HTTPException (status_code : Z) (detail : string)
| KeyError (key : string)
| IndexError (msg : string)
| ConnectionClosed.

Inductive result (A : Type) : Type :=
| Ok (a : A)
| Raise (e : exn).
Arguments Ok {A} a.
Arguments Raise {A} e.

Definition M (S A : Type) : Type := S -> result A * S.

Definition ret {S A} (a : A) : M S A := fun s => (Ok a, s).
Definition raise {S A} (e : exn) : M S A := fun s => (Raise e, s).
Definition bind {S A B} (m : M S A) (k : A -> M S B) : M S B :=
  fun s => match m s with
           | (Ok a, s') => k a s'
           | (Raise e, s') => (Raise e, s')
           end.
Definition get {S} : M S S := fun s => (Ok s, s).
Definition modify {S} (f : S -> S) : M S unit := fun s => (Ok tt, f s).
(** [try: m except Exception as e: h e] *)
Definition try_except {S A} (m : M S A) (h : exn -> M S A) : M S A :=
  fun s => match m s with
           | (Ok a, s') => (Ok a, s')
           | (Raise e, s') => h e s'
           end.
(** A pure computation that may raise, run inside a method. *)
Definition lift {S A} (r : result A) : M S A := fun s => (r, s).

Declare Scope py_scope.
Delimit Scope py_scope with py.
Notation "x <- m ;; k" := (bind m (fun x => k))
  (at level 100, m at next level, right associativity) : py_scope.
Notation "m ;;; k" := (bind m (fun _ => k))
  (at level 100, right associativity) : py_scope.

Definition rbind {A B} (r : result A) (k : A -> result B) : result B :=
  match r with Ok a => k a | Raise e => Raise e end.

(** ** Python built-ins used by the codec *)

(** [s.count(c)] for a one-character [c]. *)
Fixpoint str_count (c : ascii) (s : string) : Z :=
  match s with
  | EmptyString => 0
  | String a s' => (if Ascii.eqb a c then 1 else 0) + str_count c s'
  end.

(** Binary digits of a positive number, most significant first, in front
    of [acc]. *)
Fixpoint pos_digits (p : positive) (acc : string) : string :=
  match p with
  | xH => String "1" acc
  | xO q => pos_digits q (String "0" acc)
  | xI q => pos_digits q (String "1" acc)
  end.

Definition bin_digits (v : Z) : string :=
  match v with
  | Z0 => "0"
  | Zpos p => pos_digits p ""
  | Zneg p => pos_digits p ""
  end.

Fixpoint zeros (n : nat) : string :=
  match n with O => "" | S k => String "0" (zeros k) end.

(** [format(v, '0<width>b')]: sign, then the digits zero-padded on the left
    so that the whole string has at least [width] characters. *)
Definition format_b (width : nat) (v : Z) : string :=
  let d := bin_digits v in
  match v with
  | Zneg _ => String "-" (zeros (width - 1 - String.length d) ++ d)
  | _ => zeros (width - String.length d) ++ d
  end.

(** [bin(v)] *)
Definition bin (v : Z) : string :=
  match v with
  | Zneg _ => "-0b" ++ bin_digits v
  | _ => "0b" ++ bin_digits v
  end.

Definition bin_digit (a : ascii) : option Z :=
  if Ascii.eqb a "0" then Some 0
  else if Ascii.eqb a "1" then Some 1 else None.

Definition hex_digit (a : ascii) : option Z :=
  let n := Z.of_nat (nat_of_ascii a) in
  if (48 <=? n) && (n <=? 57) then Some (n - 48)
  else if (65 <=? n) && (n <=? 70) then Some (n - 55)
  else if (97 <=? n) && (n <=? 102) then Some (n - 87)
  else None.

Fixpoint parse_digits (digit : ascii -> option Z) (base acc : Z) (s : string)
  : option Z :=
  match s with
  | EmptyString => Some acc
  | String a s' =>
      match digit a with
      | Some d => parse_digits digit base (base * acc + d) s'
      | None => None
      end
  end.

(** The characters that [int] skips at both ends of its argument.  A
    string of the model is a [str] whose characters have code points below
    256; of these, [int] takes as blanks the six of C's [isspace] and the
    two Unicode blanks 0x85 and 0xA0. *)
Definition py_isspace (a : ascii) : bool :=
  let n := Z.of_nat (nat_of_ascii a) in
  ((9 <=? n) && (n <=? 13)) || (n =? 32) || (n =? 133) || (n =? 160).

Fixpoint skip_spaces (s : string) : string :=
  match s with
  | EmptyString => EmptyString
  | String a s' => if py_isspace a then skip_spaces s' else s
  end.

(** An optional sign: whether it is a minus, and the rest. *)
Definition strip_sign (s : string) : bool * string :=
  match s with
  | String a s' =>
      if Ascii.eqb a "-" then (true, s')
      else if Ascii.eqb a "+" then (false, s') else (false, s)
  | EmptyString => (false, s)
  end.

(** An optional base prefix, a zero and the letter of the base in either
    case, and one underscore after it. *)
Definition strip_prefix (letter : ascii -> bool) (s : string) : string :=
  match s with
  | String a (String b s') =>
      if Ascii.eqb a "0" && letter b then
        match s' with
        | String c s'' => if Ascii.eqb c "_" then s'' else s'
        | EmptyString => s'
        end
      else s
  | _ => s
  end.

(** Digits and single underscores, read from the left as far as they go:
    the value, whether a digit was read, and what is left; nothing for a
    doubled underscore or an underscore at the end of the digits.
    [underscore] tells that the character before was one. *)
Fixpoint scan_digits (digit : ascii -> option Z) (base acc : Z)
    (any underscore : bool) (s : string) : option (Z * bool * string) :=
  match s with
  | EmptyString => if underscore then None else Some (acc, any, EmptyString)
  | String a s' =>
      if Ascii.eqb a "_" then
        if underscore then None else scan_digits digit base acc any true s'
      else
        match digit a with
        | Some d => scan_digits digit base (base * acc + d) true false s'
        | None => if underscore then None else Some (acc, any, s)
        end
  end.

(** [int(s, base)] for base 2 or 16: blanks, an optional sign, an optional
    base prefix, digits with single underscores between them, blanks.
    (Characters with code points of 256 and more, of which Python accepts
    the decimal digits and blanks of other scripts, are outside the
    strings of the model.) *)
Definition py_int_str (digit : ascii -> option Z) (base : Z)
    (letter : ascii -> bool) (s : string) : result Z :=
  let invalid := Raise (ValueError "invalid literal for int()") in
  let '(minus, s1) := strip_sign (skip_spaces s) in
  let s2 := strip_prefix letter s1 in
  match s2 with
  | String a _ =>
      if Ascii.eqb a "_" then invalid
      else
        match scan_digits digit base 0 false false s2 with
        | Some (v, true, rest) =>
            match skip_spaces rest with
            | EmptyString => Ok (if minus then - v else v)
            | _ => invalid
            end
        | _ => invalid
        end
  | EmptyString => invalid
  end.

Definition int2 : string -> result Z :=
  py_int_str bin_digit 2 (fun a => Ascii.eqb a "b" || Ascii.eqb a "B").
Definition int16 : string -> result Z :=
  py_int_str hex_digit 16 (fun a => Ascii.eqb a "x" || Ascii.eqb a "X").

(** [int(x)] of a float: truncation towards zero. *)
Definition py_int (x : Q) : Z := Z.quot (Qnum x) (Zpos (Qden x)).

Definition Qltb (a b : Q) : bool := negb (Qle_bool b a).

(** [max(a, b)] and [min(a, b)] return the first argument unless the
    second is strictly larger (smaller). *)
Definition py_max (a b : Q) : Q := if Qltb a b then b else a.
Definition py_min (a b : Q) : Q := if Qltb b a then b else a.

(** A [dict] with string keys, as the list of its items in insertion
    order; [dict_get] is the lookup behind [k in d] and [d[k]]. *)
Fixpoint dict_get {V} (d : list (string * V)) (k : string) : option V :=
  match d with
  | [] => None
  | (k', v) :: d' => if String.eqb k k' then Some v else dict_get d' k
  end.

(** [d[k]] *)
Definition dict_index {V} (d : list (string * V)) (k : string) : result V :=
  match dict_get d k with
  | Some v => Ok v
  | None => Raise (KeyError k)
  end.

(** ** utils/data_models.py *)

(** A [datetime] value; only copied around, never inspected. *)
Definition datetime : Type := Z.

Module ARINC429Message.
Record t : Type := mk {
  label : string;      (* ARINC 429 label (hex) *)
  sdi : string;        (* Source/Destination Identifier *)
  data : string;       (* Data field (binary) *)
  ssm : string;        (* Sign/Status Matrix *)
  parity : string;     (* Parity bit *)
  timestamp : datetime
}.
End ARINC429Message.

Module FlightData.
Record t : Type := mk {
  latitude : Q;
  longitude : Q;
  altitude : Q;
  airspeed : Q;
  heading : Q;
  vertical_speed : Q;
  timestamp : datetime
}.

(** The pydantic [Field(..., ge=lo, le=hi)] constraint. *)
Definition check_field (name : string) (lo hi v : Q) : result unit :=
  if Qle_bool lo v && Qle_bool v hi then Ok tt
  else Raise (ValidationError name).

(** [FlightData(latitude=..., ...)]: the validating constructor. *)
Definition new (latitude longitude altitude airspeed heading vertical_speed : Q)
    (timestamp : datetime) : result t :=
  rbind (check_field "latitude" (-90) 90 latitude) (fun _ =>
  rbind (check_field "longitude" (-180) 180 longitude) (fun _ =>
  rbind (check_field "altitude" 0 50000 altitude) (fun _ =>
  rbind (check_field "airspeed" 0 1000 airspeed) (fun _ =>
  rbind (check_field "heading" 0 360 heading) (fun _ =>
  rbind (check_field "vertical_speed" (-10000) 10000 vertical_speed) (fun _ =>
  Ok (mk latitude longitude altitude airspeed heading vertical_speed
         timestamp))))))).
End FlightData.

Module ExternalConfig.
Record t : Type := mk {
  url : string;
  interval : Z;
  enabled : bool;
  headers : list (string * string)
}.
End ExternalConfig.

(** ** utils/arinc429.py *)

Module ARINC429Encoder.
Import ARINC429Message.

(** The instance attributes set by [__init__]. *)
Record t : Type := mk { self_sdi : string; self_ssm : string }.

Definition init : t := mk "00" "00".

Definition set_ssm (v : string) : M t unit :=
  modify (fun self => mk (self_sdi self) v).

Definition LABELS : list (string * string) :=
  [ ("latitude", "6A"); ("longitude", "6B"); ("altitude", "6C");
    ("airspeed", "6D"); ("heading", "6E"); ("vertical_speed", "6F") ].

Definition encode_latitude (latitude : Q) : M t string :=
  (if Qltb latitude (-90) || Qltb 90 latitude
   then raise (ValueError "Enlem -90 ile +90 arasında olmalıdır")
   else
     data_value <-
       (if Qle_bool 0 latitude
        then (set_ssm "00" ;;; ret (py_int (Qabs latitude * 10000)))
        else (set_ssm "11" ;;; ret (py_int (Qabs latitude * 10000)))) ;;
     ret (format_b 19 (Z.land data_value 0x7FFFF)))%py.

Definition encode_longitude (longitude : Q) : M t string :=
  (if Qltb longitude (-180) || Qltb 180 longitude
   then raise (ValueError "Boylam -180 ile +180 arasında olmalıdır")
   else
     data_value <-
       (if Qle_bool 0 longitude
        then (set_ssm "00" ;;; ret (py_int (Qabs longitude * 10000)))
        else (set_ssm "11" ;;; ret (py_int (Qabs longitude * 10000)))) ;;
     ret (format_b 19 (Z.land data_value 0x7FFFF)))%py.

Definition encode_altitude (altitude : Q) : M t string :=
  (if Qltb altitude 0 || Qltb 50000 altitude
   then raise (ValueError "İrtifa 0-50000 feet arasında olmalıdır")
   else
     set_ssm "00" ;;;
     let data_value := py_int altitude in
     ret (format_b 19 (Z.land data_value 0x7FFFF)))%py.

Definition encode_airspeed (airspeed : Q) : M t string :=
  (if Qltb airspeed 0 || Qltb 1000 airspeed
   then raise (ValueError "Hava hızı 0-1000 knots arasında olmalıdır")
   else
     set_ssm "00" ;;;
     let data_value := py_int (airspeed * 10) in
     ret (format_b 19 (Z.land data_value 0x7FFFF)))%py.

Definition encode_heading (heading : Q) : M t string :=
  (if Qltb heading 0 || Qltb 360 heading
   then raise (ValueError "Yön 0-360 derece arasında olmalıdır")
   else
     set_ssm "00" ;;;
     let data_value := py_int (heading * 10) in
     ret (format_b 19 (Z.land data_value 0x7FFFF)))%py.

Definition encode_vertical_speed (vertical_speed : Q) : M t string :=
  (if Qltb vertical_speed (-10000) || Qltb 10000 vertical_speed
   then raise (ValueError
     "Dikey hız -10000 ile +10000 feet/dakika arasında olmalıdır")
   else
     data_value <-
       (if Qle_bool 0 vertical_speed
        then (set_ssm "00" ;;; ret (py_int (Qabs vertical_speed)))
        else (set_ssm "11" ;;; ret (py_int (Qabs vertical_speed)))) ;;
     ret (format_b 19 (Z.land data_value 0x7FFFF)))%py.

(** [word = int(label, 16) << 24 | int(sdi, 2) << 22 | int(data, 2) << 3
           | int(ssm, 2) << 1]; the parity is ['1'] when [word] has an
    even number of set bits. *)
Definition calculate_parity (label sdi data ssm : string) : result string :=
  rbind (int16 label) (fun l =>
  rbind (int2 sdi) (fun s =>
  rbind (int2 data) (fun d =>
  rbind (int2 ssm) (fun m =>
    let word :=
      Z.lor (Z.lor (Z.lor (Z.shiftl l 24) (Z.shiftl s 22)) (Z.shiftl d 3))
            (Z.shiftl m 1) in
    let bit_count := str_count "1" (bin word) in
    Ok (if bit_count mod 2 =? 0 then "1" else "0"))))).

(** One entry of the [encodings] list of [encode_flight_data]. *)
Definition encoding : Type := string * Q * (Q -> M t string).

Definition encodings (flight_data : FlightData.t) : list encoding :=
  [ ("latitude", FlightData.latitude flight_data, encode_latitude);
    ("longitude", FlightData.longitude flight_data, encode_longitude);
    ("altitude", FlightData.altitude flight_data, encode_altitude);
    ("airspeed", FlightData.airspeed flight_data, encode_airspeed);
    ("heading", FlightData.heading flight_data, encode_heading);
    ("vertical_speed", FlightData.vertical_speed flight_data,
      encode_vertical_speed) ].

(** The body of the [try] block for one entry. *)
Definition encode_entry (ts : datetime) (e : encoding)
    : M t ARINC429Message.t :=
  (let '(data_type, value, encoder_func) := e in
   data_binary <- encoder_func value ;;
   label <- lift (dict_index LABELS data_type) ;;
   self <- get ;;
   parity <- lift (calculate_parity label (self_sdi self) data_binary
                     (self_ssm self)) ;;
   ret (ARINC429Message.mk label (self_sdi self) data_binary
          (self_ssm self) parity ts))%py.

(** The [for] loop: a failing entry is reported on standard output (not
    modelled) and skipped. *)
Fixpoint encode_loop (ts : datetime) (es : list encoding)
    (messages : list ARINC429Message.t) : M t (list ARINC429Message.t) :=
  match es with
  | [] => ret messages
  | e :: es' =>
      (messages' <- try_except
                      (message <- encode_entry ts e ;;
                       ret (messages ++ [message])%list)
                      (fun _ => ret messages) ;;
       encode_loop ts es' messages')%py
  end.

Definition encode_flight_data (flight_data : FlightData.t)
    : M t (list ARINC429Message.t) :=
  encode_loop (FlightData.timestamp flight_data) (encodings flight_data) [].
End ARINC429Encoder.

Module ARINC429Decoder.
Import ARINC429Message.

Definition decode_latitude (data ssm : string) : result Q :=
  rbind (int2 data) (fun data_value =>
    let latitude := (inject_Z data_value / 10000)%Q in
    Ok (if String.eqb ssm "11" then (- latitude)%Q else latitude)).

Definition decode_longitude (data ssm : string) : result Q :=
  rbind (int2 data) (fun data_value =>
    let longitude := (inject_Z data_value / 10000)%Q in
    Ok (if String.eqb ssm "11" then (- longitude)%Q else longitude)).

Definition decode_altitude (data ssm : string) : result Q :=
  rbind (int2 data) (fun data_value => Ok (inject_Z data_value)).

Definition decode_airspeed (data ssm : string) : result Q :=
  rbind (int2 data) (fun data_value => Ok (inject_Z data_value / 10)%Q).

Definition decode_heading (data ssm : string) : result Q :=
  rbind (int2 data) (fun data_value => Ok (inject_Z data_value / 10)%Q).

Definition decode_vertical_speed (data ssm : string) : result Q :=
  rbind (int2 data) (fun data_value =>
    let vertical_speed := inject_Z data_value in
    Ok (if String.eqb ssm "11" then (- vertical_speed)%Q
        else vertical_speed)).

Definition decoders
    : list (string * (string * (string -> string -> result Q))) :=
  [ ("6A", ("latitude", decode_latitude));
    ("6B", ("longitude", decode_longitude));
    ("6C", ("altitude", decode_altitude));
    ("6D", ("airspeed", decode_airspeed));
    ("6E", ("heading", decode_heading));
    ("6F", ("vertical_speed", decode_vertical_speed)) ].

Definition decode_message (message : ARINC429Message.t)
    : result (string * Q) :=
  let label := ARINC429Message.label message in
  let data := ARINC429Message.data message in
  let ssm := ARINC429Message.ssm message in
  match dict_get decoders label with
  | Some (data_type, decoder_func) =>
      rbind (decoder_func data ssm) (fun value => Ok (data_type, value))
  | None => Raise (ValueError ("Bilinmeyen label: " ++ label))
  end.
End ARINC429Decoder.

(** The [label] argument of [create_arinc429_word] is annotated [str] but
    formatted with the integer format [08b], which Python refuses for a
    string; the argument is therefore modelled with its dynamic type. *)
Inductive str_or_int : Type :=
| PyStr (s : string)
| PyInt (n : Z).

Definition create_arinc429_word (label : str_or_int) (sdi data ssm parity : string)
    : result string :=
  match label with
  | PyInt n => Ok (format_b 8 n ++ sdi ++ data ++ ssm ++ parity)
  | PyStr _ =>
      Raise (ValueError "Unknown format code 'b' for object of type 'str'")
  end.

Definition validate_arinc429_word (word : string) : bool :=
  if negb (Z.of_nat (String.length word) =? 32) then false
  else str_count "1" word mod 2 =? 1.

(** ** Python list operations and float helpers used by the generator *)

(** [l.pop(i)] for [0 <= i]: the removed element and the remaining list;
    past the end it raises. *)
Definition list_pop {A} (i : nat) (l : list A) : result (A * list A) :=
  match l !! i with
  | Some x => Ok (x, delete i l)
  | None => Raise (IndexError "pop index out of range")
  end.

(** [l[start:]] with Python's treatment of negative and oversized
    bounds. *)
Definition slice_from {A} (start : Z) (l : list A) : list A :=
  let n := Z.of_nat (length l) in
  let s := if start <? 0 then Z.max (start + n) 0 else Z.min start n in
  drop (Z.to_nat s) l.

(** [a / b] on floats. *)
Definition py_div (a b : Q) : result Q :=
  if Qeq_bool b 0 then Raise ZeroDivisionError else Ok (a / b)%Q.

(** Nearest integer, ties to the even one. *)
Definition round_half_even (x : Q) : Z :=
  let f := Qfloor x in
  let r := (x - inject_Z f)%Q in
  if Qltb r (1 # 2) then f
  else if Qltb (1 # 2) r then f + 1
  else if Z.even f then f else f + 1.

(** [round(x, ndigits)] *)
Definition py_round (x : Q) (ndigits : nat) : Q :=
  let scale := inject_Z (10 ^ Z.of_nat ndigits) in
  (inject_Z (round_half_even (x * scale)) / scale)%Q.

(** ** config.py *)

Definition AVIATION_RANGES : list (string * list (string * Q)) :=
  [ ("latitude", [("min", (-90)%Q); ("max", 90%Q)]);
    ("longitude", [("min", (-180)%Q); ("max", 180%Q)]);
    ("altitude", [("min", 0%Q); ("max", 50000%Q)]);
    ("airspeed", [("min", 0%Q); ("max", 1000%Q)]);
    ("heading", [("min", 0%Q); ("max", 360%Q)]);
    ("vertical_speed", [("min", (-10000)%Q); ("max", 10000%Q)]) ].

(** ** data_generator.py *)

(** The values drawn by one call of [_add_realistic_variations], in call
    order, and the clock reading taken by [generate_flight_data]. *)
Record draws : Type := mk_draws {
  u_latitude : Q;           (* random.uniform(-0.001, 0.001) *)
  u_longitude : Q;          (* random.uniform(-0.001, 0.001) *)
  u_altitude : Q;           (* random.uniform(-10, 10) *)
  u_airspeed : Q;           (* random.uniform(-2, 2) *)
  u_heading : Q;            (* random.uniform(-0.5, 0.5) *)
  u_vertical_speed : Q;     (* random.uniform(-50, 50) *)
  u_heading_rate : Q;       (* random.uniform(-1, 1) *)
  u_altitude_rate : Q;      (* random.uniform(-500, 500) *)
  u_speed_rate : Q;         (* random.uniform(-5, 5) *)
  now : datetime            (* datetime.now() *)
}.

Definition uniform_ok (a b u : Q) : Prop := (a <= u /\ u <= b)%Q.

(** The draws that [random.uniform] can return. *)
Definition draws_ok (d : draws) : Prop :=
  uniform_ok (-0.001) 0.001 (u_latitude d) /\
  uniform_ok (-0.001) 0.001 (u_longitude d) /\
  uniform_ok (-10) 10 (u_altitude d) /\
  uniform_ok (-2) 2 (u_airspeed d) /\
  uniform_ok (-0.5) 0.5 (u_heading d) /\
  uniform_ok (-50) 50 (u_vertical_speed d) /\
  uniform_ok (-1) 1 (u_heading_rate d) /\
  uniform_ok (-500) 500 (u_altitude_rate d) /\
  uniform_ok (-5) 5 (u_speed_rate d).

Module FlightDataGenerator.

Record t : Type := mk {
  update_interval : Q;
  encoder : ARINC429Encoder.t;
  current_data : option FlightData.t;
  history : list FlightData.t;
  max_history : Z;
  current_latitude : Q;
  current_longitude : Q;
  current_altitude : Q;
  current_airspeed : Q;
  current_heading : Q;
  current_vertical_speed : Q;
  heading_change_rate : Q;
  altitude_change_rate : Q;
  speed_change_rate : Q
}.

(** Attribute assignments [self.x = v]. *)
Definition set_current_data v s :=
  mk (update_interval s) (encoder s) v (history s) (max_history s)
     (current_latitude s) (current_longitude s) (current_altitude s)
     (current_airspeed s) (current_heading s) (current_vertical_speed s)
     (heading_change_rate s) (altitude_change_rate s) (speed_change_rate s).
Definition set_history v s :=
  mk (update_interval s) (encoder s) (current_data s) v (max_history s)
     (current_latitude s) (current_longitude s) (current_altitude s)
     (current_airspeed s) (current_heading s) (current_vertical_speed s)
     (heading_change_rate s) (altitude_change_rate s) (speed_change_rate s).
Definition set_current_latitude v s :=
  mk (update_interval s) (encoder s) (current_data s) (history s)
     (max_history s)
     v (current_longitude s) (current_altitude s)
     (current_airspeed s) (current_heading s) (current_vertical_speed s)
     (heading_change_rate s) (altitude_change_rate s) (speed_change_rate s).
Definition set_current_longitude v s :=
  mk (update_interval s) (encoder s) (current_data s) (history s)
     (max_history s)
     (current_latitude s) v (current_altitude s)
     (current_airspeed s) (current_heading s) (current_vertical_speed s)
     (heading_change_rate s) (altitude_change_rate s) (speed_change_rate s).
Definition set_current_altitude v s :=
  mk (update_interval s) (encoder s) (current_data s) (history s)
     (max_history s)
     (current_latitude s) (current_longitude s) v
     (current_airspeed s) (current_heading s) (current_vertical_speed s)
     (heading_change_rate s) (altitude_change_rate s) (speed_change_rate s).
Definition set_current_airspeed v s :=
  mk (update_interval s) (encoder s) (current_data s) (history s)
     (max_history s)
     (current_latitude s) (current_longitude s) (current_altitude s)
     v (current_heading s) (current_vertical_speed s)
     (heading_change_rate s) (altitude_change_rate s) (speed_change_rate s).
Definition set_current_heading v s :=
  mk (update_interval s) (encoder s) (current_data s) (history s)
     (max_history s)
     (current_latitude s) (current_longitude s) (current_altitude s)
     (current_airspeed s) v (current_vertical_speed s)
     (heading_change_rate s) (altitude_change_rate s) (speed_change_rate s).
Definition set_current_vertical_speed v s :=
  mk (update_interval s) (encoder s) (current_data s) (history s)
     (max_history s)
     (current_latitude s) (current_longitude s) (current_altitude s)
     (current_airspeed s) (current_heading s) v
     (heading_change_rate s) (altitude_change_rate s) (speed_change_rate s).
Definition set_heading_change_rate v s :=
  mk (update_interval s) (encoder s) (current_data s) (history s)
     (max_history s)
     (current_latitude s) (current_longitude s) (current_altitude s)
     (current_airspeed s) (current_heading s) (current_vertical_speed s)
     v (altitude_change_rate s) (speed_change_rate s).
Definition set_altitude_change_rate v s :=
  mk (update_interval s) (encoder s) (current_data s) (history s)
     (max_history s)
     (current_latitude s) (current_longitude s) (current_altitude s)
     (current_airspeed s) (current_heading s) (current_vertical_speed s)
     (heading_change_rate s) v (speed_change_rate s).
Definition set_speed_change_rate v s :=
  mk (update_interval s) (encoder s) (current_data s) (history s)
     (max_history s)
     (current_latitude s) (current_longitude s) (current_altitude s)
     (current_airspeed s) (current_heading s) (current_vertical_speed s)
     (heading_change_rate s) (altitude_change_rate s) v.

(** [ranges[field][bound]] *)
Definition ranges (field bound : string) : result Q :=
  rbind (dict_index AVIATION_RANGES field) (fun r =>
    dict_index r bound).

(** [self.x = max(ranges[f]["min"], min(ranges[f]["max"], self.x))] *)
Definition clamp_attr (field : string) (rd : t -> Q) (wr : Q -> t -> t)
    : M t unit :=
  (self <- get ;;
   lo <- lift (ranges field "min") ;;
   hi <- lift (ranges field "max") ;;
   modify (wr (py_max lo (py_min hi (rd self)))))%py.

Definition _apply_boundaries : M t unit :=
  (clamp_attr "latitude" current_latitude set_current_latitude ;;;
   clamp_attr "longitude" current_longitude set_current_longitude ;;;
   clamp_attr "altitude" current_altitude set_current_altitude ;;;
   clamp_attr "airspeed" current_airspeed set_current_airspeed ;;;
   clamp_attr "heading" current_heading set_current_heading ;;;
   clamp_attr "vertical_speed" current_vertical_speed
     set_current_vertical_speed)%py.

Definition _add_realistic_variations (d : draws) : M t unit :=
  (modify (fun s => set_current_latitude
             (current_latitude s + u_latitude d)%Q s) ;;;
   modify (fun s => set_current_longitude
             (current_longitude s + u_longitude d)%Q s) ;;;
   modify (fun s => set_current_altitude
             (current_altitude s + u_altitude d)%Q s) ;;;
   modify (fun s => set_current_airspeed
             (current_airspeed s + u_airspeed d)%Q s) ;;;
   modify (fun s => set_current_heading
             (current_heading s + u_heading d)%Q s) ;;;
   modify (fun s => set_current_vertical_speed
             (current_vertical_speed s + u_vertical_speed d)%Q s) ;;;
   modify (set_heading_change_rate (u_heading_rate d)) ;;;
   modify (set_altitude_change_rate (u_altitude_rate d)) ;;;
   modify (set_speed_change_rate (u_speed_rate d)) ;;;
   modify (fun s => set_current_vertical_speed (altitude_change_rate s) s))%py.

Definition _generate_initial_data (now : datetime) : M t unit :=
  (self <- get ;;
   fd <- lift (FlightData.new (current_latitude self)
                 (current_longitude self) (current_altitude self)
                 (current_airspeed self) (current_heading self)
                 (current_vertical_speed self) now) ;;
   modify (set_current_data (Some fd)) ;;;
   modify (fun s => set_history (history s ++ [fd])%list s))%py.

(** [FlightDataGenerator(update_interval)], built at clock reading
    [now]: the raised exception, or the new object. *)
Definition init (update_interval : Q) (now : datetime) : result t :=
  let self :=
    mk update_interval ARINC429Encoder.init None [] 1000
       41.2622 28.7278 35000 450 270 0
       0 0 0 in
  match _generate_initial_data now self with
  | (Ok _, self') => Ok self'
  | (Raise e, _) => Raise e
  end.

Section WithMath.
(** [math.cos], [math.sin], [math.radians] *)
Variables cos sin radians : Q -> Q.

Definition _update_position : M t unit :=
  (self <- get ;;
   let speed_ms := (current_airspeed self * 0.514444)%Q in
   let dt := update_interval self in
   let heading_rad := radians (current_heading self) in
   let distance := (speed_ms * dt)%Q in
   lat_change <- lift (py_div (distance * cos heading_rad) 111320) ;;
   modify (fun s => set_current_latitude
             (current_latitude s + lat_change)%Q s) ;;;
   self <- get ;;
   lon_change <- lift (py_div (distance * sin heading_rad)
                         (111320 * cos (radians (current_latitude self)))) ;;
   modify (fun s => set_current_longitude
             (current_longitude s + lon_change)%Q s) ;;;
   modify (fun s => set_current_heading
             (current_heading s + heading_change_rate s * dt)%Q s) ;;;
   self <- get ;;
   (if Qle_bool 360 (current_heading self)
    then modify (set_current_heading (current_heading self - 360)%Q)
    else if Qltb (current_heading self) 0
    then modify (set_current_heading (current_heading self + 360)%Q)
    else ret tt) ;;;
   modify (fun s => set_current_altitude
             (current_altitude s + current_vertical_speed s / 60 * dt)%Q s) ;;;
   modify (fun s => set_current_airspeed
             (current_airspeed s + speed_change_rate s * dt)%Q s) ;;;
   _apply_boundaries)%py.

Definition generate_flight_data (d : draws) : M t FlightData.t :=
  (_update_position ;;;
   _add_realistic_variations d ;;;
   _apply_boundaries ;;;
   self <- get ;;
   new_data <- lift (FlightData.new
                       (py_round (current_latitude self) 6)
                       (py_round (current_longitude self) 6)
                       (py_round (current_altitude self) 1)
                       (py_round (current_airspeed self) 1)
                       (py_round (current_heading self) 1)
                       (py_round (current_vertical_speed self) 1)
                       (now d)) ;;
   modify (fun s => set_history (history s ++ [new_data])%list s) ;;;
   modify (set_current_data (Some new_data)) ;;;
   self <- get ;;
   (if Z.of_nat (length (history self)) >? max_history self
    then (r <- lift (list_pop 0 (history self)) ;;
          modify (set_history (snd r)))
    else ret tt) ;;;
   ret new_data)%py.
End WithMath.

Definition get_current_data (self : t) : option FlightData.t :=
  current_data self.

(** [get_history(limit)]; the returned list is a copy, [self] is only
    read. *)
Definition get_history (limit : option Z) (self : t) : list FlightData.t :=
  match limit with
  | None => history self
  | Some limit => slice_from (- limit) (history self)
  end.

Definition reset_position (latitude longitude : Q) : M t unit :=
  (modify (set_current_latitude latitude) ;;;
   modify (set_current_longitude longitude) ;;;
   modify (set_current_altitude 35000) ;;;
   modify (set_current_airspeed 450) ;;;
   modify (set_current_heading 270) ;;;
   modify (set_current_vertical_speed 0))%py.

Definition set_flight_parameters (heading_change altitude_change
    speed_change : Q) : M t unit :=
  (modify (set_heading_change_rate heading_change) ;;;
   modify (set_altitude_change_rate altitude_change) ;;;
   modify (set_speed_change_rate speed_change))%py.
End FlightDataGenerator.

(** ** api_server.py: the subscriber and sink registries *)

(** A [WebSocket] object, compared by identity. *)
Definition WebSocket : Type := nat.

(** [l.remove(x)]: drops the first element equal to [x]. *)
Fixpoint list_remove (x : WebSocket) (l : list WebSocket) : list WebSocket :=
  match l with
  | [] => []
  | y :: l' => if Nat.eqb y x then l' else y :: list_remove x l'
  end.

(** [x in l] *)
Definition list_in (x : WebSocket) (l : list WebSocket) : bool :=
  existsb (Nat.eqb x) l.

Module ARINC429APIServer.

(** The two registries of the server object, and next to them the
    frames that the sockets have accepted so far, oldest first (the
    state of the network, which [send_text] extends). *)
Record t : Type := mk {
  active_connections : list WebSocket;
  external_configs : list ExternalConfig.t;
  wire : list (WebSocket * string)
}.

Definition set_active_connections v s :=
  mk v (external_configs s) (wire s).
Definition set_external_configs v s :=
  mk (active_connections s) v (wire s).
Definition set_wire v s :=
  mk (active_connections s) (external_configs s) v.

(** A JSON response body. *)
Definition response : Type := list (string * string).

Section WithEnvironment.
(** The payload of a tick and [json.dumps]. *)
Variable Payload : Type.
Variable json_dumps : Payload -> string.
(** The sockets on which [send_text] raises. *)
Variable send_fails : WebSocket -> bool.
(** [str(e)] *)
Variable str_exn : exn -> string.

Definition send_text (connection : WebSocket) (message : string)
    : M t unit :=
  if send_fails connection then raise ConnectionClosed
  else modify (fun s => set_wire (wire s ++ [(connection, message)])%list s).

Definition connect_websocket (websocket : WebSocket) : M t unit :=
  modify (fun s =>
            set_active_connections (active_connections s ++ [websocket])%list s).

Definition disconnect_websocket (websocket : WebSocket) : M t unit :=
  (self <- get ;;
   if list_in websocket (active_connections self)
   then modify (set_active_connections
                  (list_remove websocket (active_connections self)))
   else ret tt)%py.

(** First loop of [broadcast_data]: send to every connection, collect
    the ones whose send raised. *)
Fixpoint send_loop (connections : list WebSocket) (message : string)
    (disconnected : list WebSocket) : M t (list WebSocket) :=
  match connections with
  | [] => ret disconnected
  | connection :: rest =>
      (disconnected' <- try_except
                          (send_text connection message ;;;
                           ret disconnected)
                          (fun _ => ret (disconnected ++ [connection])%list) ;;
       send_loop rest message disconnected')%py
  end.

(** Second loop: drop the collected connections from the registry. *)
Fixpoint disconnect_loop (disconnected : list WebSocket) : M t unit :=
  match disconnected with
  | [] => ret tt
  | connection :: rest =>
      (disconnect_websocket connection ;;; disconnect_loop rest)%py
  end.

Definition broadcast_data (data : Payload) : M t unit :=
  (self <- get ;;
   match active_connections self with
   | [] => ret tt
   | _ =>
       let message := json_dumps data in
       disconnected <- send_loop (active_connections self) message [] ;;
       disconnect_loop disconnected
   end)%py.

Definition add_external_config (config : ExternalConfig.t) : M t response :=
  try_except
    (modify (fun s => set_external_configs
               (external_configs s ++ [config])%list s) ;;;
     ret [("status", "success"); ("message", "Konfigürasyon eklendi")])%py
    (fun e => raise (HTTPException 500 (str_exn e))).

(** [DELETE /api/external-config/{index}]: the [if]/[else] sits inside
    a [try] whose handler catches every [Exception] (of which
    [HTTPException] is a subclass) and raises a 500 in its place. *)
Definition remove_external_config (index : Z) : M t response :=
  try_except
    (self <- get ;;
     if (0 <=? index) && (index <? Z.of_nat (length (external_configs self)))
     then
       (removed <- lift (list_pop (Z.to_nat index) (external_configs self)) ;;
        modify (set_external_configs (snd removed)) ;;;
        ret [("status", "success");
             ("message", "Konfigürasyon kaldırıldı")])
     else raise (HTTPException 404 "Konfigürasyon bulunamadı"))%py
    (fun e => raise (HTTPException 500 (str_exn e))).
End WithEnvironment.
End ARINC429APIServer.

(** ** Notions used to state the properties *)

(** Number of set bits of a non-negative integer. *)
Fixpoint pos_popcount (p : positive) : Z :=
  match p with
  | xH => 1
  | xO q => pos_popcount q
  | xI q => 1 + pos_popcount q
  end.

Definition popcount (z : Z) : Z :=
  match z with Zpos p => pos_popcount p | _ => 0 end.

(** A string made of the characters ['0'] and ['1'] only. *)
Fixpoint all_bits (s : string) : bool :=
  match s with
  | EmptyString => true
  | String a s' => (Ascii.eqb a "0" || Ascii.eqb a "1") && all_bits s'
  end.

(** Bit positions: [below n x] when [x] has no set bit at position [n] or
    higher, [above n x] when it has none under position [n]. *)
Definition below (n x : Z) : Prop := forall i, n <= i -> Z.testbit x i = false.
Definition above (n x : Z) : Prop := forall i, i < n -> Z.testbit x i = false.

(** What one of the six field encoders does on a given value, whatever
    the encoder's state: it raises and leaves the state alone, or it sets
    [ssm] and returns a masked, formatted data value. *)
Inductive encoder_shape (v : Q) (f : Q -> M ARINC429Encoder.t string) : Prop :=
| shape_raise (msg : string) :
    (forall self, f v self = (Raise (ValueError msg), self)) ->
    encoder_shape v f
| shape_ok (n : Z) (ssm' : string) :
    ssm' = "00" \/ ssm' = "11" ->
    (forall self, f v self =
       (Ok (format_b 19 (Z.land n 0x7FFFF)),
        ARINC429Encoder.mk (ARINC429Encoder.self_sdi self) ssm')) ->
    encoder_shape v f.

(** The word of one field, encoded on its own by a fresh encoder, or
    nothing when that raises. *)
Definition word_alone (ts : datetime) (e : ARINC429Encoder.encoding)
    : option ARINC429Message.t :=
  match fst (ARINC429Encoder.encode_entry ts e ARINC429Encoder.init) with
  | Ok m => Some m
  | Raise _ => None
  end.

(** The 31 bits label(8) sdi(2) data(19) ssm(2) of a message whose label
    reads as the number [l]. *)
Definition bits31 (l : Z) (m : ARINC429Message.t) : string :=
  format_b 8 l ++ ARINC429Message.sdi m ++ ARINC429Message.data m
    ++ ARINC429Message.ssm m.

(** The six labels, in field order. *)
Definition label_order : list string := ["6A"; "6B"; "6C"; "6D"; "6E"; "6F"].

Fixpoint ones (n : nat) : string :=
  match n with O => "" | S k => String "1" (ones k) end.

(** The label that [LABELS] gives to an entry's field name. *)
Definition entry_label (e : ARINC429Encoder.encoding) : string :=
  match dict_get ARINC429Encoder.LABELS (fst (fst e)) with
  | Some lbl => lbl
  | None => ""
  end.

(** The worked example of the specification, with the data bits it
    announces left as a parameter: encoding latitude -41.2622 sets [ssm] to
    ["11"], the data field is [int(41.2622 * 10000) = 412622] masked to 19
    bits and written in binary, and the parity over label [6A], sdi [00],
    that data and ssm [11] makes the number of set bits of the word odd. *)
Definition latitude_example (data_bits : string) : Prop :=
  exists self' p,
    ARINC429Encoder.encode_latitude (-41.2622) ARINC429Encoder.init
      = (Ok data_bits, self') /\
    ARINC429Encoder.self_ssm self' = "11" /\
    py_int (41.2622 * 10000) = 412622 /\
    data_bits = format_b 19 (Z.land 412622 0x7FFFF) /\
    ARINC429Encoder.calculate_parity "6A" "00" data_bits "11" = Ok p /\
    str_count "1" (format_b 8 0x6A ++ "00" ++ data_bits ++ "11" ++ p) mod 2 = 1.

(** The quantization step of a field and the field's value in a record. *)
Definition quantization_step (name : string) : Q :=
  if String.eqb name "latitude" then 0.0001
  else if String.eqb name "longitude" then 0.0001
  else if String.eqb name "altitude" then 1
  else if String.eqb name "airspeed" then 0.1
  else if String.eqb name "heading" then 0.1
  else 1.

Definition field_value (fd : FlightData.t) (name : string) : option Q :=
  dict_get
    [ ("latitude", FlightData.latitude fd);
      ("longitude", FlightData.longitude fd);
      ("altitude", FlightData.altitude fd);
      ("airspeed", FlightData.airspeed fd);
      ("heading", FlightData.heading fd);
      ("vertical_speed", FlightData.vertical_speed fd) ] name.

(** The envelope that [AVIATION_RANGES] and the [FlightData] constraints
    describe: every interval is closed. *)
Definition in_envelope (fd : FlightData.t) : Prop :=
  (-90 <= FlightData.latitude fd /\ FlightData.latitude fd <= 90)%Q /\
  (-180 <= FlightData.longitude fd /\ FlightData.longitude fd <= 180)%Q /\
  (0 <= FlightData.altitude fd /\ FlightData.altitude fd <= 50000)%Q /\
  (0 <= FlightData.airspeed fd /\ FlightData.airspeed fd <= 1000)%Q /\
  (0 <= FlightData.heading fd /\ FlightData.heading fd <= 360)%Q /\
  (-10000 <= FlightData.vertical_speed fd /\
   FlightData.vertical_speed fd <= 10000)%Q.

(** The envelope as the specification documents it: the heading interval
    is half open, [0, 360). *)
Definition in_documented_envelope (fd : FlightData.t) : Prop :=
  (-90 <= FlightData.latitude fd /\ FlightData.latitude fd <= 90)%Q /\
  (-180 <= FlightData.longitude fd /\ FlightData.longitude fd <= 180)%Q /\
  (0 <= FlightData.altitude fd /\ FlightData.altitude fd <= 50000)%Q /\
  (0 <= FlightData.airspeed fd /\ FlightData.airspeed fd <= 1000)%Q /\
  (0 <= FlightData.heading fd /\ FlightData.heading fd < 360)%Q /\
  (-10000 <= FlightData.vertical_speed fd /\
   FlightData.vertical_speed fd <= 10000)%Q.

(** [max(lo, min(hi, x))] *)
Definition clamp (lo hi x : Q) : Q := py_max lo (py_min hi x).

(** The calls that a client can make on a generator. *)
Inductive call : Type :=
| Generate (d : draws)
| SetFlightParameters (heading_change altitude_change speed_change : Q)
| ResetPosition (latitude longitude : Q).

Definition call_ok (c : call) : Prop :=
  match c with Generate d => draws_ok d | _ => True end.

Section Calls.
Variables cos sin radians : Q -> Q.

(** One call: the generator afterwards and the sample it returned, if
    it returned one. *)
Definition do_call (c : call) (s : FlightDataGenerator.t)
    : FlightDataGenerator.t * list FlightData.t :=
  match c with
  | Generate d =>
      match FlightDataGenerator.generate_flight_data cos sin radians d s with
      | (Ok fd, s') => (s', [fd])
      | (Raise _, s') => (s', [])
      end
  | SetFlightParameters h a v =>
      (snd (FlightDataGenerator.set_flight_parameters h a v s), [])
  | ResetPosition lat lon =>
      (snd (FlightDataGenerator.reset_position lat lon s), [])
  end.

(** A sequence of calls: the generator afterwards and the samples
    returned, in order. *)
Fixpoint do_calls (cs : list call) (s : FlightDataGenerator.t)
    : FlightDataGenerator.t * list FlightData.t :=
  match cs with
  | [] => (s, [])
  | c :: cs' =>
      let '(s1, out1) := do_call c s in
      let '(s2, out2) := do_calls cs' s1 in
      (s2, (out1 ++ out2)%list)
  end.
End Calls.

(** The envelope property as the specification states it, for a generator
    just constructed and any sequence of calls. *)
Definition documented_envelope_claim : Prop :=
  forall (cos sin radians : Q -> Q) (update_interval : Q) (now : datetime)
         (g : FlightDataGenerator.t) (cs : list call),
    FlightDataGenerator.init update_interval now = Ok g ->
    Forall call_ok cs ->
    Forall in_documented_envelope (snd (do_calls cos sin radians cs g)).

(** The last [n] elements of a list. *)
Definition last_n {A} (n : nat) (l : list A) : list A :=
  drop (length l - n) l.

(** A generator call leaves these attributes alone. *)
Definition same_store (s s' : FlightDataGenerator.t) : Prop :=
  FlightDataGenerator.history s' = FlightDataGenerator.history s /\
  FlightDataGenerator.max_history s' = FlightDataGenerator.max_history s /\
  FlightDataGenerator.current_data s' = FlightDataGenerator.current_data s /\
  FlightDataGenerator.update_interval s' = FlightDataGenerator.update_interval s.

(** The heading after the wrap of [_update_position]: one turn is taken
    off at 360 or above, one is added below 0. *)
Definition wrap_heading (h : Q) : Q :=
  if Qle_bool 360 h then (h - 360)%Q
  else if Qltb h 0 then (h + 360)%Q else h.

(** The history after appending [fd] under capacity [max_history]. *)
Definition push_history (max_history : Z) (h : list FlightData.t)
    (fd : FlightData.t) : list FlightData.t :=
  if Z.of_nat (length (h ++ [fd])%list) >? max_history
  then drop 1 (h ++ [fd])%list else (h ++ [fd])%list.

(** A field encoder that checks the closed range [lo, hi]: outside it
    raises a [ValueError] and leaves the encoder as it was; inside it
    returns nineteen binary digits and keeps [sdi]. *)
Definition range_checked (f : Q -> M ARINC429Encoder.t string) (lo hi : Q)
    : Prop :=
  forall v self,
    ((v < lo \/ hi < v)%Q ->
       exists msg, f v self = (Raise (ValueError msg), self)) /\
    ((lo <= v /\ v <= hi)%Q ->
       exists d ssm',
         f v self = (Ok d, ARINC429Encoder.mk (ARINC429Encoder.self_sdi self) ssm')
         /\ String.length d = 19%nat /\ all_bits d = true).

(** A field encoder that records the sign in [ssm] and encodes the
    magnitude: a value and its opposite give the same data bits. *)
Definition sign_in_ssm (f : Q -> M ARINC429Encoder.t string) : Prop :=
  forall v self d self',
    f v self = (Ok d, self') ->
    ((v < 0)%Q -> ARINC429Encoder.self_ssm self' = "11") /\
    ((0 <= v)%Q -> ARINC429Encoder.self_ssm self' = "00") /\
    fst (f (- v)%Q self) = Ok d.

(** A field encoder whose words always carry [ssm = "00"]. *)
Definition ssm_always_00 (f : Q -> M ARINC429Encoder.t string) : Prop :=
  forall v self d self',
    f v self = (Ok d, self') -> ARINC429Encoder.self_ssm self' = "00".

(** The string with the binary digit at position [i] inverted. *)
Fixpoint flip_at (i : nat) (s : string) {struct s} : string :=
  match s with
  | EmptyString => EmptyString
  | String a s' =>
      match i with
      | O => String (if Ascii.eqb a "1" then "0" else "1")%char s'
      | S j => String a (flip_at j s')
      end
  end.

(** The divisor that a field's decoder applies to the data value. *)
Definition decode_scale (name : string) : Q :=
  if String.eqb name "latitude" then 10000
  else if String.eqb name "longitude" then 10000
  else if String.eqb name "airspeed" then 10
  else if String.eqb name "heading" then 10
  else 1.

(** The fields whose decoder reads [ssm]. *)
Definition signed_label (lbl : string) : bool :=
  String.eqb lbl "6A" || String.eqb lbl "6B" || String.eqb lbl "6F".

(** ** Further definitions: dictionaries and JSON values *)

(** A JSON-like Python value: what the dictionaries built by the program
    hold and what [json.dumps] receives. *)
#[warnings="-register-all"] Inductive json : Type :=
| JNull
| JNum (q : Q)
| JStr (s : string)
| JList (l : list json)
| JDict (d : list (string * json)).

(** [d[k] = v]: an existing key keeps its place, a new key goes last. *)
Fixpoint dict_set {V} (d : list (string * V)) (k : string) (v : V)
    : list (string * V) :=
  match d with
  | [] => [(k, v)]
  | (k', v') :: d' =>
      if String.eqb k k' then (k, v) :: d' else (k', v') :: dict_set d' k v
  end.


Module ARINC429Data.
Record t : Type := mk {
  flight_data : FlightData.t;
  arinc_messages : list ARINC429Message.t;
  raw_data : list (string * list (string * string))
}.
End ARINC429Data.

Section DataModelsConversions.
(** [datetime.isoformat]; [datetime.fromisoformat], applied to whatever
    value the dictionary holds; and the coercion that pydantic applies to
    a value given for a [float] field ([None] when it refuses it). *)
Variable isoformat : datetime -> string.
Variable fromisoformat : json -> result datetime.
Variable pydantic_float : json -> option Q.

(** utils/data_models.py, [flight_data_to_dict] *)
Definition flight_data_to_dict (flight_data : FlightData.t)
    : list (string * json) :=
  [ ("latitude", JNum (FlightData.latitude flight_data));
    ("longitude", JNum (FlightData.longitude flight_data));
    ("altitude", JNum (FlightData.altitude flight_data));
    ("airspeed", JNum (FlightData.airspeed flight_data));
    ("heading", JNum (FlightData.heading flight_data));
    ("vertical_speed", JNum (FlightData.vertical_speed flight_data));
    ("timestamp", JStr (isoformat (FlightData.timestamp flight_data))) ].

Definition float_field (name : string) (v : json) : result Q :=
  match pydantic_float v with
  | Some q => Ok q
  | None => Raise (ValidationError name)
  end.

(** utils/data_models.py, [dict_to_flight_data]: the seven arguments are
    evaluated in order, then the constructor validates them. *)
Definition dict_to_flight_data (data : list (string * json))
    : result FlightData.t :=
  rbind (dict_index data "latitude") (fun latitude =>
  rbind (dict_index data "longitude") (fun longitude =>
  rbind (dict_index data "altitude") (fun altitude =>
  rbind (dict_index data "airspeed") (fun airspeed =>
  rbind (dict_index data "heading") (fun heading =>
  rbind (dict_index data "vertical_speed") (fun vertical_speed =>
  rbind (dict_index data "timestamp") (fun ts =>
  rbind (fromisoformat ts) (fun timestamp =>
  rbind (float_field "latitude" latitude) (fun lat =>
  rbind (float_field "longitude" longitude) (fun lon =>
  rbind (float_field "altitude" altitude) (fun alt =>
  rbind (float_field "airspeed" airspeed) (fun spd =>
  rbind (float_field "heading" heading) (fun hdg =>
  rbind (float_field "vertical_speed" vertical_speed) (fun vs =>
  FlightData.new lat lon alt spd hdg vs timestamp)))))))))))))).
End DataModelsConversions.

(** ** Further definitions: the rest of data_generator.py *)

Definition set_encoder (v : ARINC429Encoder.t) (s : FlightDataGenerator.t)
    : FlightDataGenerator.t :=
  FlightDataGenerator.mk
    (FlightDataGenerator.update_interval s) v
    (FlightDataGenerator.current_data s) (FlightDataGenerator.history s)
    (FlightDataGenerator.max_history s)
    (FlightDataGenerator.current_latitude s)
    (FlightDataGenerator.current_longitude s)
    (FlightDataGenerator.current_altitude s)
    (FlightDataGenerator.current_airspeed s)
    (FlightDataGenerator.current_heading s)
    (FlightDataGenerator.current_vertical_speed s)
    (FlightDataGenerator.heading_change_rate s)
    (FlightDataGenerator.altitude_change_rate s)
    (FlightDataGenerator.speed_change_rate s).

(** A method of [self.encoder] called from a method of the generator. *)
Definition with_encoder {A} (m : M ARINC429Encoder.t A)
    : M FlightDataGenerator.t A :=
  fun s =>
    let '(r, e) := m (FlightDataGenerator.encoder s) in (r, set_encoder e s).

(** The dictionary stored in [raw_data] for one message. *)
Definition raw_entry (isoformat : datetime -> string)
    (msg : ARINC429Message.t) : list (string * string) :=
  [ ("label", ARINC429Message.label msg);
    ("sdi", ARINC429Message.sdi msg);
    ("data", ARINC429Message.data msg);
    ("ssm", ARINC429Message.ssm msg);
    ("parity", ARINC429Message.parity msg);
    ("timestamp", isoformat (ARINC429Message.timestamp msg)) ].

(** The loop [for msg in arinc_messages: raw_data["label_" + msg.label]
    = {...}]. *)
Definition build_raw_data (isoformat : datetime -> string)
    (arinc_messages : list ARINC429Message.t)
    : list (string * list (string * string)) :=
  fold_left
    (fun raw_data msg =>
       dict_set raw_data ("label_" ++ ARINC429Message.label msg)
                (raw_entry isoformat msg))
    arinc_messages [].

Section GenerateArinc429Data.
Variables cos sin radians : Q -> Q.
Variable isoformat : datetime -> string.

End GenerateArinc429Data.

(** [l[i]] with Python's negative indices. *)
Definition list_index {A} (l : list A) (i : Z) : result A :=
  let n := Z.of_nat (length l) in
  let j := if i <? 0 then i + n else i in
  if (0 <=? j) && (j <? n) then
    match l !! Z.to_nat j with
    | Some x => Ok x
    | None => Raise (IndexError "list index out of range")
    end
  else Raise (IndexError "list index out of range").

(** [x % m] on floats, for [m] other than zero.  C's [fmod] gives the
    remainder of the truncated division, which has the sign of [x] and is
    exact; when it is not zero and its sign is not the one of [m], Python
    adds [m] to it, and this sum is rounded to a double, which
    [float_round] does. *)
Definition py_fmod (float_round : Q -> Q) (x m : Q) : Q :=
  let r := (x - m * inject_Z (py_int (x / m)))%Q in
  if Qeq_bool r 0 then 0%Q
  else if xorb (Qltb m 0) (Qltb r 0) then float_round (r + m)%Q else r.

Module SimulatedFlightDataGenerator.

(** The attributes that the subclass adds to those of the base class. *)
Record t : Type := mk {
  base : FlightDataGenerator.t;
  flight_phase : string;
  waypoints : list (list (string * Q));
  current_waypoint_index : Z
}.

Definition init (update_interval : Q) (now : datetime) : result t :=
  rbind (FlightDataGenerator.init update_interval now) (fun b =>
    Ok (mk b "cruise" [] 0)).

Definition set_base v s :=
  mk v (flight_phase s) (waypoints s) (current_waypoint_index s).
Definition set_waypoints v s :=
  mk (base s) (flight_phase s) v (current_waypoint_index s).
Definition set_current_waypoint_index v s :=
  mk (base s) (flight_phase s) (waypoints s) v.

Definition add_waypoint (latitude longitude altitude : Q) : M t unit :=
  modify (fun s =>
    set_waypoints
      (waypoints s ++ [[("latitude", latitude); ("longitude", longitude);
                        ("altitude", altitude)]])%list s).

Section WithMath.
(** [math.cos], [math.sin], [math.radians], [math.degrees],
    [math.atan2], and the value of [math.sqrt] on a non-negative
    argument. *)
Variables cos sin radians degrees sqrt : Q -> Q.
Variable atan2 : Q -> Q -> Q.
(** The double nearest to a real number: the rounding of a float
    operation, written out where it decides more than the last digit. *)
Variable float_round : Q -> Q.

(** [math.sqrt]: a negative argument is a domain error. *)
Definition py_sqrt (x : Q) : result Q :=
  if Qltb x 0 then Raise (ValueError "math domain error") else Ok (sqrt x).

Definition _calculate_bearing (lat1 lon1 lat2 lon2 : Q) : Q :=
  let lat1_rad := radians lat1 in
  let lat2_rad := radians lat2 in
  let lon_diff_rad := radians (lon2 - lon1) in
  let y := (sin lon_diff_rad * cos lat2_rad)%Q in
  let x := (cos lat1_rad * sin lat2_rad
            - sin lat1_rad * cos lat2_rad * cos lon_diff_rad)%Q in
  let bearing := degrees (atan2 y x) in
  py_fmod float_round (float_round (bearing + 360)) 360.

Definition _calculate_distance (lat1 lon1 lat2 lon2 : Q) : result Q :=
  let lat1_rad := radians lat1 in
  let lat2_rad := radians lat2 in
  let lon_diff_rad := radians (lon2 - lon1) in
  let a := (sin ((lat2_rad - lat1_rad) / 2) * sin ((lat2_rad - lat1_rad) / 2)
            + cos lat1_rad * cos lat2_rad
              * (sin (lon_diff_rad / 2) * sin (lon_diff_rad / 2)))%Q in
  rbind (py_sqrt a) (fun ra =>
  rbind (py_sqrt (1 - a)) (fun rb =>
    let c := (2 * atan2 ra rb)%Q in
    Ok (6371 * c)%Q)).

Definition _navigate_to_waypoint : M t unit :=
  (self <- get ;;
   match waypoints self with
   | [] => ret tt
   | _ =>
     if Z.of_nat (length (waypoints self)) <=? current_waypoint_index self
     then ret tt
     else
       waypoint <- lift (list_index (waypoints self)
                           (current_waypoint_index self)) ;;
       wp_lat <- lift (dict_index waypoint "latitude") ;;
       wp_lon <- lift (dict_index waypoint "longitude") ;;
       let b := base self in
       let target_heading :=
         _calculate_bearing (FlightDataGenerator.current_latitude b)
           (FlightDataGenerator.current_longitude b) wp_lat wp_lon in
       let heading_diff :=
         (target_heading - FlightDataGenerator.current_heading b)%Q in
       let heading_diff :=
         if Qltb 180 heading_diff then (heading_diff - 360)%Q
         else if Qltb heading_diff (-180) then (heading_diff + 360)%Q
         else heading_diff in
       let max_turn_rate := 3%Q in
       (if Qltb 1 (Qabs heading_diff)
        then modify (fun s => set_base
                       (FlightDataGenerator.set_heading_change_rate
                          (py_max (- max_turn_rate)
                             (py_min max_turn_rate heading_diff))
                          (base s)) s)
        else modify (fun s => set_base
                       (FlightDataGenerator.set_heading_change_rate 0
                          (base s)) s)) ;;;
       wp_lat' <- lift (dict_index waypoint "latitude") ;;
       wp_lon' <- lift (dict_index waypoint "longitude") ;;
       distance <- lift (_calculate_distance
                           (FlightDataGenerator.current_latitude b)
                           (FlightDataGenerator.current_longitude b)
                           wp_lat' wp_lon') ;;
       if Qltb distance 0.01
       then modify (fun s => set_current_waypoint_index
                               (current_waypoint_index s + 1) s)
       else ret tt
   end)%py.
End WithMath.
End SimulatedFlightDataGenerator.

(** What holds between the calls on a generator that was built by
    [__init__]: the capacity is positive, and the history ends with the
    sample recorded as current. *)
Definition current_is_newest (s : FlightDataGenerator.t) : Prop :=
  1 <= FlightDataGenerator.max_history s /\
  exists h fd, FlightDataGenerator.history s = (h ++ [fd])%list /\ FlightDataGenerator.current_data s = Some fd.

(** A waypoint as [add_waypoint] stores it. *)
Definition waypoint_added (w : list (string * Q)) : Prop :=
  exists latitude longitude altitude,
    w = [("latitude", latitude); ("longitude", longitude);
         ("altitude", altitude)].

(** ** Further definitions: manual_dashboard.py *)

Module ManualARINC429Dashboard.

(** The two attributes that [process_flight_data] uses. *)
Record t : Type := mk {
  encoder : ARINC429Encoder.t;
  flight_history : list ARINC429Data.t
}.

Definition init : t := mk ARINC429Encoder.init [].

(** A method of [self.encoder] called from a method of the dashboard. *)
Definition with_encoder {A} (m : M ARINC429Encoder.t A) : M t A :=
  fun s => let '(r, e) := m (encoder s) in (r, mk e (flight_history s)).

Section WithEnvironment.
Variable isoformat : datetime -> string.

(** [process_flight_data], called at clock reading [now]; [None] is the
    value returned by the handler of the [try]. *)
Definition process_flight_data
    (latitude longitude altitude airspeed heading vertical_speed : Q)
    (now : datetime) : M t (option ARINC429Data.t) :=
  try_except
    (flight_data <- lift (FlightData.new latitude longitude altitude
                            airspeed heading vertical_speed now) ;;
     arinc_messages <-
       with_encoder (ARINC429Encoder.encode_flight_data flight_data) ;;
     let raw_data := build_raw_data isoformat arinc_messages in
     let arinc_data :=
       ARINC429Data.mk flight_data arinc_messages raw_data in
     modify (fun s => mk (encoder s) (flight_history s ++ [arinc_data])%list) ;;;
     ret (Some arinc_data))%py
    (fun _ => ret None).
End WithEnvironment.
End ManualARINC429Dashboard.

(** ** Further definitions: the rest of api_server.py *)

(** The dictionary of the six values of a sample, and the dictionary of
    the five string fields of a message, as the handlers write them. *)
Definition flight_fields (fd : FlightData.t) : list (string * json) :=
  [ ("latitude", JNum (FlightData.latitude fd));
    ("longitude", JNum (FlightData.longitude fd));
    ("altitude", JNum (FlightData.altitude fd));
    ("airspeed", JNum (FlightData.airspeed fd));
    ("heading", JNum (FlightData.heading fd));
    ("vertical_speed", JNum (FlightData.vertical_speed fd)) ].

Definition message_fields (msg : ARINC429Message.t) : json :=
  JDict [ ("label", JStr (ARINC429Message.label msg));
          ("sdi", JStr (ARINC429Message.sdi msg));
          ("data", JStr (ARINC429Message.data msg));
          ("ssm", JStr (ARINC429Message.ssm msg));
          ("parity", JStr (ARINC429Message.parity msg)) ].

(** A request made with [requests.post]: url, JSON body, headers. *)
Definition http_request : Type := string * json * list (string * string).

Module Routes.
Section WithEnvironment.
Variable isoformat : datetime -> string.
Variable str_exn : exn -> string.

(** [GET /api/current-data], on the server's generator.  A [FlightData]
    object is true in a condition, so the [else] branch is the one of
    [None]; the [raise] of that branch is inside the [try]. *)
Definition get_current_data (data_generator : FlightDataGenerator.t)
    : result json :=
  match
    match FlightDataGenerator.get_current_data data_generator with
    | Some current_data =>
        Ok (JDict
              [ ("status", JStr "success");
                ("data",
                 JDict (flight_fields current_data ++
                        [("timestamp",
                          JStr (isoformat (FlightData.timestamp current_data)))])%list) ])
    | None => Raise (HTTPException 404 "Veri bulunamadı")
    end
  with
  | Ok body => Ok body
  | Raise e => Raise (HTTPException 500 (str_exn e))
  end.
End WithEnvironment.
End Routes.

Section ExternalSystems.
Variable isoformat : datetime -> string.
(** [requests.post(url, json=payload, headers=headers, timeout=10)]: the
    status code of the response, or the exception raised. *)
Variable post_result : http_request -> result Z.

(** The body sent to the external systems. *)
Definition external_payload (arinc_data : ARINC429Data.t) : json :=
  let fd := ARINC429Data.flight_data arinc_data in
  JDict [ ("timestamp", JStr (isoformat (FlightData.timestamp fd)));
          ("flight_data", JDict (flight_fields fd));
          ("arinc_messages",
           JList (map message_fields (ARINC429Data.arinc_messages arinc_data))) ].

(** The state is the list of requests made so far, oldest first. *)
Definition requests_post (request : http_request) : M (list http_request) Z :=
  fun sent => (post_result request, (sent ++ [request])%list).

(** The loop of [_send_to_external_systems] over [self.external_configs];
    what is logged is not part of the model, so the two branches on the
    status code are the same. *)
Fixpoint external_loop (configs : list ExternalConfig.t)
    (arinc_data : ARINC429Data.t) : M (list http_request) unit :=
  match configs with
  | [] => ret tt
  | config :: rest =>
      ((if negb (ExternalConfig.enabled config) then ret tt
        else
          try_except
            (let payload := external_payload arinc_data in
             status_code <- requests_post (ExternalConfig.url config, payload,
                                           ExternalConfig.headers config) ;;
             if status_code =? 200 then ret tt else ret tt)
            (fun _ => ret tt)) ;;;
       external_loop rest arinc_data)%py
  end.

Definition _send_to_external_systems (self : ARINC429APIServer.t)
    (arinc_data : ARINC429Data.t) : M (list http_request) unit :=
  external_loop (ARINC429APIServer.external_configs self) arinc_data.
End ExternalSystems.




Section DataGenerationLoop.
Variables cos sin radians : Q -> Q.
Variable isoformat : datetime -> string.
Variable json_dumps : json -> string.
Variable send_fails : WebSocket -> bool.
Variable post_result : http_request -> result Z.

End DataGenerationLoop.

(** Two generators that differ at most in [altitude_change_rate]. *)
Definition differ_in_altitude_rate (s s' : FlightDataGenerator.t) : Prop :=
  exists a, s' = FlightDataGenerator.set_altitude_change_rate a s.

(** * Properties *)

(** ** Strings of binary digits *)

Lemma str_count_append c (s1 s2 : string) :
  str_count c (s1 ++ s2) = str_count c s1 + str_count c s2.
Proof.
  induction s1 as [|a s1 IH]; simpl; [reflexivity|]. rewrite IH. lia.
Qed.

Lemma length_append (s1 s2 : string) :
  String.length (s1 ++ s2) = (String.length s1 + String.length s2)%nat.
Proof.
  induction s1 as [|a s1 IH]; simpl; [reflexivity|]. now rewrite IH.
Qed.

Lemma all_bits_append (s1 s2 : string) :
  all_bits (s1 ++ s2) = all_bits s1 && all_bits s2.
Proof.
  induction s1 as [|a s1 IH]; simpl; [reflexivity|].
  rewrite IH. now rewrite andb_assoc.
Qed.

Lemma str_count_zeros n : str_count "1" (zeros n) = 0.
Proof. induction n as [|n IH]; simpl; [reflexivity|]. now rewrite IH. Qed.

Lemma length_zeros n : String.length (zeros n) = n.
Proof. induction n as [|n IH]; simpl; [reflexivity|]. now rewrite IH. Qed.

Lemma all_bits_zeros n : all_bits (zeros n) = true.
Proof. induction n as [|n IH]; simpl; [reflexivity|]. exact IH. Qed.

Lemma str_count_pos_digits p acc :
  str_count "1" (pos_digits p acc) = pos_popcount p + str_count "1" acc.
Proof.
  revert acc. induction p as [q IH|q IH|]; intros acc; simpl.
  - rewrite IH. simpl. lia.
  - rewrite IH. simpl. lia.
  - lia.
Qed.

Lemma length_pos_digits p acc :
  String.length (pos_digits p acc) = (Pos.size_nat p + String.length acc)%nat.
Proof.
  revert acc. induction p as [q IH|q IH|]; intros acc; simpl;
    try rewrite IH; simpl; lia.
Qed.

Lemma all_bits_pos_digits p acc :
  all_bits (pos_digits p acc) = all_bits acc.
Proof.
  revert acc. induction p as [q IH|q IH|]; intros acc; simpl;
    try rewrite IH; reflexivity.
Qed.

Lemma size_nat_bound p (w : nat) :
  Zpos p < 2 ^ Z.of_nat w -> (Pos.size_nat p <= w)%nat.
Proof.
  revert w. induction p as [q IH|q IH|]; intros w H; simpl.
  - destruct w as [|w]; [simpl in H; lia|].
    rewrite Nat2Z.inj_succ, Z.pow_succ_r in H by lia.
    specialize (IH w). lia.
  - destruct w as [|w]; [simpl in H; lia|].
    rewrite Nat2Z.inj_succ, Z.pow_succ_r in H by lia.
    specialize (IH w). lia.
  - destruct w as [|w]; [simpl in H; lia|]. lia.
Qed.

Lemma parse_pos_digits p acc a :
  parse_digits bin_digit 2 a (pos_digits p acc) =
  parse_digits bin_digit 2 (a * 2 ^ Z.of_nat (Pos.size_nat p) + Zpos p) acc.
Proof.
  revert acc a. induction p as [q IH|q IH|]; intros acc a.
  - simpl pos_digits. rewrite IH. cbn [parse_digits bin_digit Ascii.eqb].
    simpl Pos.size_nat. rewrite Nat2Z.inj_succ, Z.pow_succ_r by lia.
    f_equal. change (Z.pos q~1) with (2 * Z.pos q + 1).
    cbn [Bool.eqb]. ring.
  - simpl pos_digits. rewrite IH. cbn [parse_digits bin_digit Ascii.eqb].
    simpl Pos.size_nat. rewrite Nat2Z.inj_succ, Z.pow_succ_r by lia.
    f_equal. change (Z.pos q~0) with (2 * Z.pos q).
    cbn [Bool.eqb]. ring.
  - cbn [pos_digits parse_digits bin_digit Ascii.eqb Bool.eqb].
    f_equal. simpl. lia.
Qed.

Lemma parse_zeros n s :
  parse_digits bin_digit 2 0 (zeros n ++ s) = parse_digits bin_digit 2 0 s.
Proof. induction n as [|n IH]; simpl; [reflexivity|]. exact IH. Qed.

Lemma scan_digits_bits s acc any :
  all_bits s = true ->
  scan_digits bin_digit 2 acc any false s =
  match parse_digits bin_digit 2 acc s with
  | Some v => Some (v, any || negb (String.eqb s ""), EmptyString)
  | None => None
  end.
Proof.
  revert acc any. induction s as [|a s IH]; intros acc any Hb.
  - cbn. now rewrite orb_false_r.
  - cbn [all_bits] in Hb. apply andb_prop in Hb as [Ha Hs].
    cbn [scan_digits parse_digits].
    assert (Hd : Ascii.eqb a "_" = false /\ exists d, bin_digit a = Some d).
    { apply orb_prop in Ha. destruct Ha as [Ha|Ha];
        apply Ascii.eqb_eq in Ha; subst a; split; try reflexivity;
        eexists; reflexivity. }
    destruct Hd as [Hu (d & Hd)]. rewrite Hu, Hd. rewrite IH by exact Hs.
    destruct (parse_digits bin_digit 2 (2 * acc + d) s); [|reflexivity].
    cbn [String.eqb negb]. now rewrite orb_true_r.
Qed.

(** On a non-empty string of binary digits [int(s, 2)] reads the digits:
    there is no blank, sign, prefix or underscore to take care of. *)
Lemma py_int_str_nonempty s :
  all_bits s = true -> (0 < String.length s)%nat ->
  int2 s =
  match parse_digits bin_digit 2 0 s with
  | Some v => Ok v
  | None => Raise (ValueError "invalid literal for int()")
  end.
Proof.
  intros Hb Hlen. destruct s as [|a s]; [cbn in Hlen; lia|].
  pose proof Hb as Hb'. cbn [all_bits] in Hb'.
  apply andb_prop in Hb' as [Ha Hs].
  assert (Hskip : skip_spaces (String a s) = String a s).
  { apply orb_prop in Ha. destruct Ha as [Ha|Ha];
      apply Ascii.eqb_eq in Ha; subst a; reflexivity. }
  assert (Hsign : strip_sign (String a s) = (false, String a s)).
  { apply orb_prop in Ha. destruct Ha as [Ha|Ha];
      apply Ascii.eqb_eq in Ha; subst a; reflexivity. }
  assert (Hpre : strip_prefix (fun a => Ascii.eqb a "b" || Ascii.eqb a "B")
                   (String a s) = String a s).
  { destruct s as [|b s]; [reflexivity|].
    cbn [all_bits] in Hs. apply andb_prop in Hs as [Hb0 _].
    assert (Hl : Ascii.eqb b "b" || Ascii.eqb b "B" = false).
    { apply orb_prop in Hb0. destruct Hb0 as [Hb0|Hb0];
        apply Ascii.eqb_eq in Hb0; subst b; reflexivity. }
    cbn [strip_prefix]. rewrite Hl, andb_false_r. reflexivity. }
  assert (Hu : Ascii.eqb a "_" = false).
  { apply orb_prop in Ha. destruct Ha as [Ha|Ha];
      apply Ascii.eqb_eq in Ha; subst a; reflexivity. }
  unfold int2, py_int_str. rewrite Hskip, Hsign. cbv zeta. rewrite Hpre, Hu.
  rewrite (scan_digits_bits (String a s) 0 false Hb).
  destruct (parse_digits bin_digit 2 0 (String a s)); reflexivity.
Qed.

Lemma length_bin_digits_pos v : (0 < String.length (bin_digits v))%nat.
Proof.
  destruct v as [|p|p]; simpl; try lia;
    rewrite length_pos_digits; destruct p; simpl; lia.
Qed.

Lemma str_count_format_b w v :
  0 <= v -> str_count "1" (format_b w v) = popcount v.
Proof.
  intros Hv. destruct v as [|p|p]; [| |lia]; unfold format_b;
    rewrite str_count_append, str_count_zeros; simpl.
  - reflexivity.
  - rewrite str_count_pos_digits. simpl. lia.
Qed.

Lemma str_count_bin v : 0 <= v -> str_count "1" (bin v) = popcount v.
Proof.
  intros Hv. destruct v as [|p|p]; [| |lia]; simpl.
  - reflexivity.
  - rewrite str_count_pos_digits. simpl. lia.
Qed.

Lemma all_bits_format_b w v : 0 <= v -> all_bits (format_b w v) = true.
Proof.
  intros Hv. destruct v as [|p|p]; [| |lia]; unfold format_b;
    rewrite all_bits_append, all_bits_zeros; simpl.
  - reflexivity.
  - now rewrite all_bits_pos_digits.
Qed.

(** A number that fits in [w] bits is formatted on exactly [w]
    characters. *)
Lemma length_format_b (w : nat) v :
  (0 < w)%nat -> 0 <= v < 2 ^ Z.of_nat w -> String.length (format_b w v) = w.
Proof.
  intros Hw [Hv Hlt]. destruct v as [|p|p]; [| |lia]; unfold format_b;
    rewrite length_append, length_zeros.
  - simpl. lia.
  - simpl bin_digits. rewrite length_pos_digits. simpl.
    pose proof (size_nat_bound p w Hlt). lia.
Qed.

(** Reading back a formatted non-negative number gives the number. *)
Lemma int2_format_b w v : 0 <= v -> int2 (format_b w v) = Ok v.
Proof.
  intros Hv. rewrite py_int_str_nonempty.
  - destruct v as [|p|p]; [| |lia]; unfold format_b.
    + rewrite parse_zeros. reflexivity.
    + rewrite parse_zeros. simpl bin_digits. rewrite parse_pos_digits.
      simpl. reflexivity.
  - apply all_bits_format_b. exact Hv.
  - pose proof (length_bin_digits_pos v) as Hd.
    destruct v as [|p|p]; [| |lia]; unfold format_b;
      rewrite length_append; lia.
Qed.

(** ** Counting set bits *)

Lemma popcount_nonneg z : 0 <= popcount z.
Proof.
  destruct z as [|p|p]; simpl; try lia.
  induction p; simpl; lia.
Qed.

Lemma popcount_double x b :
  0 <= x -> (b = 0 \/ b = 1) -> popcount (2 * x + b) = popcount x + b.
Proof.
  intros Hx [-> | ->]; destruct x as [|p|p]; try lia;
    try reflexivity.
  - change (2 * Z.pos p + 0) with (Z.pos p~0). simpl. lia.
  - change (2 * Z.pos p + 1) with (Z.pos p~1). simpl. lia.
Qed.

Lemma popcount_shiftl a n :
  0 <= a -> 0 <= n -> popcount (Z.shiftl a n) = popcount a.
Proof.
  intros Ha Hn. rewrite Z.shiftl_mul_pow2 by lia.
  pattern n. apply natlike_ind; [|clear n Hn; intros n Hn IH|exact Hn].
  - now rewrite Z.mul_1_r.
  - rewrite Z.pow_succ_r by lia.
    replace (a * (2 * 2 ^ n)) with (2 * (a * 2 ^ n) + 0) by ring.
    rewrite popcount_double; [rewrite IH; lia| |now left].
    apply Z.mul_nonneg_nonneg; [lia|]. apply Z.pow_nonneg. lia.
Qed.

Lemma pos_popcount_lor p q :
  Pos.land p q = N0 ->
  pos_popcount (Pos.lor p q) = pos_popcount p + pos_popcount q.
Proof.
  revert q. induction p as [p IH|p IH|]; intros [q|q|] H.
  - change (Pos.land (xI p) (xI q)) with (Pos.Nsucc_double (Pos.land p q)) in H.
    destruct (Pos.land p q); discriminate H.
  - change (Pos.land (xI p) (xO q)) with (Pos.Ndouble (Pos.land p q)) in H.
    change (Pos.lor (xI p) (xO q)) with (xI (Pos.lor p q)).
    destruct (Pos.land p q) eqn:E; [|discriminate H].
    cbn [pos_popcount]. rewrite (IH q E). lia.
  - discriminate H.
  - change (Pos.land (xO p) (xI q)) with (Pos.Ndouble (Pos.land p q)) in H.
    change (Pos.lor (xO p) (xI q)) with (xI (Pos.lor p q)).
    destruct (Pos.land p q) eqn:E; [|discriminate H].
    cbn [pos_popcount]. rewrite (IH q E). lia.
  - change (Pos.land (xO p) (xO q)) with (Pos.Ndouble (Pos.land p q)) in H.
    change (Pos.lor (xO p) (xO q)) with (xO (Pos.lor p q)).
    destruct (Pos.land p q) eqn:E; [|discriminate H].
    cbn [pos_popcount]. exact (IH q E).
  - change (Pos.lor (xO p) xH) with (xI p). cbn [pos_popcount]. lia.
  - discriminate H.
  - change (Pos.lor xH (xO q)) with (xI q). cbn [pos_popcount]. lia.
  - discriminate H.
Qed.

Lemma popcount_lor a b :
  0 <= a -> 0 <= b -> Z.land a b = 0 ->
  popcount (Z.lor a b) = popcount a + popcount b.
Proof.
  intros Ha Hb H. destruct a as [|p|p]; [now rewrite Z.lor_0_l| |lia].
  destruct b as [|q|q]; [rewrite Z.lor_0_r; cbn [popcount]; lia| |lia].
  change (Z.land (Zpos p) (Zpos q)) with (Z.of_N (Pos.land p q)) in H.
  change (Z.lor (Zpos p) (Zpos q)) with (Zpos (Pos.lor p q)).
  cbn [popcount]. apply pos_popcount_lor.
  destruct (Pos.land p q); [reflexivity|discriminate].
Qed.

(** ** Bit positions of the shifted fields *)

Lemma above_shiftl x n : 0 <= n -> above n (Z.shiftl x n).
Proof. intros Hn i Hi. apply Z.shiftl_spec_low. exact Hi. Qed.

Lemma above_weaken m n x : m <= n -> above n x -> above m x.
Proof. intros Hmn H i Hi. apply H. lia. Qed.

Lemma above_lor n a b : above n a -> above n b -> above n (Z.lor a b).
Proof.
  intros Ha Hb i Hi. rewrite Z.lor_spec, (Ha i Hi), (Hb i Hi). reflexivity.
Qed.

Lemma below_small x w : 0 <= x < 2 ^ w -> 0 <= w -> below w x.
Proof.
  intros [H0 Hlt] Hw i Hi.
  destruct (Z.eq_dec x 0) as [->|Hne]; [apply Z.bits_0|].
  apply Z.bits_above_log2; [exact H0|].
  assert (Z.log2 x < w) by (apply Z.log2_lt_pow2; lia). lia.
Qed.

Lemma below_shiftl x w n :
  0 <= x < 2 ^ w -> 0 <= w -> 0 <= n -> below (n + w) (Z.shiftl x n).
Proof.
  intros Hx Hw Hn i Hi. rewrite Z.shiftl_spec by lia.
  apply (below_small x w Hx Hw). lia.
Qed.

Lemma land_above_below n a b : above n a -> below n b -> Z.land a b = 0.
Proof.
  intros Ha Hb. apply Z.bits_inj'. intros i Hi.
  rewrite Z.land_spec, Z.bits_0.
  destruct (Z_lt_le_dec i n) as [Hlt|Hge].
  - now rewrite (Ha i Hlt).
  - rewrite (Hb i Hge). apply andb_false_r.
Qed.

(** The set bits of the packed word are those of its four fields. *)
Lemma popcount_word l s d m :
  0 <= l -> 0 <= s < 4 -> 0 <= d < 2 ^ 19 -> 0 <= m < 4 ->
  popcount (Z.lor (Z.lor (Z.lor (Z.shiftl l 24) (Z.shiftl s 22))
                         (Z.shiftl d 3)) (Z.shiftl m 1))
  = popcount l + popcount s + popcount d + popcount m.
Proof.
  intros Hl Hs Hd Hm.
  assert (Hl' : 0 <= Z.shiftl l 24) by (apply Z.shiftl_nonneg; lia).
  assert (Hs' : 0 <= Z.shiftl s 22) by (apply Z.shiftl_nonneg; lia).
  assert (Hd' : 0 <= Z.shiftl d 3) by (apply Z.shiftl_nonneg; lia).
  assert (Hm' : 0 <= Z.shiftl m 1) by (apply Z.shiftl_nonneg; lia).
  assert (Hls : 0 <= Z.lor (Z.shiftl l 24) (Z.shiftl s 22))
    by (apply Z.lor_nonneg; split; assumption).
  assert (Hlsd : 0 <= Z.lor (Z.lor (Z.shiftl l 24) (Z.shiftl s 22))
                            (Z.shiftl d 3))
    by (apply Z.lor_nonneg; split; assumption).
  assert (A1 : above 22 (Z.lor (Z.shiftl l 24) (Z.shiftl s 22))).
  { apply above_lor; [|apply above_shiftl; lia].
    apply (above_weaken 22 24); [lia|apply above_shiftl; lia]. }
  assert (A2 : above 3 (Z.lor (Z.lor (Z.shiftl l 24) (Z.shiftl s 22))
                              (Z.shiftl d 3))).
  { apply above_lor; [|apply above_shiftl; lia].
    apply (above_weaken 3 22); [lia|exact A1]. }
  rewrite popcount_lor; [|assumption|assumption|].
  2: { apply (land_above_below 3); [exact A2|].
       apply (below_shiftl m 2 1); lia. }
  rewrite popcount_lor; [|assumption|assumption|].
  2: { apply (land_above_below 22); [exact A1|].
       apply (below_shiftl d 19 3); lia. }
  rewrite popcount_lor; [|assumption|assumption|].
  2: { apply (land_above_below 24); [apply above_shiftl; lia|].
       apply (below_shiftl s 2 22); lia. }
  rewrite !popcount_shiftl by lia. reflexivity.
Qed.

(** Reading a string of binary digits: the value, its size and its set
    bits. *)
Lemma parse_bits s a :
  all_bits s = true -> 0 <= a ->
  exists v, parse_digits bin_digit 2 a s = Some v /\
            a * 2 ^ Z.of_nat (String.length s) <= v
              < (a + 1) * 2 ^ Z.of_nat (String.length s) /\
            popcount v = popcount a + str_count "1" s.
Proof.
  revert a. induction s as [|c s IH]; intros a Hb Ha.
  - exists a. simpl. repeat split; lia.
  - cbn [all_bits] in Hb. apply andb_prop in Hb as [Hc Hs].
    assert (Hd : exists d, bin_digit c = Some d /\ (d = 0 \/ d = 1) /\
                           (if Ascii.eqb c "1" then 1 else 0) = d).
    { unfold bin_digit. destruct (Ascii.eqb c "0") eqn:E0.
      - apply Ascii.eqb_eq in E0. subst c. exists 0. auto.
      - destruct (Ascii.eqb c "1") eqn:E1; [|discriminate Hc].
        exists 1. auto. }
    destruct Hd as (d & Hd & Hd01 & Hcnt).
    destruct (IH (2 * a + d) Hs ltac:(lia)) as (v & Hv & Hrange & Hpc).
    exists v. cbn [parse_digits String.length str_count].
    rewrite Hd, Hcnt. split; [exact Hv|].
    rewrite Nat2Z.inj_succ, Z.pow_succ_r by lia.
    rewrite popcount_double in Hpc by assumption.
    split; [|lia].
    assert (0 < 2 ^ Z.of_nat (String.length s)) by (apply Z.pow_pos_nonneg; lia).
    nia.
Qed.

Lemma int2_bits s :
  all_bits s = true -> (0 < String.length s)%nat ->
  exists v, int2 s = Ok v /\ 0 <= v < 2 ^ Z.of_nat (String.length s) /\
            popcount v = str_count "1" s.
Proof.
  intros Hb Hlen. destruct (parse_bits s 0 Hb ltac:(lia)) as (v & Hv & Hr & Hp).
  exists v. rewrite py_int_str_nonempty, Hv by assumption.
  repeat split; try lia. exact Hp.
Qed.

Lemma append_assoc (s1 s2 s3 : string) : (s1 ++ s2) ++ s3 = s1 ++ (s2 ++ s3).
Proof. induction s1 as [|a s1 IH]; simpl; [reflexivity|]. now rewrite IH. Qed.

(** ** The parity bit of a well-formed word *)

Lemma parity_word_valid label sdi data ssm l :
  int16 label = Ok l -> 0 <= l < 256 ->
  all_bits sdi = true -> String.length sdi = 2%nat ->
  all_bits data = true -> String.length data = 19%nat ->
  all_bits ssm = true -> String.length ssm = 2%nat ->
  let bits31 := format_b 8 l ++ sdi ++ data ++ ssm in
  exists p,
    ARINC429Encoder.calculate_parity label sdi data ssm = Ok p /\
    String.length bits31 = 31%nat /\
    p = (if str_count "1" bits31 mod 2 =? 0 then "1" else "0") /\
    create_arinc429_word (PyInt l) sdi data ssm p = Ok (bits31 ++ p) /\
    String.length (bits31 ++ p) = 32%nat /\
    str_count "1" (bits31 ++ p) mod 2 = 1 /\
    validate_arinc429_word (bits31 ++ p) = true.
Proof.
  intros Hl Hlr Hsb Hsl Hdb Hdl Hmb Hml bits31.
  destruct (int2_bits sdi Hsb ltac:(lia)) as (s & Hs & Hsr & Hsp).
  destruct (int2_bits data Hdb ltac:(lia)) as (d & Hd & Hdr & Hdp).
  destruct (int2_bits ssm Hmb ltac:(lia)) as (m & Hm & Hmr & Hmp).
  rewrite Hsl in Hsr. rewrite Hdl in Hdr. rewrite Hml in Hmr.
  change (2 ^ Z.of_nat 2) with 4 in *.
  change (2 ^ Z.of_nat 19) with (2 ^ 19) in *.
  assert (Hcount : str_count "1" bits31 =
                   popcount l + popcount s + popcount d + popcount m).
  { unfold bits31. rewrite !str_count_append, str_count_format_b by lia. lia. }
  assert (Hlen : String.length bits31 = 31%nat).
  { unfold bits31. rewrite !length_append, Hsl, Hdl, Hml.
    rewrite (length_format_b 8 l); [reflexivity|lia|].
    change (2 ^ Z.of_nat 8) with 256. lia. }
  set (p := if str_count "1" bits31 mod 2 =? 0 then "1" else "0").
  assert (Hp : str_count "1" p = if str_count "1" bits31 mod 2 =? 0 then 1 else 0).
  { unfold p. destruct (str_count "1" bits31 mod 2 =? 0); reflexivity. }
  assert (Hplen : String.length p = 1%nat).
  { unfold p. destruct (str_count "1" bits31 mod 2 =? 0); reflexivity. }
  assert (Hodd : str_count "1" (bits31 ++ p) mod 2 = 1).
  { rewrite str_count_append, Hp.
    destruct (str_count "1" bits31 mod 2 =? 0) eqn:E.
    - apply Z.eqb_eq in E. rewrite Z.add_mod, E by lia. reflexivity.
    - apply Z.eqb_neq in E. rewrite Z.add_0_r.
      pose proof (Z.mod_pos_bound (str_count "1" bits31) 2 ltac:(lia)). lia. }
  assert (Hlen32 : String.length (bits31 ++ p) = 32%nat)
    by (rewrite length_append, Hlen, Hplen; reflexivity).
  assert (Hword : 0 <= Z.lor (Z.lor (Z.lor (Z.shiftl l 24) (Z.shiftl s 22))
                                     (Z.shiftl d 3)) (Z.shiftl m 1)).
  { repeat (apply Z.lor_nonneg; split); apply Z.shiftl_nonneg; lia. }
  exists p. split; [|split; [exact Hlen|split; [reflexivity|split;
    [|split; [exact Hlen32|split; [exact Hodd|]]]]]].
  - unfold ARINC429Encoder.calculate_parity. rewrite Hl, Hs, Hd, Hm.
    cbn [rbind]. rewrite (str_count_bin _ Hword).
    rewrite popcount_word by lia.
    unfold p. rewrite Hcount. reflexivity.
  - unfold create_arinc429_word, bits31. now rewrite !append_assoc.
  - unfold validate_arinc429_word. rewrite Hlen32, Hodd. reflexivity.
Qed.

(** ** The six field encoders *)

Import ARINC429Encoder.

Ltac run_py :=
  cbv [bind ret raise modify get lift try_except set_ssm].

Lemma encode_latitude_run v self :
  encode_latitude v self =
  if Qltb v (-90) || Qltb 90 v
  then (Raise (ValueError "Enlem -90 ile +90 arasında olmalıdır"), self)
  else (Ok (format_b 19 (Z.land (py_int (Qabs v * 10000)) 0x7FFFF)),
        ARINC429Encoder.mk (self_sdi self)
          (if Qle_bool 0 v then "00" else "11")).
Proof.
  unfold encode_latitude.
  destruct (Qltb v (-90) || Qltb 90 v); [reflexivity|].
  destruct (Qle_bool 0 v); reflexivity.
Qed.

Lemma encode_longitude_run v self :
  encode_longitude v self =
  if Qltb v (-180) || Qltb 180 v
  then (Raise (ValueError "Boylam -180 ile +180 arasında olmalıdır"), self)
  else (Ok (format_b 19 (Z.land (py_int (Qabs v * 10000)) 0x7FFFF)),
        ARINC429Encoder.mk (self_sdi self)
          (if Qle_bool 0 v then "00" else "11")).
Proof.
  unfold encode_longitude.
  destruct (Qltb v (-180) || Qltb 180 v); [reflexivity|].
  destruct (Qle_bool 0 v); reflexivity.
Qed.

Lemma encode_altitude_run v self :
  encode_altitude v self =
  if Qltb v 0 || Qltb 50000 v
  then (Raise (ValueError "İrtifa 0-50000 feet arasında olmalıdır"), self)
  else (Ok (format_b 19 (Z.land (py_int v) 0x7FFFF)),
        ARINC429Encoder.mk (self_sdi self) "00").
Proof.
  unfold encode_altitude. destruct (Qltb v 0 || Qltb 50000 v); reflexivity.
Qed.

Lemma encode_airspeed_run v self :
  encode_airspeed v self =
  if Qltb v 0 || Qltb 1000 v
  then (Raise (ValueError "Hava hızı 0-1000 knots arasında olmalıdır"), self)
  else (Ok (format_b 19 (Z.land (py_int (v * 10)) 0x7FFFF)),
        ARINC429Encoder.mk (self_sdi self) "00").
Proof.
  unfold encode_airspeed. destruct (Qltb v 0 || Qltb 1000 v); reflexivity.
Qed.

Lemma encode_heading_run v self :
  encode_heading v self =
  if Qltb v 0 || Qltb 360 v
  then (Raise (ValueError "Yön 0-360 derece arasında olmalıdır"), self)
  else (Ok (format_b 19 (Z.land (py_int (v * 10)) 0x7FFFF)),
        ARINC429Encoder.mk (self_sdi self) "00").
Proof.
  unfold encode_heading. destruct (Qltb v 0 || Qltb 360 v); reflexivity.
Qed.

Lemma encode_vertical_speed_run v self :
  encode_vertical_speed v self =
  if Qltb v (-10000) || Qltb 10000 v
  then (Raise (ValueError
          "Dikey hız -10000 ile +10000 feet/dakika arasında olmalıdır"), self)
  else (Ok (format_b 19 (Z.land (py_int (Qabs v)) 0x7FFFF)),
        ARINC429Encoder.mk (self_sdi self)
          (if Qle_bool 0 v then "00" else "11")).
Proof.
  unfold encode_vertical_speed.
  destruct (Qltb v (-10000) || Qltb 10000 v); [reflexivity|].
  destruct (Qle_bool 0 v); reflexivity.
Qed.

Lemma ssm_choice (b : bool) :
  (if b then "00" else "11") = "00" \/ (if b then "00" else "11") = "11".
Proof. destruct b; auto. Qed.

(** Every entry of the encodings list has one of the two shapes, and its
    name has a label. *)
Lemma encodings_shape fd name v f :
  In (name, v, f) (encodings fd) ->
  encoder_shape v f /\
  exists lbl, dict_index LABELS name = Ok lbl /\ In lbl label_order.
Proof.
  unfold encodings. intros H.
  repeat (destruct H as [H|H]; [inversion H; subst; clear H|]);
    [ | | | | | |destruct H].
  - split; [|exists "6A"; split; [reflexivity|simpl; tauto]].
    destruct (Qltb (FlightData.latitude fd) (-90)
              || Qltb 90 (FlightData.latitude fd)) eqn:E.
    + eapply shape_raise. intros self. rewrite encode_latitude_run, E.
      reflexivity.
    + eapply shape_ok; [apply ssm_choice|]. intros self.
      rewrite encode_latitude_run, E. reflexivity.
  - split; [|exists "6B"; split; [reflexivity|simpl; tauto]].
    destruct (Qltb (FlightData.longitude fd) (-180)
              || Qltb 180 (FlightData.longitude fd)) eqn:E.
    + eapply shape_raise. intros self. rewrite encode_longitude_run, E.
      reflexivity.
    + eapply shape_ok; [apply ssm_choice|]. intros self.
      rewrite encode_longitude_run, E. reflexivity.
  - split; [|exists "6C"; split; [reflexivity|simpl; tauto]].
    destruct (Qltb (FlightData.altitude fd) 0
              || Qltb 50000 (FlightData.altitude fd)) eqn:E.
    + eapply shape_raise. intros self. rewrite encode_altitude_run, E.
      reflexivity.
    + eapply shape_ok; [left; reflexivity|]. intros self.
      rewrite encode_altitude_run, E. reflexivity.
  - split; [|exists "6D"; split; [reflexivity|simpl; tauto]].
    destruct (Qltb (FlightData.airspeed fd) 0
              || Qltb 1000 (FlightData.airspeed fd)) eqn:E.
    + eapply shape_raise. intros self. rewrite encode_airspeed_run, E.
      reflexivity.
    + eapply shape_ok; [left; reflexivity|]. intros self.
      rewrite encode_airspeed_run, E. reflexivity.
  - split; [|exists "6E"; split; [reflexivity|simpl; tauto]].
    destruct (Qltb (FlightData.heading fd) 0
              || Qltb 360 (FlightData.heading fd)) eqn:E.
    + eapply shape_raise. intros self. rewrite encode_heading_run, E.
      reflexivity.
    + eapply shape_ok; [left; reflexivity|]. intros self.
      rewrite encode_heading_run, E. reflexivity.
  - split; [|exists "6F"; split; [reflexivity|simpl; tauto]].
    destruct (Qltb (FlightData.vertical_speed fd) (-10000)
              || Qltb 10000 (FlightData.vertical_speed fd)) eqn:E.
    + eapply shape_raise. intros self. rewrite encode_vertical_speed_run, E.
      reflexivity.
    + eapply shape_ok; [apply ssm_choice|]. intros self.
      rewrite encode_vertical_speed_run, E. reflexivity.
Qed.

Lemma label_order_int16 lbl :
  In lbl label_order -> exists l, int16 lbl = Ok l /\ 0 <= l < 256.
Proof.
  unfold label_order. intros H.
  repeat (destruct H as [H|H];
          [subst lbl; eexists; split; [vm_compute; reflexivity|lia]|]).
  destruct H.
Qed.

Lemma mask19_range n : 0 <= Z.land n 0x7FFFF < 2 ^ 19.
Proof.
  change 0x7FFFF with (Z.ones 19). rewrite Z.land_ones by lia.
  apply Z.mod_pos_bound. lia.
Qed.

Lemma data_field_bits n :
  all_bits (format_b 19 (Z.land n 0x7FFFF)) = true /\
  String.length (format_b 19 (Z.land n 0x7FFFF)) = 19%nat.
Proof.
  pose proof (mask19_range n) as H. split.
  - apply all_bits_format_b. lia.
  - apply length_format_b; [lia|]. exact H.
Qed.

Lemma ssm_bits ssm' :
  ssm' = "00" \/ ssm' = "11" ->
  all_bits ssm' = true /\ String.length ssm' = 2%nat.
Proof. intros [-> | ->]; split; reflexivity. Qed.

(** ** One entry of the encoding loop *)

Lemma encode_entry_raise ts name v (f : Q -> M ARINC429Encoder.t string)
    msg self :
  (forall self, f v self = (Raise (ValueError msg), self)) ->
  encode_entry ts (name, v, f) self = (Raise (ValueError msg), self).
Proof. intros Hf. unfold encode_entry. run_py. now rewrite Hf. Qed.

Lemma encode_entry_ok ts name v (f : Q -> M ARINC429Encoder.t string)
    n ssm' lbl self :
  ssm' = "00" \/ ssm' = "11" ->
  (forall self, f v self =
     (Ok (format_b 19 (Z.land n 0x7FFFF)),
      ARINC429Encoder.mk (self_sdi self) ssm')) ->
  dict_index LABELS name = Ok lbl -> In lbl label_order ->
  self_sdi self = "00" ->
  exists p,
    calculate_parity lbl "00" (format_b 19 (Z.land n 0x7FFFF)) ssm' = Ok p /\
    encode_entry ts (name, v, f) self =
      (Ok (ARINC429Message.mk lbl "00" (format_b 19 (Z.land n 0x7FFFF))
             ssm' p ts),
       ARINC429Encoder.mk "00" ssm').
Proof.
  intros Hssm Hf Hlbl Hin Hsdi.
  destruct (label_order_int16 lbl Hin) as (l & Hl & Hlr).
  destruct (data_field_bits n) as [Hdb Hdl].
  destruct (ssm_bits ssm' Hssm) as [Hmb Hml].
  destruct (parity_word_valid lbl "00" _ ssm' l Hl Hlr eq_refl eq_refl
              Hdb Hdl Hmb Hml) as (p & Hp & _).
  exists p. split; [exact Hp|].
  unfold encode_entry. run_py. rewrite Hf, Hlbl. cbn [self_sdi self_ssm].
  rewrite Hsdi, Hp. reflexivity.
Qed.

(** The outcome of an entry does not depend on the [ssm] left behind by
    earlier entries, and [sdi] stays ["00"]. *)
Lemma encode_entry_indep ts fd e self :
  In e (encodings fd) -> self_sdi self = "00" ->
  fst (encode_entry ts e self) = fst (encode_entry ts e ARINC429Encoder.init) /\
  self_sdi (snd (encode_entry ts e self)) = "00".
Proof.
  destruct e as [[name v] f]. intros Hin Hsdi.
  destruct (encodings_shape fd name v f Hin) as [Hshape (lbl & Hlbl & Hlo)].
  destruct Hshape as [msg Hf | n ssm' Hssm Hf].
  - rewrite !(encode_entry_raise ts name v f msg) by exact Hf.
    split; [reflexivity|exact Hsdi].
  - destruct (encode_entry_ok ts name v f n ssm' lbl self Hssm Hf Hlbl Hlo Hsdi)
      as (p & Hp & Hrun).
    destruct (encode_entry_ok ts name v f n ssm' lbl ARINC429Encoder.init
                Hssm Hf Hlbl Hlo eq_refl) as (p' & Hp' & Hrun').
    rewrite Hrun, Hrun'. rewrite Hp in Hp'. inversion Hp'. subst p'.
    split; reflexivity.
Qed.

Lemma encode_loop_spec ts fd es msgs self :
  (forall e, In e es -> In e (encodings fd)) -> self_sdi self = "00" ->
  exists self',
    encode_loop ts es msgs self = (Ok (msgs ++ omap (word_alone ts) es)%list, self')
    /\ self_sdi self' = "00".
Proof.
  revert msgs self. induction es as [|e es IH]; intros msgs self Hes Hsdi.
  - exists self. cbn [encode_loop omap list_omap]. rewrite app_nil_r.
    split; [reflexivity|exact Hsdi].
  - destruct (encode_entry_indep ts fd e self (Hes e (or_introl eq_refl)) Hsdi)
      as [Hfst Hsnd].
    cbn [encode_loop]. unfold bind at 1, try_except, bind at 1.
    destruct (encode_entry ts e self) as [r s1] eqn:E.
    cbn [fst snd] in Hfst, Hsnd.
    assert (Hes' : forall e', In e' es -> In e' (encodings fd))
      by (intros e' He'; apply Hes; right; exact He').
    cbn [omap list_omap]. unfold word_alone at 1. rewrite <- Hfst.
    destruct r as [m|err].
    + unfold ret at 1.
      destruct (IH (msgs ++ [m])%list s1 Hes' Hsnd) as (self' & Hrun & Hs').
      exists self'. rewrite Hrun. split; [|exact Hs'].
      now rewrite <- app_assoc.
    + unfold ret at 1.
      destruct (IH msgs s1 Hes' Hsnd) as (self' & Hrun & Hs').
      exists self'. rewrite Hrun. split; [reflexivity|exact Hs'].
Qed.

(** ** The batch encoder *)

Lemma word_alone_label ts fd e m :
  In e (encodings fd) -> word_alone ts e = Some m ->
  ARINC429Message.label m = entry_label e.
Proof.
  destruct e as [[name v] f]. intros Hin Hw.
  destruct (encodings_shape fd name v f Hin) as [Hshape (lbl & Hlbl & Hlo)].
  unfold word_alone in Hw.
  assert (Hel : entry_label (name, v, f) = lbl).
  { unfold entry_label. cbn [fst]. unfold dict_index in Hlbl.
    destruct (dict_get LABELS name); [now inversion Hlbl|discriminate]. }
  destruct Hshape as [msg Hf | n ssm' Hssm Hf].
  - rewrite (encode_entry_raise ts name v f msg) in Hw by exact Hf.
    discriminate.
  - destruct (encode_entry_ok ts name v f n ssm' lbl ARINC429Encoder.init
                Hssm Hf Hlbl Hlo eq_refl) as (p & _ & Hrun).
    rewrite Hrun in Hw. inversion Hw. subst m. rewrite Hel. reflexivity.
Qed.

(** A word is missing exactly when the field's own encoder raises. *)
Lemma word_alone_none ts fd name v f :
  In (name, v, f) (encodings fd) ->
  (word_alone ts (name, v, f) = None <->
   exists e s, f v ARINC429Encoder.init = (Raise e, s)).
Proof.
  intros Hin.
  destruct (encodings_shape fd name v f Hin) as [Hshape (lbl & Hlbl & Hlo)].
  unfold word_alone. destruct Hshape as [msg Hf | n ssm' Hssm Hf].
  - rewrite (encode_entry_raise ts name v f msg) by exact Hf. split.
    + intros _. eexists _, _. apply Hf.
    + reflexivity.
  - destruct (encode_entry_ok ts name v f n ssm' lbl ARINC429Encoder.init
                Hssm Hf Hlbl Hlo eq_refl) as (p & _ & Hrun).
    rewrite Hrun. split; [discriminate|].
    intros (e & s & He). rewrite Hf in He. discriminate.
Qed.

Lemma omap_labels_sublist ts fd es :
  (forall e, In e es -> In e (encodings fd)) ->
  sublist (map ARINC429Message.label (omap (word_alone ts) es))
          (map entry_label es).
Proof.
  induction es as [|e es IH]; intros Hes; [constructor|].
  assert (Hes' : forall e', In e' es -> In e' (encodings fd))
    by (intros e' He'; apply Hes; right; exact He').
  cbn [omap list_omap map]. destruct (word_alone ts e) as [m|] eqn:E.
  - cbn [map]. rewrite (word_alone_label ts fd e m (Hes e (or_introl eq_refl)) E).
    apply sublist_skip. exact (IH Hes').
  - apply sublist_cons. exact (IH Hes').
Qed.

Lemma encode_flight_data_omap ssm0 fd :
  exists self',
    encode_flight_data fd (ARINC429Encoder.mk "00" ssm0) =
      (Ok (omap (word_alone (FlightData.timestamp fd)) (encodings fd)), self').
Proof.
  destruct (encode_loop_spec (FlightData.timestamp fd) fd (encodings fd) []
              (ARINC429Encoder.mk "00" ssm0)) as (self' & Hrun & _);
    [auto|reflexivity|].
  exists self'. exact Hrun.
Qed.

Lemma omap_length_le {A B} (f : A -> option B) (l : list A) :
  (length (omap f l) <= length l)%nat.
Proof.
  induction l as [|x l IH]; cbn [omap list_omap length]; [lia|].
  destruct (f x); cbn [length]; lia.
Qed.

(** One field, encoded on its own by a new encoder: the encoder raises
    and there is no word, or it returns data bits and the word is made of
    the field's label, sdi ["00"], these bits, the [ssm] that the encoder
    has set and their parity. *)
Lemma entry_alone ts fd name lbl v (f : Q -> M ARINC429Encoder.t string) :
  In (name, v, f) (encodings fd) -> dict_index LABELS name = Ok lbl ->
  match fst (f v ARINC429Encoder.init) with
  | Raise _ => word_alone ts (name, v, f) = None
  | Ok _ =>
      exists d s p,
        f v ARINC429Encoder.init = (Ok d, s) /\
        calculate_parity lbl "00" d (self_ssm s) = Ok p /\
        word_alone ts (name, v, f)
          = Some (ARINC429Message.mk lbl "00" d (self_ssm s) p ts)
  end.
Proof.
  intros Hin Hlbl.
  destruct (encodings_shape fd name v f Hin) as [Hshape (lbl' & Hlbl' & Hlo)].
  assert (lbl' = lbl) by congruence. subst lbl'.
  destruct Hshape as [msg Hf | n ssm' Hssm Hf].
  - rewrite Hf. cbn [fst]. unfold word_alone.
    rewrite (encode_entry_raise ts name v f msg _ Hf). reflexivity.
  - rewrite Hf. cbn [fst].
    destruct (encode_entry_ok ts name v f n ssm' lbl ARINC429Encoder.init
                Hssm Hf Hlbl Hlo eq_refl) as (p & Hp & Hrun).
    eexists _, _, p. split; [reflexivity|]. cbn [self_ssm].
    split; [exact Hp|]. unfold word_alone. rewrite Hrun. reflexivity.
Qed.

Lemma omap_filter_Forall2 {A B} (w : A -> option B) (keep : A -> bool)
    (R : B -> A -> Prop) (l : list A) :
  (forall a, In a l ->
     if keep a then exists b, w a = Some b /\ R b a else w a = None) ->
  Forall2 R (omap w l) (List.filter keep l).
Proof.
  induction l as [|a l IH]; intros H; [constructor|].
  cbn [omap list_omap List.filter].
  pose proof (H a (or_introl eq_refl)) as Ha.
  assert (IH' : Forall2 R (omap w l) (List.filter keep l))
    by (apply IH; intros a' Ha'; apply H; right; exact Ha').
  destruct (keep a).
  - destruct Ha as (b & -> & HR). constructor; assumption.
  - rewrite Ha. exact IH'.
Qed.

(** C5. For every flight-data record, [encode_flight_data] returns
    normally, with at most six words.  Take the six fields in the order
    latitude, longitude, altitude, airspeed, heading, vertical_speed, each
    with its label 6A to 6F, its value in the record and its encoder, and
    keep those whose encoder does not raise on the value.  The words
    returned are, one for one and in this order, the words of the fields
    kept: each has the field's label, sdi ["00"], the data bits and the
    [ssm] that the field's encoder gives on its own, their parity and the
    record's timestamp.  So a field whose encoder raises loses its word
    and only its word, and every other field is encoded as if no field
    had failed. *)
Theorem C5_encode_flight_data_partial (ssm0 : string) (fd : FlightData.t) :
  let ts := FlightData.timestamp fd in
  let fields : list (string * string * Q * (Q -> M ARINC429Encoder.t string)) :=
    [ ("latitude", "6A", FlightData.latitude fd, encode_latitude);
      ("longitude", "6B", FlightData.longitude fd, encode_longitude);
      ("altitude", "6C", FlightData.altitude fd, encode_altitude);
      ("airspeed", "6D", FlightData.airspeed fd, encode_airspeed);
      ("heading", "6E", FlightData.heading fd, encode_heading);
      ("vertical_speed", "6F", FlightData.vertical_speed fd,
       encode_vertical_speed) ] in
  let encodes := fun '(name, lbl, v, f) =>
    match fst (f v ARINC429Encoder.init) with
    | Ok _ => true
    | Raise _ => false
    end in
  let word_of := fun (m : ARINC429Message.t) '(name, lbl, v, f) =>
    exists d s p,
      f v ARINC429Encoder.init = (Ok d, s) /\
      calculate_parity lbl "00" d (self_ssm s) = Ok p /\
      m = ARINC429Message.mk lbl "00" d (self_ssm s) p ts in
  exists msgs self',
    encode_flight_data fd (ARINC429Encoder.mk "00" ssm0) = (Ok msgs, self') /\
    (length msgs <= 6)%nat /\
    Forall2 word_of msgs (List.filter encodes fields) /\
    map ARINC429Message.label msgs
      = map (fun '(name, lbl, v, f) => lbl) (List.filter encodes fields) /\
    (forall name lbl v f, In (name, lbl, v, f) fields ->
       encodes (name, lbl, v, f) = false ->
       forall m, In m msgs -> ARINC429Message.label m <> lbl).
Proof.
  intros ts fields encodes word_of.
  destruct (encode_flight_data_omap ssm0 fd) as (self' & Hrun).
  fold ts in Hrun.
  set (w := fun e : string * string * Q * (Q -> M ARINC429Encoder.t string) =>
              let '(name, lbl, v, f) := e in word_alone ts (name, v, f)).
  assert (Hmsgs : omap (word_alone ts) (encodings fd) = omap w fields)
    by reflexivity.
  rewrite Hmsgs in Hrun.
  assert (Hall : forall e, In e fields ->
            if encodes e then exists m, w e = Some m /\ word_of m e
            else w e = None).
  { intros e He.
    assert (Hcase : forall name lbl v f,
              e = (name, lbl, v, f) ->
              In (name, v, f) (encodings fd) ->
              dict_index LABELS name = Ok lbl ->
              if encodes e then exists m, w e = Some m /\ word_of m e
              else w e = None).
    { intros name lbl v f -> Hin Hlbl.
      pose proof (entry_alone ts fd name lbl v f Hin Hlbl) as Ha.
      unfold encodes, w, word_of.
      destruct (fst (f v ARINC429Encoder.init)) as [d0|e0].
      - destruct Ha as (d & s0 & p & Hf & Hp & Hw).
        eexists. split; [exact Hw|]. exists d, s0, p.
        split; [exact Hf|]. split; [exact Hp|reflexivity].
      - exact Ha. }
    destruct He as [<-|[<-|[<-|[<-|[<-|[<-|[]]]]]]].
    - eapply Hcase; [reflexivity|exact (or_introl eq_refl)|reflexivity].
    - eapply Hcase; [reflexivity
                    |exact (or_intror (or_introl eq_refl))|reflexivity].
    - eapply Hcase; [reflexivity
                    |exact (or_intror (or_intror (or_introl eq_refl)))
                    |reflexivity].
    - eapply Hcase; [reflexivity
                    |exact (or_intror (or_intror (or_intror
                              (or_introl eq_refl))))
                    |reflexivity].
    - eapply Hcase; [reflexivity
                    |exact (or_intror (or_intror (or_intror (or_intror
                              (or_introl eq_refl)))))
                    |reflexivity].
    - eapply Hcase; [reflexivity
                    |exact (or_intror (or_intror (or_intror (or_intror
                              (or_intror (or_introl eq_refl))))))
                    |reflexivity]. }
  pose proof (omap_filter_Forall2 w encodes word_of fields Hall) as HF.
  assert (Hlabels : forall (ms : list ARINC429Message.t) es,
            Forall2 word_of ms es ->
            map ARINC429Message.label ms
              = map (fun '(name, lbl, v, f) => lbl) es).
  { intros ms es H. induction H as [|m e ms es Hme _ IH]; [reflexivity|].
    cbn [map]. rewrite IH. f_equal.
    destruct e as [[[name lbl] v] f].
    destruct Hme as (d & s0 & p & _ & _ & ->). reflexivity. }
  exists (omap w fields), self'.
  split; [exact Hrun|]. split; [|split; [exact HF|split]].
  - apply (omap_length_le w fields).
  - apply Hlabels. exact HF.
  - intros name lbl v f Hin Henc m Hm Hl.
    apply (in_map ARINC429Message.label) in Hm. rewrite Hl in Hm.
    rewrite (Hlabels _ _ HF) in Hm.
    apply List.in_map_iff in Hm. destruct Hm as ([[[n' l'] v'] f'] & Heq & Hin').
    apply List.filter_In in Hin'. destruct Hin' as [Hin' Henc'].
    subst l'.
    assert (Hsame : (n', lbl, v', f') = (name, lbl, v, f)).
    { clear - Hin Hin'. subst fields.
      destruct Hin as [H|[H|[H|[H|[H|[H|[]]]]]]];
        destruct Hin' as [H'|[H'|[H'|[H'|[H'|[H'|[]]]]]]];
        inversion H; inversion H'; subst; try discriminate; reflexivity. }
    rewrite Hsame in Henc'. congruence.
Qed.

(** ** Parity of the encoded words *)

(** Every word of a batch comes from one entry, with the label of the
    table, sdi ["00"], nineteen data bits, ssm ["00"] or ["11"], and the
    parity that [calculate_parity] gives for them. *)
Lemma encoded_word_fields ssm0 fd msgs self' m :
  encode_flight_data fd (ARINC429Encoder.mk "00" ssm0) = (Ok msgs, self') ->
  In m msgs ->
  In (ARINC429Message.label m) label_order /\
  ARINC429Message.sdi m = "00" /\
  (exists n, ARINC429Message.data m = format_b 19 (Z.land n 0x7FFFF)) /\
  (ARINC429Message.ssm m = "00" \/ ARINC429Message.ssm m = "11") /\
  calculate_parity (ARINC429Message.label m) (ARINC429Message.sdi m)
    (ARINC429Message.data m) (ARINC429Message.ssm m)
    = Ok (ARINC429Message.parity m).
Proof.
  intros Hrun Hin.
  destruct (encode_flight_data_omap ssm0 fd) as (self'' & Hrun').
  assert (Hmsgs : msgs = omap (word_alone (FlightData.timestamp fd))
                             (encodings fd)) by congruence.
  rewrite Hmsgs in Hin. apply list_elem_of_In, list_elem_of_omap in Hin.
  destruct Hin as ([[name v] f] & He & Hw). apply list_elem_of_In in He.
  destruct (encodings_shape fd name v f He) as [Hshape (lbl & Hlbl & Hlo)].
  unfold word_alone in Hw. destruct Hshape as [msg Hf | n ssm' Hssm Hf].
  - rewrite (encode_entry_raise _ name v f msg) in Hw by exact Hf.
    discriminate.
  - destruct (encode_entry_ok (FlightData.timestamp fd) name v f n ssm' lbl
                ARINC429Encoder.init Hssm Hf Hlbl Hlo eq_refl)
      as (p & Hp & Hrun1).
    rewrite Hrun1 in Hw. inversion Hw. subst m. cbn.
    repeat split; try assumption. exists n. reflexivity.
Qed.

(** C2. For every word [m] that [encode_flight_data] produces, with [l]
    the number its label denotes: the 31 bits label(8) sdi(2) data(19)
    ssm(2) are 31 characters; the parity is ['1'] exactly when they hold
    an even number of set bits, and ['0'] otherwise; and the 32-bit word
    label+sdi+data+ssm+parity, as [create_arinc429_word] builds it, has 32
    characters and an odd number of set bits, so that
    [validate_arinc429_word] accepts it. *)
Theorem C2_parity_odd (ssm0 : string) (fd : FlightData.t)
    (msgs : list ARINC429Message.t) (self' : ARINC429Encoder.t)
    (m : ARINC429Message.t) :
  encode_flight_data fd (ARINC429Encoder.mk "00" ssm0) = (Ok msgs, self') ->
  In m msgs ->
  exists l,
    int16 (ARINC429Message.label m) = Ok l /\
    String.length (bits31 l m) = 31%nat /\
    (ARINC429Message.parity m = "1" <->
       str_count "1" (bits31 l m) mod 2 = 0) /\
    (ARINC429Message.parity m = "0" <->
       str_count "1" (bits31 l m) mod 2 <> 0) /\
    create_arinc429_word (PyInt l) (ARINC429Message.sdi m)
      (ARINC429Message.data m) (ARINC429Message.ssm m)
      (ARINC429Message.parity m)
      = Ok (bits31 l m ++ ARINC429Message.parity m) /\
    String.length (bits31 l m ++ ARINC429Message.parity m) = 32%nat /\
    str_count "1" (bits31 l m ++ ARINC429Message.parity m) mod 2 = 1 /\
    validate_arinc429_word (bits31 l m ++ ARINC429Message.parity m) = true.
Proof.
  intros Hrun Hin.
  destruct (encoded_word_fields ssm0 fd msgs self' m Hrun Hin)
    as (Hlbl & Hsdi & (n & Hdata) & Hssm & Hpar).
  destruct (label_order_int16 _ Hlbl) as (l & Hl & Hlr).
  destruct (data_field_bits n) as [Hdb Hdl]. rewrite <- Hdata in Hdb, Hdl.
  destruct (ssm_bits _ Hssm) as [Hmb Hml].
  assert (Hsb : all_bits (ARINC429Message.sdi m) = true) by now rewrite Hsdi.
  assert (Hsl : String.length (ARINC429Message.sdi m) = 2%nat)
    by now rewrite Hsdi.
  destruct (parity_word_valid _ _ _ _ l Hl Hlr Hsb Hsl Hdb Hdl Hmb Hml)
    as (p & Hp & Hlen & Hpeq & Hword & Hlen32 & Hodd & Hvalid).
  rewrite Hpar in Hp. inversion Hp as [Hp']. rewrite <- Hp' in *.
  fold (bits31 l m) in Hlen, Hpeq, Hword, Hlen32, Hodd, Hvalid.
  exists l. split; [exact Hl|]. split; [exact Hlen|].
  split; [|split; [|split; [exact Hword|split;
    [exact Hlen32|split; [exact Hodd|exact Hvalid]]]]].
  - rewrite Hpeq.
    destruct (str_count "1" (bits31 l m) mod 2 =? 0) eqn:E.
    + apply Z.eqb_eq in E. split; [intros _; exact E|reflexivity].
    + apply Z.eqb_neq in E. split; [discriminate|intros E'; contradiction].
  - rewrite Hpeq.
    destruct (str_count "1" (bits31 l m) mod 2 =? 0) eqn:E.
    + apply Z.eqb_eq in E. split; [discriminate|intros E'; contradiction].
    + apply Z.eqb_neq in E. split; [intros _; exact E|reflexivity].
Qed.

(** The theorem at the word of latitude 52.4287, whose data bits are all
    ones. *)
Lemma C2_parity_odd_witness :
  exists msgs self' m,
    encode_flight_data (FlightData.mk 52.4287 0 0 0 0 0 0) ARINC429Encoder.init
      = (Ok msgs, self') /\
    In m msgs /\ ARINC429Message.data m = ones 19 /\
    exists l,
      int16 (ARINC429Message.label m) = Ok l /\
      String.length (bits31 l m) = 31%nat /\
      (ARINC429Message.parity m = "1" <->
         str_count "1" (bits31 l m) mod 2 = 0) /\
      (ARINC429Message.parity m = "0" <->
         str_count "1" (bits31 l m) mod 2 <> 0) /\
      create_arinc429_word (PyInt l) (ARINC429Message.sdi m)
        (ARINC429Message.data m) (ARINC429Message.ssm m)
        (ARINC429Message.parity m)
        = Ok (bits31 l m ++ ARINC429Message.parity m) /\
      String.length (bits31 l m ++ ARINC429Message.parity m) = 32%nat /\
      str_count "1" (bits31 l m ++ ARINC429Message.parity m) mod 2 = 1 /\
      validate_arinc429_word (bits31 l m ++ ARINC429Message.parity m) = true.
Proof.
  eexists _, _, _. split; [vm_compute; reflexivity|].
  split; [left; reflexivity|]. split; [reflexivity|].
  eapply (C2_parity_odd "00" (FlightData.mk 52.4287 0 0 0 0 0 0)).
  - vm_compute. reflexivity.
  - left. reflexivity.
Defined.

(** The two boundary data fields, all zeros and all ones, under each of
    the six labels and both sign values: the word built with the computed
    parity is accepted by [validate_arinc429_word]. *)
Lemma parity_boundary_words lbl data ssm :
  In lbl label_order -> In data [zeros 19; ones 19] -> In ssm ["00"; "11"] ->
  exists l p,
    int16 lbl = Ok l /\ calculate_parity lbl "00" data ssm = Ok p /\
    rbind (create_arinc429_word (PyInt l) "00" data ssm p)
      (fun w => Ok (validate_arinc429_word w)) = Ok true.
Proof.
  unfold label_order. intros Hl Hd Hs.
  repeat (destruct Hl as [Hl|Hl]; [subst lbl|]); [| | | | | |destruct Hl];
    (repeat (destruct Hd as [Hd|Hd]; [subst data|]); [| |destruct Hd]);
    (repeat (destruct Hs as [Hs|Hs]; [subst ssm|]); [| |destruct Hs]);
    eexists _, _; (split; [vm_compute; reflexivity|]);
    (split; vm_compute; reflexivity).
Qed.

(** C4. Encoding latitude -41.2622 sets [ssm] to ["11"]; the data field is
    [int(41.2622 * 10000) = 412622] masked to 19 bits, which is the bit
    string [1100100101111001110]; the parity over label [6A], sdi [00],
    that data and ssm [11] is ['0'] and the word has an odd number of set
    bits. *)
Theorem C4_latitude_example : latitude_example "1100100101111001110".
Proof.
  unfold latitude_example. eexists _, _.
  split; [vm_compute; reflexivity|].
  repeat (split; [vm_compute; reflexivity|]). vm_compute. reflexivity.
Qed.

(** The bit string printed in the specification's example is not the one
    the encoder returns. *)
Lemma C4_latitude_example_counterexample :
  ~ latitude_example "0110010101001001110".
Proof.
  intros (self' & p & Hrun & _). vm_compute in Hrun. discriminate Hrun.
Qed.

(** ** Decoding *)

Import ARINC429Decoder.

(** C10. [decode_message] reads the label, the data and the ssm of a
    message and nothing else: two messages that agree on these three
    fields decode to the same outcome, value or exception, whatever their
    parity, sdi and timestamp. *)
Theorem C10_decode_ignores_parity (m1 m2 : ARINC429Message.t) :
  ARINC429Message.label m1 = ARINC429Message.label m2 ->
  ARINC429Message.data m1 = ARINC429Message.data m2 ->
  ARINC429Message.ssm m1 = ARINC429Message.ssm m2 ->
  decode_message m1 = decode_message m2.
Proof.
  intros Hl Hd Hs. unfold decode_message. rewrite Hl, Hd, Hs. reflexivity.
Qed.

(** The theorem at the word of latitude -41.2622 and the same word with
    the parity bit flipped and another sdi and timestamp: both decode to
    the latitude, without an error. *)
Lemma C10_decode_ignores_parity_witness :
  let good := ARINC429Message.mk "6A" "00" "1100100101111001110" "11" "0" 0 in
  let bad := ARINC429Message.mk "6A" "10" "1100100101111001110" "11" "1" 9 in
  calculate_parity "6A" "00" "1100100101111001110" "11" = Ok "0" /\
  decode_message bad = decode_message good /\
  decode_message bad = Ok ("latitude", - (inject_Z 412622 / 10000))%Q.
Proof.
  intros good bad. split; [vm_compute; reflexivity|]. split.
  - apply (C10_decode_ignores_parity bad good); reflexivity.
  - reflexivity.
Defined.

(** ** Round trip through the codec *)

Lemma Qltb_true a b : Qltb a b = true <-> (a < b)%Q.
Proof.
  unfold Qltb. rewrite negb_true_iff. split.
  - intros H. apply Qnot_le_lt. intros Hle.
    apply Qle_bool_iff in Hle. congruence.
  - intros H. destruct (Qle_bool b a) eqn:E; [|reflexivity].
    apply Qle_bool_iff in E. apply Qle_not_lt in E. contradiction.
Qed.

Lemma Qltb_false a b : Qltb a b = false <-> (b <= a)%Q.
Proof.
  unfold Qltb. rewrite negb_false_iff. apply Qle_bool_iff.
Qed.

Lemma range_check_false lo hi v :
  Qltb v lo || Qltb hi v = false <-> (lo <= v /\ v <= hi)%Q.
Proof.
  rewrite orb_false_iff, !Qltb_false. reflexivity.
Qed.

(** [int(x)] of a non-negative float is its floor. *)
Lemma py_int_floor x :
  (0 <= x)%Q -> 0 <= py_int x /\ (inject_Z (py_int x) <= x)%Q /\
                (x < inject_Z (py_int x) + 1)%Q.
Proof.
  intros Hx.
  assert (Hfl : py_int x = Qfloor x).
  { unfold py_int. destruct x as [a b]. cbn [Qnum Qden Qfloor].
    apply Z.quot_div_nonneg; [|lia].
    unfold Qle in Hx. cbn in Hx. lia. }
  rewrite Hfl. split; [|split].
  - change 0 with (Qfloor 0). apply Qfloor_resp_le. exact Hx.
  - apply Qfloor_le.
  - pose proof (Qlt_floor x) as H. rewrite inject_Z_plus in H. exact H.
Qed.

Lemma mask19_small n : 0 <= n < 2 ^ 19 -> Z.land n 0x7FFFF = n.
Proof.
  intros H. change 0x7FFFF with (Z.ones 19). rewrite Z.land_ones by lia.
  apply Z.mod_small. exact H.
Qed.

Lemma inject_Z_lt_bound n (x b : Q) k :
  (inject_Z n <= x)%Q -> (x <= b)%Q -> (b < inject_Z k)%Q -> n < k.
Proof.
  intros H1 H2 H3. rewrite Zlt_Qlt. lra.
Qed.

Lemma entry_word ts name v (f : Q -> M ARINC429Encoder.t string)
    n ssm' lbl m :
  ssm' = "00" \/ ssm' = "11" ->
  (forall self, f v self =
     (Ok (format_b 19 (Z.land n 0x7FFFF)),
      ARINC429Encoder.mk (self_sdi self) ssm')) ->
  dict_index LABELS name = Ok lbl -> In lbl label_order ->
  word_alone ts (name, v, f) = Some m -> 0 <= n < 2 ^ 19 ->
  ARINC429Message.label m = lbl /\ ARINC429Message.ssm m = ssm' /\
  int2 (ARINC429Message.data m) = Ok n.
Proof.
  intros Hssm Hf Hlbl Hlo Hw Hn.
  destruct (encode_entry_ok ts name v f n ssm' lbl ARINC429Encoder.init
              Hssm Hf Hlbl Hlo eq_refl) as (p & _ & Hrun).
  unfold word_alone in Hw. rewrite Hrun in Hw. inversion Hw. subst m. cbn.
  rewrite (mask19_small n Hn). split; [reflexivity|]. split; [reflexivity|].
  apply int2_format_b. lia.
Qed.

Lemma entry_raises ts name v (f : Q -> M ARINC429Encoder.t string) msg m :
  (forall self, f v self = (Raise (ValueError msg), self)) ->
  word_alone ts (name, v, f) = Some m -> False.
Proof.
  intros Hf Hw. unfold word_alone in Hw.
  rewrite (encode_entry_raise ts name v f msg) in Hw by exact Hf.
  discriminate.
Qed.

Lemma decode_message_dispatch m lbl name dec :
  ARINC429Message.label m = lbl ->
  dict_get decoders lbl = Some (name, dec) ->
  decode_message m =
  rbind (dec (ARINC429Message.data m) (ARINC429Message.ssm m))
        (fun value => Ok (name, value)).
Proof. intros Hl Hd. unfold decode_message. rewrite Hl, Hd. reflexivity. Qed.

(** Division by the scale constants, written as a product for [lra]. *)
Ltac qdiv_const :=
  unfold Qdiv;
  change (/ 10000)%Q with (1 # 10000)%Q;
  change (/ 10)%Q with (1 # 10)%Q.

Lemma Qabs_lt_step (x y step : Q) :
  (y <= x)%Q -> (x < y + step)%Q -> (Qabs (x - y) < step)%Q.
Proof. intros H1 H2. apply Qabs_Qlt_condition. split; lra. Qed.

Lemma Qabs_lt_step_neg (x y step : Q) :
  (y <= - x)%Q -> (- x < y + step)%Q -> (Qabs (x - - y) < step)%Q.
Proof. intros H1 H2. apply Qabs_Qlt_condition. split; lra. Qed.

(** The word of a latitude or longitude whose scaled magnitude fits in 19
    bits decodes to within 0.0001 degree. *)
Lemma roundtrip_degrees ts name v (f : Q -> M ARINC429Encoder.t string)
    lbl dec lo hi msg m :
  (forall self, f v self =
     if Qltb v lo || Qltb hi v then (Raise (ValueError msg), self)
     else (Ok (format_b 19 (Z.land (py_int (Qabs v * 10000)) 0x7FFFF)),
           ARINC429Encoder.mk (self_sdi self)
             (if Qle_bool 0 v then "00" else "11"))) ->
  (forall data ssm, dec data ssm =
     rbind (int2 data) (fun data_value =>
       let x := (inject_Z data_value / 10000)%Q in
       Ok (if String.eqb ssm "11" then (- x)%Q else x))) ->
  dict_index LABELS name = Ok lbl -> In lbl label_order ->
  dict_get decoders lbl = Some (name, dec) ->
  (Qabs v * 10000 < 524288)%Q ->
  word_alone ts (name, v, f) = Some m ->
  exists value, decode_message m = Ok (name, value) /\
                (Qabs (v - value) < 0.0001)%Q.
Proof.
  intros Hf Hdec Hlbl Hlo Hget Hfit Hw.
  destruct (Qltb v lo || Qltb hi v) eqn:E.
  { exfalso. apply (entry_raises ts name v f msg m); [|exact Hw].
    intros self. rewrite Hf. reflexivity. }
  assert (Hmag : (0 <= Qabs v * 10000)%Q).
  { pose proof (Qabs_nonneg v). lra. }
  destruct (py_int_floor _ Hmag) as (Hn0 & Hle & Hlt).
  set (n := py_int (Qabs v * 10000)) in *.
  assert (Hn : 0 <= n < 2 ^ 19).
  { split; [exact Hn0|]. change (2 ^ 19) with 524288.
    apply (inject_Z_lt_bound n (Qabs v * 10000) (Qabs v * 10000));
      [exact Hle|lra|exact Hfit]. }
  assert (Hf' : forall self, f v self =
            (Ok (format_b 19 (Z.land n 0x7FFFF)),
             ARINC429Encoder.mk (self_sdi self)
               (if Qle_bool 0 v then "00" else "11")))
    by (intros self; rewrite Hf; reflexivity).
  destruct (entry_word ts name v f n _ lbl m (ssm_choice _) Hf' Hlbl Hlo Hw Hn)
    as (Hl & Hs & Hd).
  rewrite (decode_message_dispatch m lbl name dec Hl Hget), Hdec, Hd, Hs.
  cbn [rbind]. destruct (Qle_bool 0 v) eqn:Esign.
  - change (String.eqb "00" "11") with false. cbv iota.
    eexists. split; [reflexivity|]. apply Qle_bool_iff in Esign.
    pose proof (Qabs_pos v Esign). apply Qabs_lt_step; qdiv_const; lra.
  - change (String.eqb "11" "11") with true. cbv iota.
    eexists. split; [reflexivity|].
    assert (Hneg : (v <= 0)%Q).
    { destruct (Qlt_le_dec 0 v) as [Hpos|Hnp]; [|exact Hnp].
      apply Qlt_le_weak, Qle_bool_iff in Hpos. congruence. }
    pose proof (Qabs_neg v Hneg). apply Qabs_lt_step_neg; qdiv_const; lra.
Qed.

(** The word of an airspeed or heading decodes to within 0.1. *)
Lemma roundtrip_tenths ts name v (f : Q -> M ARINC429Encoder.t string)
    lbl dec hi msg m :
  (forall self, f v self =
     if Qltb v 0 || Qltb hi v then (Raise (ValueError msg), self)
     else (Ok (format_b 19 (Z.land (py_int (v * 10)) 0x7FFFF)),
           ARINC429Encoder.mk (self_sdi self) "00")) ->
  (forall data ssm, dec data ssm =
     rbind (int2 data) (fun data_value => Ok (inject_Z data_value / 10)%Q)) ->
  dict_index LABELS name = Ok lbl -> In lbl label_order ->
  dict_get decoders lbl = Some (name, dec) ->
  (hi <= 1000)%Q ->
  word_alone ts (name, v, f) = Some m ->
  exists value, decode_message m = Ok (name, value) /\
                (Qabs (v - value) < 0.1)%Q.
Proof.
  intros Hf Hdec Hlbl Hlo Hget Hhi Hw.
  destruct (Qltb v 0 || Qltb hi v) eqn:E.
  { exfalso. apply (entry_raises ts name v f msg m); [|exact Hw].
    intros self. rewrite Hf. reflexivity. }
  apply range_check_false in E. destruct E as [E0 E1].
  assert (Hmag : (0 <= v * 10)%Q) by lra.
  destruct (py_int_floor _ Hmag) as (Hn0 & Hle & Hlt).
  set (n := py_int (v * 10)) in *.
  assert (Hn : 0 <= n < 2 ^ 19).
  { split; [exact Hn0|]. change (2 ^ 19) with 524288.
    apply (inject_Z_lt_bound n (v * 10) 10000); [exact Hle|lra|reflexivity]. }
  assert (Hf' : forall self, f v self =
            (Ok (format_b 19 (Z.land n 0x7FFFF)),
             ARINC429Encoder.mk (self_sdi self) "00")).
  { intros self. rewrite Hf. reflexivity. }
  destruct (entry_word ts name v f n _ lbl m (or_introl eq_refl)
              Hf' Hlbl Hlo Hw Hn) as (Hl & Hs & Hd).
  rewrite (decode_message_dispatch m lbl name dec Hl Hget), Hdec, Hd.
  cbn [rbind]. eexists. split; [reflexivity|].
  apply Qabs_lt_step; qdiv_const; lra.
Qed.

(** The word of an altitude decodes to within one foot. *)
Lemma roundtrip_altitude ts v m :
  word_alone ts ("altitude", v, encode_altitude) = Some m ->
  exists value, decode_message m = Ok ("altitude", value) /\
                (Qabs (v - value) < 1)%Q.
Proof.
  intros Hw.
  destruct (Qltb v 0 || Qltb 50000 v) eqn:E.
  { exfalso. eapply (entry_raises ts "altitude" v encode_altitude _ m);
      [|exact Hw].
    intros self. rewrite encode_altitude_run, E. reflexivity. }
  pose proof E as Er. apply range_check_false in E. destruct E as [E0 E1].
  destruct (py_int_floor _ E0) as (Hn0 & Hle & Hlt).
  set (n := py_int v) in *.
  assert (Hn : 0 <= n < 2 ^ 19).
  { split; [exact Hn0|]. change (2 ^ 19) with 524288.
    apply (inject_Z_lt_bound n v 50000); [exact Hle|lra|reflexivity]. }
  assert (Hf' : forall self, encode_altitude v self =
            (Ok (format_b 19 (Z.land n 0x7FFFF)),
             ARINC429Encoder.mk (self_sdi self) "00"))
    by (intros self; rewrite encode_altitude_run, Er; reflexivity).
  destruct (entry_word ts "altitude" v encode_altitude n _ "6C" m
              (or_introl eq_refl) Hf' eq_refl ltac:(simpl; tauto) Hw Hn)
    as (Hl & Hs & Hd).
  rewrite (decode_message_dispatch m "6C" "altitude" decode_altitude Hl eq_refl).
  unfold decode_altitude. rewrite Hd. cbn [rbind].
  eexists. split; [reflexivity|]. apply Qabs_lt_step; lra.
Qed.

(** The word of a vertical speed decodes to within one foot per minute. *)
Lemma roundtrip_vertical_speed ts v m :
  word_alone ts ("vertical_speed", v, encode_vertical_speed) = Some m ->
  exists value, decode_message m = Ok ("vertical_speed", value) /\
                (Qabs (v - value) < 1)%Q.
Proof.
  intros Hw.
  destruct (Qltb v (-10000) || Qltb 10000 v) eqn:E.
  { exfalso.
    eapply (entry_raises ts "vertical_speed" v encode_vertical_speed _ m);
      [|exact Hw].
    intros self. rewrite encode_vertical_speed_run, E. reflexivity. }
  pose proof E as Er. apply range_check_false in E. destruct E as [E0 E1].
  destruct (py_int_floor _ (Qabs_nonneg v)) as (Hn0 & Hle & Hlt).
  set (n := py_int (Qabs v)) in *.
  assert (Habs : (Qabs v <= 10000)%Q) by (apply Qabs_Qle_condition; split; lra).
  assert (Hn : 0 <= n < 2 ^ 19).
  { split; [exact Hn0|]. change (2 ^ 19) with 524288.
    apply (inject_Z_lt_bound n (Qabs v) 10000); [exact Hle|lra|reflexivity]. }
  assert (Hf' : forall self, encode_vertical_speed v self =
            (Ok (format_b 19 (Z.land n 0x7FFFF)),
             ARINC429Encoder.mk (self_sdi self)
               (if Qle_bool 0 v then "00" else "11")))
    by (intros self; rewrite encode_vertical_speed_run, Er; reflexivity).
  destruct (entry_word ts "vertical_speed" v encode_vertical_speed n _ "6F" m
              (ssm_choice _) Hf' eq_refl ltac:(simpl; tauto) Hw Hn)
    as (Hl & Hs & Hd).
  rewrite (decode_message_dispatch m "6F" "vertical_speed"
             decode_vertical_speed Hl eq_refl).
  unfold decode_vertical_speed. rewrite Hd, Hs. cbn [rbind].
  destruct (Qle_bool 0 v) eqn:Esign.
  - change (String.eqb "00" "11") with false. cbv iota.
    eexists. split; [reflexivity|]. apply Qle_bool_iff in Esign.
    pose proof (Qabs_pos v Esign). apply Qabs_lt_step; lra.
  - change (String.eqb "11" "11") with true. cbv iota.
    eexists. split; [reflexivity|].
    assert (Hneg : (v <= 0)%Q).
    { destruct (Qlt_le_dec 0 v) as [Hpos|Hnp]; [|exact Hnp].
      apply Qlt_le_weak, Qle_bool_iff in Hpos. congruence. }
    pose proof (Qabs_neg v Hneg). apply Qabs_lt_step_neg; lra.
Qed.

(** Round trip, as far as it holds: when the scaled magnitudes of latitude
    and longitude fit in 19 bits (below 52.4288 degrees), every word of the
    batch decodes to its field's name and to the field's value within the
    field's quantization step.  Altitude, airspeed, heading and vertical
    speed always fit. *)
Lemma roundtrip_within_19_bits ssm0 fd msgs self' m :
  encode_flight_data fd (ARINC429Encoder.mk "00" ssm0) = (Ok msgs, self') ->
  In m msgs ->
  (Qabs (FlightData.latitude fd) * 10000 < 524288)%Q ->
  (Qabs (FlightData.longitude fd) * 10000 < 524288)%Q ->
  exists name v value,
    field_value fd name = Some v /\
    decode_message m = Ok (name, value) /\
    (Qabs (v - value) < quantization_step name)%Q.
Proof.
  intros Hrun Hin Hlat Hlon.
  destruct (encode_flight_data_omap ssm0 fd) as (self'' & Hrun').
  assert (Hmsgs : msgs = omap (word_alone (FlightData.timestamp fd))
                             (encodings fd)) by congruence.
  rewrite Hmsgs in Hin. apply list_elem_of_In, list_elem_of_omap in Hin.
  destruct Hin as (e & He & Hw). apply list_elem_of_In in He.
  unfold encodings in He.
  repeat (destruct He as [He|He]; [subst e|]); [| | | | | |destruct He].
  - destruct (roundtrip_degrees _ "latitude" _ encode_latitude "6A"
                decode_latitude (-90) 90 _ m
                (encode_latitude_run _) (fun _ _ => eq_refl) eq_refl
                ltac:(simpl; tauto) eq_refl Hlat Hw) as (value & Hd & Hb).
    exists "latitude", (FlightData.latitude fd), value. auto.
  - destruct (roundtrip_degrees _ "longitude" _ encode_longitude "6B"
                decode_longitude (-180) 180 _ m
                (encode_longitude_run _) (fun _ _ => eq_refl) eq_refl
                ltac:(simpl; tauto) eq_refl Hlon Hw) as (value & Hd & Hb).
    exists "longitude", (FlightData.longitude fd), value. auto.
  - destruct (roundtrip_altitude _ _ m Hw) as (value & Hd & Hb).
    exists "altitude", (FlightData.altitude fd), value. auto.
  - destruct (roundtrip_tenths _ "airspeed" _ encode_airspeed "6D"
                decode_airspeed 1000 _ m
                (encode_airspeed_run _) (fun _ _ => eq_refl) eq_refl
                ltac:(simpl; tauto) eq_refl ltac:(lra) Hw) as (value & Hd & Hb).
    exists "airspeed", (FlightData.airspeed fd), value. auto.
  - destruct (roundtrip_tenths _ "heading" _ encode_heading "6E"
                decode_heading 360 _ m
                (encode_heading_run _) (fun _ _ => eq_refl) eq_refl
                ltac:(simpl; tauto) eq_refl ltac:(lra) Hw) as (value & Hd & Hb).
    exists "heading", (FlightData.heading fd), value. auto.
  - destruct (roundtrip_vertical_speed _ _ m Hw) as (value & Hd & Hb).
    exists "vertical_speed", (FlightData.vertical_speed fd), value. auto.
Qed.

(** C1, at latitude 60.  The record is a valid [FlightData] and the
    encoder accepts the latitude, but [60 * 10000 = 600000] does not fit
    in 19 bits: the mask keeps [600000 - 524288 = 75712], the word decodes
    to latitude 7.5712, and the round trip is off by more than 52
    degrees. *)
Theorem C1_latitude_60_wraps :
  let fd := FlightData.mk 60 0 0 0 0 0 0 in
  FlightData.new 60 0 0 0 0 0 0 = Ok fd /\
  exists m rest self',
    encode_flight_data fd ARINC429Encoder.init = (Ok (m :: rest), self') /\
    ARINC429Message.label m = "6A" /\
    ARINC429Message.data m = "0010010011111000000" /\
    int2 (ARINC429Message.data m) = Ok (600000 - 524288) /\
    decode_message m = Ok ("latitude", 75712 # 10000) /\
    (52 < Qabs (60 - (75712 # 10000)))%Q.
Proof.
  intros fd. split; [reflexivity|].
  eexists _, _, _. split; [vm_compute; reflexivity|].
  repeat (split; [reflexivity|]). reflexivity.
Qed.

(** The same wrap-around for every latitude from 52.4288 up to 90: the
    data field holds the scaled value minus [2^19]. *)
Lemma latitude_wraps_above_19_bits v self :
  (52.4288 <= v)%Q -> (v <= 90)%Q ->
  exists d self',
    encode_latitude v self = (Ok d, self') /\
    int2 d = Ok (py_int (Qabs v * 10000) - 2 ^ 19).
Proof.
  intros Hlo Hhi. rewrite encode_latitude_run.
  assert (E : Qltb v (-90) || Qltb 90 v = false)
    by (apply range_check_false; split; lra).
  rewrite E. eexists _, _. split; [reflexivity|].
  assert (Habs : (Qabs v == v)%Q) by (apply Qabs_pos; lra).
  assert (Hmag : (0 <= Qabs v * 10000)%Q) by lra.
  destruct (py_int_floor _ Hmag) as (Hn0 & Hle & Hlt).
  set (n := py_int (Qabs v * 10000)) in *.
  assert (Hn : 2 ^ 19 <= n < 2 ^ 20).
  { change (2 ^ 19) with 524288. change (2 ^ 20) with 1048576. split.
    - assert (524288 < n + 1); [|lia]. rewrite Zlt_Qlt, inject_Z_plus.
      change (inject_Z 524288) with 524288%Q. change (inject_Z 1) with 1%Q.
      lra.
    - apply (inject_Z_lt_bound n (Qabs v * 10000) 900000);
        [exact Hle|lra|reflexivity]. }
  assert (Hmask : Z.land n 0x7FFFF = n - 2 ^ 19).
  { change 0x7FFFF with (Z.ones 19). rewrite Z.land_ones by lia.
    symmetry. apply (Z.mod_unique n (2 ^ 19) 1); lia. }
  rewrite Hmask. apply int2_format_b. lia.
Qed.

(** ** Clamping and rounding *)

Lemma clamp_bounds lo hi x :
  (lo <= hi)%Q -> (lo <= clamp lo hi x /\ clamp lo hi x <= hi)%Q.
Proof.
  intros Hlh. unfold clamp, py_max, py_min.
  destruct (Qltb x hi) eqn:E1.
  - apply Qltb_true in E1. destruct (Qltb lo x) eqn:E2.
    + apply Qltb_true in E2. split; lra.
    + split; lra.
  - destruct (Qltb lo hi) eqn:E2; split; lra.
Qed.

Lemma round_half_even_cases x :
  round_half_even x = Qfloor x \/
  (round_half_even x = Qfloor x + 1 /\ (inject_Z (Qfloor x) < x)%Q).
Proof.
  unfold round_half_even.
  destruct (Qltb (x - inject_Z (Qfloor x)) (1 # 2)) eqn:E1; [left; reflexivity|].
  apply Qltb_false in E1.
  destruct (Qltb (1 # 2) (x - inject_Z (Qfloor x))) eqn:E2.
  - right. split; [reflexivity|lra].
  - destruct (Z.even (Qfloor x)); [left; reflexivity|].
    right. split; [reflexivity|lra].
Qed.

(** Rounding stays between integer bounds. *)
Lemma round_half_even_bounds L H x :
  (inject_Z L <= x)%Q -> (x <= inject_Z H)%Q ->
  L <= round_half_even x <= H.
Proof.
  intros HL HH.
  assert (HfL : L <= Qfloor x).
  { rewrite <- (Qfloor_Z L). apply Qfloor_resp_le. exact HL. }
  assert (HfH : Qfloor x <= H).
  { rewrite <- (Qfloor_Z H). apply Qfloor_resp_le. exact HH. }
  destruct (round_half_even_cases x) as [-> | [-> Hlt]]; [lia|].
  assert (Qfloor x < H); [|lia].
  rewrite Zlt_Qlt. lra.
Qed.

Lemma Qdiv_mult_cancel (a b : Q) : (0 < b)%Q -> (a / b * b == a)%Q.
Proof. intros Hb. field. lra. Qed.

Lemma py_round_bounds x (ndigits : nat) L H :
  (inject_Z L / inject_Z (10 ^ Z.of_nat ndigits) <= x)%Q ->
  (x <= inject_Z H / inject_Z (10 ^ Z.of_nat ndigits))%Q ->
  (inject_Z L / inject_Z (10 ^ Z.of_nat ndigits) <= py_round x ndigits /\
   py_round x ndigits <= inject_Z H / inject_Z (10 ^ Z.of_nat ndigits))%Q.
Proof.
  intros HL HH. unfold py_round.
  set (scale := inject_Z (10 ^ Z.of_nat ndigits)) in *.
  assert (Hpos : (0 < scale)%Q).
  { unfold scale. change 0%Q with (inject_Z 0). rewrite <- Zlt_Qlt.
    apply Z.pow_pos_nonneg; lia. }
  assert (H1 : (inject_Z L <= x * scale)%Q).
  { apply (Qmult_le_compat_r _ _ scale) in HL; [|lra].
    rewrite (Qdiv_mult_cancel _ _ Hpos) in HL. exact HL. }
  assert (H2 : (x * scale <= inject_Z H)%Q).
  { apply (Qmult_le_compat_r _ _ scale) in HH; [|lra].
    rewrite (Qdiv_mult_cancel _ _ Hpos) in HH. exact HH. }
  destruct (round_half_even_bounds L H _ H1 H2) as [B1 B2].
  rewrite Zle_Qle in B1, B2. split.
  - apply Qle_shift_div_l; [exact Hpos|].
    rewrite (Qdiv_mult_cancel _ _ Hpos). exact B1.
  - apply Qle_shift_div_r; [exact Hpos|].
    rewrite (Qdiv_mult_cancel _ _ Hpos). exact B2.
Qed.

(** A clamped attribute, rounded to its display precision, is inside the
    closed range again. *)
Lemma round_clamp_bounds (lo hi x : Q) (ndigits : nat) L H :
  (lo == inject_Z L / inject_Z (10 ^ Z.of_nat ndigits))%Q ->
  (hi == inject_Z H / inject_Z (10 ^ Z.of_nat ndigits))%Q ->
  (lo <= hi)%Q ->
  (lo <= py_round (clamp lo hi x) ndigits /\
   py_round (clamp lo hi x) ndigits <= hi)%Q.
Proof.
  intros HL HH Hlh. destruct (clamp_bounds lo hi x Hlh) as [C1 C2].
  pose proof (py_round_bounds (clamp lo hi x) ndigits L H) as R.
  set (A := (inject_Z L / inject_Z (10 ^ Z.of_nat ndigits))%Q) in *.
  set (B := (inject_Z H / inject_Z (10 ^ Z.of_nat ndigits))%Q) in *.
  destruct R as [R1 R2]; [lra|lra|]. split; lra.
Qed.

Lemma check_field_ok name lo hi v :
  (lo <= v)%Q -> (v <= hi)%Q -> FlightData.check_field name lo hi v = Ok tt.
Proof.
  intros H1 H2. unfold FlightData.check_field.
  apply Qle_bool_iff in H1. apply Qle_bool_iff in H2.
  rewrite H1, H2. reflexivity.
Qed.

(** The validating constructor accepts exactly the closed envelope. *)
Lemma FlightData_new_ok lat lon alt spd hdg vs ts :
  in_envelope (FlightData.mk lat lon alt spd hdg vs ts) ->
  FlightData.new lat lon alt spd hdg vs ts
    = Ok (FlightData.mk lat lon alt spd hdg vs ts).
Proof.
  unfold in_envelope. cbn [FlightData.latitude FlightData.longitude
    FlightData.altitude FlightData.airspeed FlightData.heading
    FlightData.vertical_speed].
  intros ([A1 A2] & [B1 B2] & [C1 C2] & [D1 D2] & [E1 E2] & [F1 F2]).
  unfold FlightData.new.
  rewrite !check_field_ok by assumption. reflexivity.
Qed.

Lemma FlightData_new_envelope lat lon alt spd hdg vs ts fd :
  FlightData.new lat lon alt spd hdg vs ts = Ok fd -> in_envelope fd.
Proof.
  unfold FlightData.new, FlightData.check_field, in_envelope. intros H.
  repeat match type of H with
         | context [Qle_bool ?a ?b && Qle_bool ?c ?d] =>
             let E1 := fresh "E" in let E2 := fresh "E" in
             destruct (Qle_bool a b) eqn:E1; [|discriminate H];
             destruct (Qle_bool c d) eqn:E2; [|discriminate H];
             apply Qle_bool_iff in E1; apply Qle_bool_iff in E2;
             cbn [andb rbind] in H
         end.
  inversion H. subst fd. cbn. tauto.
Qed.

(** ** One tick of the generator *)

Module G := FlightDataGenerator.

Ltac run_gen :=
  cbv [bind ret raise modify get lift try_except
       G.clamp_attr G.set_current_data G.set_history
       G.set_current_latitude G.set_current_longitude G.set_current_altitude
       G.set_current_airspeed G.set_current_heading
       G.set_current_vertical_speed G.set_heading_change_rate
       G.set_altitude_change_rate G.set_speed_change_rate
       G.update_interval G.encoder G.current_data G.history G.max_history
       G.current_latitude G.current_longitude G.current_altitude
       G.current_airspeed G.current_heading G.current_vertical_speed
       G.heading_change_rate G.altitude_change_rate G.speed_change_rate].

Lemma _apply_boundaries_run s :
  G._apply_boundaries s =
  (Ok tt,
   G.mk (G.update_interval s) (G.encoder s) (G.current_data s) (G.history s)
        (G.max_history s)
        (clamp (-90) 90 (G.current_latitude s))
        (clamp (-180) 180 (G.current_longitude s))
        (clamp 0 50000 (G.current_altitude s))
        (clamp 0 1000 (G.current_airspeed s))
        (clamp 0 360 (G.current_heading s))
        (clamp (-10000) 10000 (G.current_vertical_speed s))
        (G.heading_change_rate s) (G.altitude_change_rate s)
        (G.speed_change_rate s)).
Proof. destruct s. reflexivity. Qed.

Lemma _add_realistic_variations_run d s :
  G._add_realistic_variations d s =
  (Ok tt,
   G.mk (G.update_interval s) (G.encoder s) (G.current_data s) (G.history s)
        (G.max_history s)
        (G.current_latitude s + u_latitude d)%Q
        (G.current_longitude s + u_longitude d)%Q
        (G.current_altitude s + u_altitude d)%Q
        (G.current_airspeed s + u_airspeed d)%Q
        (G.current_heading s + u_heading d)%Q
        (u_altitude_rate d)
        (u_heading_rate d) (u_altitude_rate d) (u_speed_rate d)).
Proof. destruct s. reflexivity. Qed.

Lemma _update_position_spec cos sin radians s r s1 :
  G._update_position cos sin radians s = (r, s1) ->
  same_store s s1 /\
  (r = Raise ZeroDivisionError \/
   (r = Ok tt /\
    G.current_heading s1 =
      clamp 0 360 (wrap_heading (G.current_heading s
                                 + G.heading_change_rate s
                                   * G.update_interval s)%Q))).
Proof.
  destruct s as [ui enc cd hist mh lat lon alt spd hdg vs hr ar sr].
  unfold G._update_position, py_div.
  change (Qeq_bool 111320 0) with false. run_gen.
  match goal with
  | |- context [Qeq_bool ?den 0] => destruct (Qeq_bool den 0)
  end.
  - intros H. inversion H. subst. unfold same_store. cbn. auto.
  - unfold wrap_heading.
    destruct (Qle_bool 360 (hdg + hr * ui)).
    + rewrite _apply_boundaries_run. intros H. inversion H. subst.
      unfold same_store. cbn. auto 10.
    + destruct (Qltb (hdg + hr * ui) 0);
        rewrite _apply_boundaries_run; intros H; inversion H; subst;
        unfold same_store; cbn; auto 10.
Qed.

Lemma list_pop_0_snoc {A} (h : list A) (x : A) :
  exists y, list_pop 0 (h ++ [x])%list = Ok (y, drop 1 (h ++ [x])%list).
Proof. destruct h as [|y h]; eexists; reflexivity. Qed.

Lemma rounded_sample_in_envelope lat lon alt spd hdg vs ts :
  in_envelope
    (FlightData.mk (py_round (clamp (-90) 90 lat) 6)
                   (py_round (clamp (-180) 180 lon) 6)
                   (py_round (clamp 0 50000 alt) 1)
                   (py_round (clamp 0 1000 spd) 1)
                   (py_round (clamp 0 360 hdg) 1)
                   (py_round (clamp (-10000) 10000 vs) 1) ts).
Proof.
  unfold in_envelope. cbn [FlightData.latitude FlightData.longitude
    FlightData.altitude FlightData.airspeed FlightData.heading
    FlightData.vertical_speed].
  split; [|split; [|split; [|split; [|split]]]].
  - apply (round_clamp_bounds (-90) 90 lat 6 (-90000000) 90000000);
      [reflexivity|reflexivity|lra].
  - apply (round_clamp_bounds (-180) 180 lon 6 (-180000000) 180000000);
      [reflexivity|reflexivity|lra].
  - apply (round_clamp_bounds 0 50000 alt 1 0 500000);
      [reflexivity|reflexivity|lra].
  - apply (round_clamp_bounds 0 1000 spd 1 0 10000);
      [reflexivity|reflexivity|lra].
  - apply (round_clamp_bounds 0 360 hdg 1 0 3600);
      [reflexivity|reflexivity|lra].
  - apply (round_clamp_bounds (-10000) 10000 vs 1 (-100000) 100000);
      [reflexivity|reflexivity|lra].
Qed.

(** One call of [generate_flight_data]: either the division in
    [_update_position] raises and the history is untouched, or the call
    returns a sample inside the closed envelope, stamped with the clock
    reading, recorded as current and pushed on the history. *)
Lemma generate_flight_data_spec cos sin radians d s r s' :
  G.generate_flight_data cos sin radians d s = (r, s') ->
  (r = Raise ZeroDivisionError /\ same_store s s') \/
  (exists fd,
     r = Ok fd /\ in_envelope fd /\
     G.max_history s' = G.max_history s /\
     G.current_data s' = Some fd /\
     G.history s' = push_history (G.max_history s) (G.history s) fd /\
     FlightData.timestamp fd = now d /\
     FlightData.heading fd =
       py_round (clamp 0 360
                   (clamp 0 360 (wrap_heading (G.current_heading s
                                               + G.heading_change_rate s
                                                 * G.update_interval s)%Q)
                    + u_heading d)%Q) 1).
Proof.
  unfold G.generate_flight_data. unfold bind at 1.
  destruct (G._update_position cos sin radians s) as [r1 s1] eqn:E1.
  apply _update_position_spec in E1.
  destruct E1 as [(Hh & Hm & Hc & Hu) [-> | [-> Hhead]]].
  - intros H. inversion H. subst. left. split; [reflexivity|].
    unfold same_store. auto.
  - unfold bind at 1. rewrite _add_realistic_variations_run.
    unfold bind at 1. rewrite _apply_boundaries_run.
    destruct s as [ui enc cd hist mh lat lon alt spd hdg vs hr ar sr].
    destruct s1 as [ui1 enc1 cd1 hist1 mh1 lat1 lon1 alt1 spd1 hdg1 vs1
                    hr1 ar1 sr1].
    cbn [G.history G.max_history G.current_data G.update_interval
         G.current_heading G.heading_change_rate] in *.
    subst hist1 mh1 cd1 ui1 hdg1.
    run_gen.
    rewrite (FlightData_new_ok _ _ _ _ _ _ _
               (rounded_sample_in_envelope _ _ _ _ _ _ _)).
    set (fd := FlightData.mk _ _ _ _ _ _ _).
    intros H. right. exists fd.
    assert (Henv : in_envelope fd) by apply rounded_sample_in_envelope.
    unfold push_history.
    destruct (Z.of_nat (length (hist ++ [fd])) >? mh).
    + destruct (list_pop_0_snoc hist fd) as (y & Hpop).
      rewrite Hpop in H. cbn [snd] in H. inversion H. subst r s'.
      split; [reflexivity|]. split; [exact Henv|].
      split; [reflexivity|]. split; [reflexivity|].
      split; [reflexivity|]. split; reflexivity.
    + inversion H. subst r s'.
      split; [reflexivity|]. split; [exact Henv|].
      split; [reflexivity|]. split; [reflexivity|].
      split; [reflexivity|]. split; reflexivity.
Qed.

(** ** Sequences of calls: the envelope *)

Lemma do_call_envelope cos sin radians c s :
  Forall in_envelope (snd (do_call cos sin radians c s)).
Proof.
  destruct c as [d|h a v|lat lon]; cbn [do_call]; [|constructor|constructor].
  destruct (G.generate_flight_data cos sin radians d s) as [r s'] eqn:E.
  apply generate_flight_data_spec in E.
  destruct E as [[-> _] | (fd & -> & Henv & _)]; cbn [snd].
  - constructor.
  - constructor; [exact Henv|constructor].
Qed.

(** C3, with the heading interval closed.  For all trigonometric
    functions, from every generator state and for every sequence of
    [generate_flight_data], [set_flight_parameters] and [reset_position]
    calls, with any rates, positions and random draws, every sample
    returned has latitude in [-90,90], longitude in [-180,180], altitude in
    [0,50000], airspeed in [0,1000], heading in [0,360] and vertical speed
    in [-10000,10000]. *)
Theorem C3_samples_in_closed_envelope (cos sin radians : Q -> Q)
    (cs : list call) (s : FlightDataGenerator.t) :
  Forall in_envelope (snd (do_calls cos sin radians cs s)).
Proof.
  revert s. induction cs as [|c cs IH]; intros s; cbn [do_calls].
  - constructor.
  - pose proof (do_call_envelope cos sin radians c s) as H1.
    destruct (do_call cos sin radians c s) as [s1 out1].
    specialize (IH s1).
    destruct (do_calls cos sin radians cs s1) as [s2 out2].
    cbn [snd] in *. apply Forall_app. split; assumption.
Qed.

(** Whatever the trigonometric functions are: on a new generator, after
    [set_flight_parameters(500, 0, 0)], a tick whose heading jitter is zero
    returns heading 360 if it returns at all, since 270 + 500 = 770 wraps
    once to 410 and is clamped to the upper bound 360. *)
Lemma heading_reaches_360 cos sin radians g d r s' :
  G.init 1 0 = Ok g -> u_heading d = 0%Q ->
  G.generate_flight_data cos sin radians d
    (snd (G.set_flight_parameters 500 0 0 g)) = (r, s') ->
  forall fd, r = Ok fd ->
    (FlightData.heading fd == 360)%Q /\ ~ in_documented_envelope fd.
Proof.
  intros Hg Hd Hrun fd ->. vm_compute in Hg. inversion Hg. subst g. clear Hg.
  apply generate_flight_data_spec in Hrun.
  destruct Hrun as [[Hr _] | (fd' & Hr & _ & _ & _ & _ & _ & Hh)];
    [discriminate Hr|].
  inversion Hr. subst fd'. clear Hr.
  rewrite Hd in Hh.
  assert (Hv : (FlightData.heading fd == 360)%Q)
    by (rewrite Hh; vm_compute; reflexivity).
  split; [exact Hv|].
  intros (_ & _ & _ & _ & [_ Hlt] & _). rewrite Hv in Hlt.
  apply Qlt_irrefl in Hlt. exact Hlt.
Qed.

(** The documented half-open heading interval is left: the sample of the
    tick above has heading 360. *)
Lemma C3_documented_envelope_counterexample : ~ documented_envelope_claim.
Proof.
  intros H.
  specialize (H (fun _ => 1%Q) (fun _ => 0%Q) (fun x => x) 1%Q 0 _
                [SetFlightParameters 500 0 0;
                 Generate (mk_draws 0 0 0 0 0 0 0 0 0 1)] eq_refl).
  assert (Hcs : Forall call_ok
                  [SetFlightParameters 500 0 0;
                   Generate (mk_draws 0 0 0 0 0 0 0 0 0 1)]).
  { constructor; [exact I|]. constructor; [|constructor].
    unfold call_ok, draws_ok, uniform_ok.
    cbn [u_latitude u_longitude u_altitude u_airspeed u_heading
         u_vertical_speed u_heading_rate u_altitude_rate u_speed_rate].
    repeat split; lra. }
  specialize (H Hcs). vm_compute in H.
  inversion H as [|fd l Hfd _]. subst.
  destruct Hfd as (_ & _ & _ & _ & [_ Hlt] & _).
  vm_compute in Hlt. discriminate Hlt.
Qed.

(** ** Sequences of calls: the history *)







Lemma init_store ui now g :
  G.init ui now = Ok g ->
  G.max_history g = 1000 /\
  G.history g = [FlightData.mk 41.2622 28.7278 35000 450 270 0 now] /\
  G.current_data g = Some (FlightData.mk 41.2622 28.7278 35000 450 270 0 now).
Proof.
  intros H. vm_compute in H. inversion H. subst g. cbn.
  split; [reflexivity|]. split; reflexivity.
Qed.



(** ** Reading the history *)

Lemma get_history_none s : G.get_history None s = G.history s.
Proof. reflexivity. Qed.

(** For a positive limit the result is the [min(limit, length)] most
    recent samples. *)
Lemma get_history_positive limit s :
  0 < limit ->
  G.get_history (Some limit) s =
  last_n (Z.to_nat (Z.min limit (Z.of_nat (length (G.history s)))))
         (G.history s).
Proof.
  intros Hpos. unfold G.get_history, slice_from, last_n.
  assert (E : (- limit <? 0) = true) by (apply Z.ltb_lt; lia).
  rewrite E. f_equal. lia.
Qed.

(** C8, at limit 0.  [history[-0:]] is [history[0:]]: the call returns the
    whole history instead of no sample, on a new generator the initial
    sample where [min(0, 1) = 0] samples are expected. *)
Theorem C8_get_history_zero_returns_all :
  (forall s, G.get_history (Some 0) s = G.history s) /\
  exists g,
    G.init 1 0 = Ok g /\
    G.get_history (Some 0) g
      = [FlightData.mk 41.2622 28.7278 35000 450 270 0 0] /\
    length (G.get_history (Some 0) g)
      <> Z.to_nat (Z.min 0 (Z.of_nat (length (G.history g)))).
Proof.
  split.
  - intros s. unfold G.get_history, slice_from.
    change (- 0 <? 0) with false. cbv iota.
    replace (Z.to_nat (Z.min (- 0) (Z.of_nat (length (G.history s)))))
      with 0%nat by lia.
    reflexivity.
  - eexists. split; [vm_compute; reflexivity|].
    split; [reflexivity|]. vm_compute. discriminate.
Qed.

(** ** The external sink registry *)

Module A := ARINC429APIServer.

Section SinkRegistry.
Variable str_exn : exn -> string.

(** An index inside the registry: the entry is removed, the others keep
    their order, and the call answers with success. *)
Lemma remove_external_config_in_range (index : Z) (s : A.t) :
  0 <= index < Z.of_nat (length (A.external_configs s)) ->
  A.remove_external_config str_exn index s =
  (Ok [("status", "success"); ("message", "Konfigürasyon kaldırıldı")],
   A.set_external_configs
     (delete (Z.to_nat index) (A.external_configs s)) s).
Proof.
  intros [H0 Hlt]. unfold A.remove_external_config, try_except, bind, get.
  assert (E : (0 <=? index) &&
              (index <? Z.of_nat (length (A.external_configs s))) = true).
  { apply andb_true_intro. split; [apply Z.leb_le|apply Z.ltb_lt]; lia. }
  rewrite E. unfold lift, list_pop.
  destruct (A.external_configs s !! Z.to_nat index) as [x|] eqn:El.
  - reflexivity.
  - apply lookup_ge_None in El. lia.
Qed.

(** An index outside the registry: the registry is unchanged, and the
    404 raised in the [else] branch is caught by the handler of the
    enclosing [try], which raises a 500. *)
Lemma remove_external_config_out_of_range (index : Z) (s : A.t) :
  index < 0 \/ Z.of_nat (length (A.external_configs s)) <= index ->
  A.remove_external_config str_exn index s =
  (Raise (HTTPException 500
            (str_exn (HTTPException 404 "Konfigürasyon bulunamadı"))), s).
Proof.
  intros H. unfold A.remove_external_config, try_except, bind, get.
  assert (E : (0 <=? index) &&
              (index <? Z.of_nat (length (A.external_configs s))) = false).
  { apply andb_false_iff. destruct H as [H|H];
      [left; apply Z.leb_gt|right; apply Z.ltb_ge]; lia. }
  rewrite E. reflexivity.
Qed.

(** C9, at index 0 of an empty registry and at index 2 of a registry of
    two sinks: the registry is unchanged, but the exception that leaves
    the handler has status 500, not the 404 of the [else] branch. *)
Theorem C9_remove_out_of_range_status_500 :
  let a := ExternalConfig.mk "http://a" 5 true [] in
  let b := ExternalConfig.mk "http://b" 10 false [] in
  A.remove_external_config str_exn 0 (A.mk [] [] []) =
    (Raise (HTTPException 500
              (str_exn (HTTPException 404 "Konfigürasyon bulunamadı"))),
     A.mk [] [] []) /\
  A.remove_external_config str_exn 2 (A.mk [] [a; b] []) =
    (Raise (HTTPException 500
              (str_exn (HTTPException 404 "Konfigürasyon bulunamadı"))),
     A.mk [] [a; b] []) /\
  A.remove_external_config str_exn 1 (A.mk [] [a; b] []) =
    (Ok [("status", "success"); ("message", "Konfigürasyon kaldırıldı")],
     A.mk [] [a] []).
Proof. intros a b. split; [|split]; reflexivity. Qed.
End SinkRegistry.

(** ** Fan-out to the subscribers *)

Lemma list_remove_only_failing (fails : WebSocket -> bool) bad conns :
  List.filter fails conns = [bad] ->
  list_remove bad conns = List.filter (fun c => negb (fails c)) conns.
Proof.
  induction conns as [|y l IH]; cbn [List.filter list_remove]; [discriminate|].
  destruct (fails y) eqn:Ey; cbn [negb]; intros H.
  - inversion H as [[Hy Hl]]. rewrite Nat.eqb_refl.
    clear IH H. induction l as [|z l IHl]; [reflexivity|].
    cbn [List.filter] in *. destruct (fails z); [discriminate Hl|].
    cbn [negb]. now rewrite <- IHl.
  - assert (Hb : fails bad = true).
    { assert (Hin : In bad (List.filter fails l)) by (rewrite H; now left).
      apply List.filter_In in Hin. tauto. }
    destruct (Nat.eqb y bad) eqn:E.
    + apply Nat.eqb_eq in E. subst y. congruence.
    + now rewrite IH.
Qed.

Lemma filter_split_length (f : WebSocket -> bool) l :
  (length (List.filter f l) + length (List.filter (fun c => negb (f c)) l)
   = length l)%nat.
Proof.
  induction l as [|y l IH]; [reflexivity|].
  cbn [List.filter]. destruct (f y); cbn [negb length]; lia.
Qed.

Lemma list_in_true x l : In x l -> list_in x l = true.
Proof.
  intros H. unfold list_in. apply existsb_exists. exists x.
  split; [exact H|apply Nat.eqb_refl].
Qed.

Section FanOut.
Variable Payload : Type.
Variable json_dumps : Payload -> string.
Variable send_fails : WebSocket -> bool.

(** The sending loop: every connection whose send succeeds gets the
    message on the wire, the others are collected, both in registry
    order; the registries are not touched. *)
Lemma send_loop_spec conns message disconnected s :
  A.send_loop send_fails conns message disconnected s =
  (Ok (disconnected ++ List.filter send_fails conns)%list,
   A.mk (A.active_connections s) (A.external_configs s)
        (A.wire s ++ map (fun c => (c, message))
                       (List.filter (fun c => negb (send_fails c)) conns))%list).
Proof.
  revert disconnected s.
  induction conns as [|c conns IH]; intros disconnected s.
  - destruct s. cbn. now rewrite !app_nil_r.
  - cbn [A.send_loop List.filter].
    unfold bind at 1, try_except, bind at 1, A.send_text.
    destruct (send_fails c) eqn:E; cbn [negb].
    + unfold raise, ret. rewrite IH. now rewrite <- app_assoc.
    + unfold modify, ret. rewrite IH. destruct s. cbn.
      now rewrite <- app_assoc.
Qed.

(** C6. When exactly one entry [bad] of the registry fails on send,
    [broadcast_data] returns normally; the wire gains the tick's message
    once for every other subscriber, in registry order, and nothing for
    [bad]; every other subscriber stays registered; [bad] is no longer in
    the registry; and the registry has one entry less. *)
Theorem C6_broadcast_isolates_failure (data : Payload) (s : A.t)
    (bad : WebSocket) :
  List.filter send_fails (A.active_connections s) = [bad] ->
  exists s',
    A.broadcast_data Payload json_dumps send_fails data s = (Ok tt, s') /\
    A.wire s' =
      (A.wire s ++ map (fun c => (c, json_dumps data))
                     (List.filter (fun c => negb (send_fails c))
                        (A.active_connections s)))%list /\
    (forall c, In c (A.active_connections s) -> c <> bad ->
       In (c, json_dumps data) (A.wire s') /\ In c (A.active_connections s')) /\
    ~ In bad (A.active_connections s') /\
    A.active_connections s' =
      List.filter (fun c => negb (send_fails c)) (A.active_connections s) /\
    length (A.active_connections s') =
      (length (A.active_connections s) - 1)%nat /\
    A.external_configs s' = A.external_configs s.
Proof.
  destruct s as [conns ext wire].
  cbn [A.active_connections A.external_configs A.wire]. intros Hone.
  assert (Hbad : In bad conns /\ send_fails bad = true).
  { apply List.filter_In. rewrite Hone. now left. }
  destruct Hbad as [Hin Hfails].
  assert (Hothers : forall c, In c conns -> c <> bad -> send_fails c = false).
  { intros c Hc Hne. destruct (send_fails c) eqn:E; [|reflexivity].
    assert (Hc' : In c (List.filter send_fails conns))
      by (apply List.filter_In; split; assumption).
    rewrite Hone in Hc'. destruct Hc' as [->|[]]. contradiction. }
  assert (Hrun : A.broadcast_data Payload json_dumps send_fails data
                   (A.mk conns ext wire) =
                 (Ok tt,
                  A.mk (list_remove bad conns) ext
                    (wire ++ map (fun c => (c, json_dumps data))
                               (List.filter (fun c => negb (send_fails c))
                                  conns))%list)).
  { unfold A.broadcast_data, bind at 1, get. cbn [A.active_connections].
    destruct conns as [|c0 conns0] eqn:Econns; [destruct Hin|].
    rewrite <- Econns in *. unfold bind at 1.
    rewrite send_loop_spec, Hone.
    cbn [app A.disconnect_loop A.active_connections A.external_configs A.wire].
    unfold A.disconnect_websocket. cbv [bind get].
    cbn [A.active_connections]. rewrite (list_in_true _ _ Hin).
    reflexivity. }
  eexists. split; [exact Hrun|].
  cbn [A.wire A.active_connections A.external_configs].
  rewrite (list_remove_only_failing send_fails bad _ Hone).
  split; [reflexivity|]. split; [|split; [|split; [reflexivity|split]]].
  - intros c Hc Hne. pose proof (Hothers c Hc Hne) as Hok.
    assert (Hkeep : In c (List.filter (fun c => negb (send_fails c)) conns)).
    { apply List.filter_In. split; [exact Hc|]. now rewrite Hok. }
    split; [|exact Hkeep].
    apply in_or_app. right.
    apply (in_map (fun c => (c, json_dumps data))) in Hkeep. exact Hkeep.
  - intros H. apply List.filter_In in H. destruct H as [_ H].
    rewrite Hfails in H. discriminate H.
  - pose proof (filter_split_length send_fails conns) as Hl.
    rewrite Hone in Hl. cbn [length] in Hl. lia.
  - reflexivity.
Qed.
End FanOut.

(** The theorem on three subscribers of which the second fails. *)
Lemma C6_broadcast_isolates_failure_witness :
  let fails := fun c : WebSocket => Nat.eqb c 2 in
  let s := A.mk [1; 2; 3]%nat [] [] in
  List.filter fails (A.active_connections s) = [2%nat] /\
  exists s',
    A.broadcast_data string (fun p => p) fails "tick" s = (Ok tt, s') /\
    A.wire s' =
      (A.wire s ++ map (fun c => (c, "tick"))
                     (List.filter (fun c => negb (fails c))
                        (A.active_connections s)))%list /\
    (forall c, In c (A.active_connections s) -> c <> 2%nat ->
       In (c, "tick") (A.wire s') /\ In c (A.active_connections s')) /\
    ~ In 2%nat (A.active_connections s') /\
    A.active_connections s' =
      List.filter (fun c => negb (fails c)) (A.active_connections s) /\
    length (A.active_connections s') =
      (length (A.active_connections s) - 1)%nat /\
    A.external_configs s' = A.external_configs s.
Proof.
  intros fails s. split; [reflexivity|].
  apply (C6_broadcast_isolates_failure string (fun p => p) fails "tick" s 2%nat).
  reflexivity.
Defined.

Example broadcast_three_subscribers :
  A.broadcast_data string (fun p => p) (fun c => Nat.eqb c 2) "tick"
    (A.mk [1; 2; 3]%nat [] [])
  = (Ok tt, A.mk [1; 3]%nat [] [(1%nat, "tick"); (3%nat, "tick")]).
Proof. reflexivity. Qed.

(** ** Worked examples *)

Example encode_latitude_negative :
  encode_latitude (-41.2622) ARINC429Encoder.init
  = (Ok "1100100101111001110", ARINC429Encoder.mk "00" "11").
Proof. reflexivity. Qed.

Example encode_heading_out_of_range :
  fst (encode_heading 360.5 ARINC429Encoder.init)
  = Raise (ValueError "Yön 0-360 derece arasında olmalıdır").
Proof. reflexivity. Qed.

(** A record whose altitude left the envelope after construction: only
    the altitude word is missing. *)
Example encode_flight_data_skips_altitude :
  map ARINC429Message.label
    (omap (word_alone 0) (encodings (FlightData.mk 1 2 (-5) 4 5 6 0)))
  = ["6A"; "6B"; "6D"; "6E"; "6F"].
Proof. reflexivity. Qed.

Example decode_unknown_label :
  decode_message (ARINC429Message.mk "70" "00" "0000000000000000001" "00" "0" 0)
  = Raise (ValueError "Bilinmeyen label: 70").
Proof. reflexivity. Qed.

Example validate_rejects_even_word :
  validate_arinc429_word "01101010001100100101111001110111" = false.
Proof. reflexivity. Qed.

(** [int(s, base)] reads more than plain digits: blanks around, a sign, the
    prefix of the base, single underscores. *)
Example int_literals :
  int2 "-101" = Ok (-5) /\ int2 " 0b1_0 " = Ok 2 /\ int2 "+0B_11" = Ok 3 /\
  int16 "0x6A" = Ok 106 /\ int16 "0b1" = Ok 177 /\
  int2 "1__0" = Raise (ValueError "invalid literal for int()") /\
  int2 "1_" = Raise (ValueError "invalid literal for int()") /\
  int2 "- 1" = Raise (ValueError "invalid literal for int()") /\
  int2 "0b" = Raise (ValueError "invalid literal for int()") /\
  int2 "0x1" = Raise (ValueError "invalid literal for int()") /\
  int2 "" = Raise (ValueError "invalid literal for int()").
Proof. vm_compute. tauto. Qed.

(** A data field with a sign is decoded, to a negative altitude. *)
Example decode_signed_data :
  decode_message (ARINC429Message.mk "6C" "00" "-101" "00" "0" 0)
  = Ok ("altitude", inject_Z (-5)).
Proof. reflexivity. Qed.

Example py_round_half_even :
  (py_round 0.25 1 == 0.2)%Q /\ (py_round 0.35 1 == 0.4)%Q /\
  (py_round 359.95 1 == 360)%Q.
Proof. repeat split. Qed.

Example slice_from_examples :
  slice_from (-2) [1; 2; 3] = [2; 3] /\ slice_from (-5) [1; 2; 3] = [1; 2; 3] /\
  slice_from 0 [1; 2; 3] = [1; 2; 3].
Proof. repeat split. Qed.

(** With capacity 2, three ticks leave the last two samples. *)
Example history_evicts_oldest :
  let tick n := Generate (mk_draws 0 0 0 0 0 0 0 0 0 n) in
  let g := G.mk 1 ARINC429Encoder.init None [] 2 0 0 1000 0 0 0 0 0 0 in
  let r := do_calls (fun _ => 1%Q) (fun _ => 0%Q) (fun x => x)
             [tick 1; tick 2; tick 3] g in
  map FlightData.timestamp (snd r) = [1; 2; 3] /\
  map FlightData.timestamp (G.history (fst r)) = [2; 3].
Proof. vm_compute. split; reflexivity. Qed.

Example get_history_last_two :
  let fd n := FlightData.mk 0 0 0 0 0 0 n in
  let g := G.mk 1 ARINC429Encoder.init None [fd 1; fd 2; fd 3] 1000
             0 0 0 0 0 0 0 0 0 in
  G.get_history (Some 2) g = [fd 2; fd 3] /\
  G.get_history (Some 7) g = [fd 1; fd 2; fd 3] /\
  G.get_history None g = [fd 1; fd 2; fd 3].
Proof. repeat split. Qed.

(** * Further properties of the codec *)

Lemma Qabs_opp_eq (v : Q) : Qabs (- v) = Qabs v.
Proof.
  destruct v as [n d]. unfold Qabs, Qopp. cbn [Qnum Qden].
  now rewrite Z.abs_opp.
Qed.

Lemma out_of_range_true lo hi v :
  (v < lo \/ hi < v)%Q -> Qltb v lo || Qltb hi v = true.
Proof.
  intros [H|H]; apply Qltb_true in H; rewrite H;
    [reflexivity|apply orb_true_r].
Qed.

Lemma in_range_false lo hi v :
  (lo <= v /\ v <= hi)%Q -> Qltb v lo || Qltb hi v = false.
Proof. intros H. apply range_check_false. exact H. Qed.

Lemma Qle_bool_false_lt a b : Qle_bool a b = false -> (b < a)%Q.
Proof.
  intros H. apply Qnot_le_lt. intros Hle. apply Qle_bool_iff in Hle.
  congruence.
Qed.

Lemma field_encoders_range_checked :
  range_checked encode_latitude (-90) 90 /\
  range_checked encode_longitude (-180) 180 /\
  range_checked encode_altitude 0 50000 /\
  range_checked encode_airspeed 0 1000 /\
  range_checked encode_heading 0 360 /\
  range_checked encode_vertical_speed (-10000) 10000.
Proof.
  unfold range_checked.
  split; [|split; [|split; [|split; [|split]]]]; intros v self; split;
    intros H;
    first [ rewrite encode_latitude_run | rewrite encode_longitude_run
          | rewrite encode_altitude_run | rewrite encode_airspeed_run
          | rewrite encode_heading_run | rewrite encode_vertical_speed_run ];
    first [ rewrite (out_of_range_true _ _ _ H); eexists; reflexivity
          | rewrite (in_range_false _ _ _ H); eexists _, _;
            split; [reflexivity|];
            match goal with
            | |- context [Z.land ?n _] =>
                destruct (data_field_bits n) as [Hb Hl]
            end;
            split; [exact Hl|exact Hb] ].
Qed.

(** X1. Each of the six field encoders checks its documented closed
    range: a value outside it raises a [ValueError] and leaves the encoder
    (in particular the [ssm] of the previous word) untouched; a value
    inside it, bounds included, returns exactly nineteen binary digits and
    keeps [sdi]. *)
Theorem X1_encoders_check_range :
  range_checked encode_latitude (-90) 90 /\
  range_checked encode_longitude (-180) 180 /\
  range_checked encode_altitude 0 50000 /\
  range_checked encode_airspeed 0 1000 /\
  range_checked encode_heading 0 360 /\
  range_checked encode_vertical_speed (-10000) 10000.
Proof. exact field_encoders_range_checked. Qed.

Lemma Qle_bool_of_sign (v : Q) :
  ((v < 0)%Q -> Qle_bool 0 v = false) /\ ((0 <= v)%Q -> Qle_bool 0 v = true).
Proof.
  split; intros H.
  - destruct (Qle_bool 0 v) eqn:E; [|reflexivity].
    apply Qle_bool_iff in E. lra.
  - apply Qle_bool_iff. exact H.
Qed.

Lemma sign_in_ssm_of_run (f : Q -> M ARINC429Encoder.t string)
    (bound : Q) (scaled : Q -> Q) msg :
  (forall v self, f v self =
     if Qltb v (- bound) || Qltb bound v then (Raise (ValueError msg), self)
     else (Ok (format_b 19 (Z.land (py_int (scaled (Qabs v))) 0x7FFFF)),
           ARINC429Encoder.mk (self_sdi self)
             (if Qle_bool 0 v then "00" else "11"))) ->
  sign_in_ssm f.
Proof.
  intros Hrun v self d self' H. rewrite Hrun in H.
  destruct (Qltb v (- bound) || Qltb bound v) eqn:E; [discriminate H|].
  apply range_check_false in E. inversion H. subst d self'. clear H.
  cbn [self_ssm]. destruct (Qle_bool_of_sign v) as [Hneg Hpos].
  split; [intros Hv; now rewrite (Hneg Hv)|].
  split; [intros Hv; now rewrite (Hpos Hv)|].
  rewrite Hrun.
  assert (E' : Qltb (- v) (- bound) || Qltb bound (- v) = false)
    by (apply range_check_false; split; lra).
  rewrite E', Qabs_opp_eq. reflexivity.
Qed.

(** X2. Latitude, longitude and vertical speed are encoded as sign and
    magnitude: after a successful call [ssm] is ["11"] for a negative
    value and ["00"] otherwise, and a value and its opposite give the same
    data bits.  Altitude, airspeed and heading always leave [ssm] at
    ["00"]. *)
Theorem X2_sign_and_magnitude :
  sign_in_ssm encode_latitude /\ sign_in_ssm encode_longitude /\
  sign_in_ssm encode_vertical_speed /\
  ssm_always_00 encode_altitude /\ ssm_always_00 encode_airspeed /\
  ssm_always_00 encode_heading.
Proof.
  split; [|split; [|split; [|split; [|split]]]].
  - eapply (sign_in_ssm_of_run _ 90 (fun x => x * 10000)%Q).
    exact encode_latitude_run.
  - eapply (sign_in_ssm_of_run _ 180 (fun x => x * 10000)%Q).
    exact encode_longitude_run.
  - eapply (sign_in_ssm_of_run _ 10000 (fun x => x)).
    exact encode_vertical_speed_run.
  - intros v self d self' H. rewrite encode_altitude_run in H.
    destruct (Qltb v 0 || Qltb 50000 v); inversion H. reflexivity.
  - intros v self d self' H. rewrite encode_airspeed_run in H.
    destruct (Qltb v 0 || Qltb 1000 v); inversion H. reflexivity.
  - intros v self d self' H. rewrite encode_heading_run in H.
    destruct (Qltb v 0 || Qltb 360 v); inversion H. reflexivity.
Qed.


Lemma omap_length_full {A B} (f : A -> option B) (l : list A) :
  length (omap f l) = length l <-> Forall (fun x => f x <> None) l.
Proof.
  induction l as [|x l IH]; cbn [omap list_omap length].
  - split; [constructor|reflexivity].
  - pose proof (omap_length_le f l) as Hle. destruct (f x) eqn:E.
    + cbn [length]. split.
      * intros H. constructor; [congruence|]. apply IH. lia.
      * intros H. inversion H; subst. f_equal. now apply IH.
    + split; [lia|]. intros H. inversion H; subst. congruence.
Qed.

Lemma omap_labels_full ts fd es :
  (forall e, In e es -> In e (encodings fd)) ->
  Forall (fun e => word_alone ts e <> None) es ->
  map ARINC429Message.label (omap (word_alone ts) es) = map entry_label es.
Proof.
  induction es as [|e es IH]; intros Hes Hall; [reflexivity|].
  inversion Hall as [|? ? He Hall']; subst.
  cbn [omap list_omap map]. destruct (word_alone ts e) as [m|] eqn:E;
    [|congruence].
  cbn [map]. rewrite (word_alone_label ts fd e m (Hes e (or_introl eq_refl)) E).
  f_equal. apply IH; [|exact Hall'].
  intros e' He'. apply Hes. right. exact He'.
Qed.

Lemma word_alone_fields ts fd e m :
  In e (encodings fd) -> word_alone ts e = Some m ->
  ARINC429Message.timestamp m = ts /\ ARINC429Message.sdi m = "00" /\
  String.length (ARINC429Message.data m) = 19%nat /\
  all_bits (ARINC429Message.data m) = true.
Proof.
  destruct e as [[name v] f]. intros Hin Hw.
  destruct (encodings_shape fd name v f Hin) as [Hshape (lbl & Hlbl & Hlo)].
  destruct Hshape as [msg Hf | n ssm' Hssm Hf].
  - exfalso. exact (entry_raises ts name v f msg m Hf Hw).
  - destruct (encode_entry_ok ts name v f n ssm' lbl ARINC429Encoder.init
                Hssm Hf Hlbl Hlo eq_refl) as (p & _ & Hrun).
    unfold word_alone in Hw. rewrite Hrun in Hw. inversion Hw. subst m.
    cbn. destruct (data_field_bits n) as [Hb Hl]. auto.
Qed.

(** A field's word is present exactly when its value is inside the range
    its encoder checks. *)
Lemma word_alone_present ts fd name v f lo hi :
  In (name, v, f) (encodings fd) -> range_checked f lo hi ->
  (word_alone ts (name, v, f) <> None <-> (lo <= v /\ v <= hi)%Q).
Proof.
  intros Hin Hrc.
  pose proof (word_alone_none ts fd name v f Hin) as Hnone.
  destruct (Hrc v ARINC429Encoder.init) as [Hout Hok]. split.
  - intros Hsome.
    destruct (Qlt_le_dec v lo) as [H1|H1].
    { exfalso. apply Hsome, Hnone.
      destruct (Hout (or_introl H1)) as (msg & Hr). eexists _, _. exact Hr. }
    destruct (Qlt_le_dec hi v) as [H2|H2].
    { exfalso. apply Hsome, Hnone.
      destruct (Hout (or_intror H2)) as (msg & Hr). eexists _, _. exact Hr. }
    split; assumption.
  - intros Hin_range Hn. apply Hnone in Hn. destruct Hn as (e & s & Hr).
    destruct (Hok Hin_range) as (d & ssm' & Hrun & _).
    rewrite Hrun in Hr. discriminate Hr.
Qed.

Lemma in_envelope_entries ts fd :
  Forall (fun e => word_alone ts e <> None) (encodings fd) <-> in_envelope fd.
Proof.
  destruct field_encoders_range_checked
    as (R1 & R2 & R3 & R4 & R5 & R6).
  pose proof (word_alone_present ts fd "latitude" (FlightData.latitude fd)
                encode_latitude (-90) 90 (or_introl eq_refl) R1) as P1.
  pose proof (word_alone_present ts fd "longitude" (FlightData.longitude fd)
                encode_longitude (-180) 180
                (or_intror (or_introl eq_refl)) R2) as P2.
  pose proof (word_alone_present ts fd "altitude" (FlightData.altitude fd)
                encode_altitude 0 50000
                (or_intror (or_intror (or_introl eq_refl))) R3) as P3.
  pose proof (word_alone_present ts fd "airspeed" (FlightData.airspeed fd)
                encode_airspeed 0 1000
                (or_intror (or_intror (or_intror (or_introl eq_refl)))) R4)
    as P4.
  pose proof (word_alone_present ts fd "heading" (FlightData.heading fd)
                encode_heading 0 360
                (or_intror (or_intror (or_intror (or_intror
                   (or_introl eq_refl))))) R5) as P5.
  pose proof (word_alone_present ts fd "vertical_speed"
                (FlightData.vertical_speed fd) encode_vertical_speed
                (-10000) 10000
                (or_intror (or_intror (or_intror (or_intror (or_intror
                   (or_introl eq_refl)))))) R6) as P6.
  unfold encodings, in_envelope. split.
  - intros H.
    inversion H as [|? ? H1 T1]; subst; clear H.
    inversion T1 as [|? ? H2 T2]; subst; clear T1.
    inversion T2 as [|? ? H3 T3]; subst; clear T2.
    inversion T3 as [|? ? H4 T4]; subst; clear T3.
    inversion T4 as [|? ? H5 T5]; subst; clear T4.
    inversion T5 as [|? ? H6 T6]; subst; clear T5.
    apply P1 in H1. apply P2 in H2. apply P3 in H3.
    apply P4 in H4. apply P5 in H5. apply P6 in H6. tauto.
  - intros (A & B & C & D & E & F).
    apply P1 in A. apply P2 in B. apply P3 in C.
    apply P4 in D. apply P5 in E. apply P6 in F.
    constructor; [exact A|]. constructor; [exact B|].
    constructor; [exact C|]. constructor; [exact D|].
    constructor; [exact E|]. constructor; [exact F|]. constructor.
Qed.

Lemma complete_batch ssm0 fd :
  exists msgs self',
    encode_flight_data fd (ARINC429Encoder.mk "00" ssm0) = (Ok msgs, self') /\
    (length msgs = 6%nat <-> in_envelope fd) /\
    (in_envelope fd ->
       map ARINC429Message.label msgs = label_order /\
       Forall (fun m =>
                 ARINC429Message.timestamp m = FlightData.timestamp fd /\
                 ARINC429Message.sdi m = "00" /\
                 String.length (ARINC429Message.data m) = 19%nat /\
                 all_bits (ARINC429Message.data m) = true) msgs).
Proof.
  destruct (encode_flight_data_omap ssm0 fd) as (self' & Hrun).
  set (ts := FlightData.timestamp fd) in *.
  exists (omap (word_alone ts) (encodings fd)), self'.
  split; [exact Hrun|]. split.
  - rewrite <- (in_envelope_entries ts fd).
    change 6%nat with (length (encodings fd)). apply omap_length_full.
  - intros Henv. apply (in_envelope_entries ts fd) in Henv. split.
    + change label_order with (map entry_label (encodings fd)).
      apply (omap_labels_full ts fd); auto.
    + apply Forall_forall. intros m Hm.
      apply list_elem_of_omap in Hm. destruct Hm as (e & He & Hw).
      apply list_elem_of_In in He.
      exact (word_alone_fields ts fd e m He Hw).
Qed.

(** X3. The constructor of [FlightData] accepts a record exactly when it
    lies in the closed envelope, and exactly then [encode_flight_data]
    returns all six words: their labels are 6A to 6F in this order, each
    carries the record's timestamp, sdi ["00"] and nineteen binary data
    digits.  A record outside the envelope gives fewer than six words. *)
Theorem X3_complete_batch_iff_in_envelope (ssm0 : string) (fd : FlightData.t) :
  (FlightData.new (FlightData.latitude fd) (FlightData.longitude fd)
     (FlightData.altitude fd) (FlightData.airspeed fd) (FlightData.heading fd)
     (FlightData.vertical_speed fd) (FlightData.timestamp fd) = Ok fd
   <-> in_envelope fd) /\
  exists msgs self',
    encode_flight_data fd (ARINC429Encoder.mk "00" ssm0) = (Ok msgs, self') /\
    (length msgs <= 6)%nat /\
    (length msgs = 6%nat <-> in_envelope fd) /\
    (in_envelope fd ->
       map ARINC429Message.label msgs = label_order /\
       Forall (fun m =>
                 ARINC429Message.timestamp m = FlightData.timestamp fd /\
                 ARINC429Message.sdi m = "00" /\
                 String.length (ARINC429Message.data m) = 19%nat /\
                 all_bits (ARINC429Message.data m) = true) msgs).
Proof.
  split.
  - split.
    + apply FlightData_new_envelope.
    + intros H. destruct fd. apply FlightData_new_ok. exact H.
  - destruct (complete_batch ssm0 fd) as (msgs & self' & Hrun & Hlen & Hall).
    exists msgs, self'. split; [exact Hrun|]. split; [|split; assumption].
    destruct (encode_flight_data_omap ssm0 fd) as (self'' & Hrun').
    assert (Hm : msgs = omap (word_alone (FlightData.timestamp fd))
                          (encodings fd)) by congruence.
    rewrite Hm. apply (omap_length_le _ (encodings fd)).
Qed.

(** X4. For any label of two hexadecimal digits, any two-bit sdi, any
    nineteen-bit data and any two-bit ssm, not only those the encoder
    emits, [calculate_parity] returns one digit, and the 32 characters
    label+sdi+data+ssm+parity are accepted by [validate_arinc429_word]. *)
Theorem X4_parity_of_any_well_formed_fields (label sdi data ssm : string)
    (l : Z) :
  int16 label = Ok l -> 0 <= l < 256 ->
  all_bits sdi = true -> String.length sdi = 2%nat ->
  all_bits data = true -> String.length data = 19%nat ->
  all_bits ssm = true -> String.length ssm = 2%nat ->
  exists p,
    calculate_parity label sdi data ssm = Ok p /\
    (p = "0" \/ p = "1") /\
    create_arinc429_word (PyInt l) sdi data ssm p
      = Ok (format_b 8 l ++ sdi ++ data ++ ssm ++ p) /\
    validate_arinc429_word (format_b 8 l ++ sdi ++ data ++ ssm ++ p) = true.
Proof.
  intros Hl Hlr Hsb Hsl Hdb Hdl Hmb Hml.
  destruct (parity_word_valid label sdi data ssm l Hl Hlr Hsb Hsl Hdb Hdl
              Hmb Hml) as (p & Hp & _ & Hpeq & Hw & _ & _ & Hv).
  exists p. split; [exact Hp|]. split.
  - rewrite Hpeq.
    destruct (str_count "1" (format_b 8 l ++ sdi ++ data ++ ssm) mod 2 =? 0);
      auto.
  - rewrite !append_assoc in Hw, Hv. split; [|exact Hv].
    unfold create_arinc429_word. reflexivity.
Qed.

(** The theorem at label FF, sdi 10, alternating data and ssm 01. *)
Lemma X4_parity_of_any_well_formed_fields_witness :
  exists p,
    calculate_parity "FF" "10" "1010101010101010101" "01" = Ok p /\
    (p = "0" \/ p = "1") /\
    create_arinc429_word (PyInt 255) "10" "1010101010101010101" "01" p
      = Ok (format_b 8 255 ++ "10" ++ "1010101010101010101" ++ "01" ++ p) /\
    validate_arinc429_word
      (format_b 8 255 ++ "10" ++ "1010101010101010101" ++ "01" ++ p) = true.
Proof.
  apply (X4_parity_of_any_well_formed_fields "FF" "10" "1010101010101010101"
           "01" 255); try reflexivity.
  split; [discriminate|reflexivity].
Defined.

Lemma length_flip_at i s : String.length (flip_at i s) = String.length s.
Proof.
  revert i. induction s as [|a s IH]; intros i; [reflexivity|].
  destruct i as [|j]; cbn [flip_at String.length]; [reflexivity|].
  now rewrite IH.
Qed.

Lemma str_count_flip_at i s :
  all_bits s = true -> (i < String.length s)%nat ->
  str_count "1" (flip_at i s) = str_count "1" s + 1 \/
  str_count "1" (flip_at i s) = str_count "1" s - 1.
Proof.
  revert i. induction s as [|a s IH]; intros i Hb Hi;
    [cbn in Hi; lia|].
  cbn [all_bits] in Hb. apply andb_prop in Hb as [Ha Hs].
  destruct i as [|j]; cbn [flip_at str_count].
  - destruct (Ascii.eqb a "1") eqn:E1.
    + right. change (if Ascii.eqb "0" "1" then 1 else 0) with 0. lia.
    + left. change (if Ascii.eqb "1" "1" then 1 else 0) with 1. lia.
  - cbn [String.length] in Hi.
    destruct (IH j Hs ltac:(lia)) as [H|H]; rewrite H; [left|right]; lia.
Qed.

(** X5. Odd parity detects every single-bit error: if a word of binary
    digits is accepted by [validate_arinc429_word], the word with any one
    of its 32 digits inverted is rejected. *)
Theorem X5_single_bit_error_detected (word : string) (i : nat) :
  all_bits word = true -> validate_arinc429_word word = true ->
  (i < 32)%nat ->
  validate_arinc429_word (flip_at i word) = false.
Proof.
  unfold validate_arinc429_word. intros Hb Hv Hi.
  rewrite length_flip_at.
  destruct (Z.of_nat (String.length word) =? 32) eqn:El;
    cbn [negb] in *; [|discriminate Hv].
  apply Z.eqb_eq in El. apply Z.eqb_eq in Hv. apply Z.eqb_neq.
  destruct (str_count_flip_at i word Hb ltac:(lia)) as [H|H]; rewrite H.
  - replace (str_count "1" word + 1) with (str_count "1" word - 1 + 1 * 2)
      by lia.
    rewrite Z.mod_add by lia.
    pose proof (Z.div_mod (str_count "1" word) 2 ltac:(lia)) as Hdm.
    replace (str_count "1" word - 1)
      with (0 + (str_count "1" word / 2) * 2) by lia.
    rewrite Z.mod_add by lia. discriminate.
  - pose proof (Z.div_mod (str_count "1" word) 2 ltac:(lia)) as Hdm.
    replace (str_count "1" word - 1)
      with (0 + (str_count "1" word / 2) * 2) by lia.
    rewrite Z.mod_add by lia. discriminate.
Qed.

(** The theorem on the word of latitude -41.2622 with data bit 12
    inverted. *)
Lemma X5_single_bit_error_detected_witness :
  validate_arinc429_word "01101010001100100101111001110110" = true /\
  flip_at 12 "01101010001100100101111001110110"
    = "01101010001110100101111001110110" /\
  validate_arinc429_word (flip_at 12 "01101010001100100101111001110110")
    = false.
Proof.
  split; [reflexivity|]. split; [reflexivity|].
  apply (X5_single_bit_error_detected "01101010001100100101111001110110" 12);
    [reflexivity|reflexivity|].
  repeat constructor.
Defined.

(** ** Decoding arbitrary words *)

(** The value that [decode_message] returns for a label of the table:
    the data value divided by the field's scale, negated when the field is
    signed and [ssm] is ["11"]. *)
Lemma decode_message_value m n :
  In (ARINC429Message.label m) label_order ->
  int2 (ARINC429Message.data m) = Ok n ->
  exists name v,
    dict_index LABELS name = Ok (ARINC429Message.label m) /\
    (exists dec, dict_get decoders (ARINC429Message.label m)
                 = Some (name, dec)) /\
    decode_message m = Ok (name, v) /\
    (v * decode_scale name ==
     if signed_label (ARINC429Message.label m)
        && String.eqb (ARINC429Message.ssm m) "11"
     then - inject_Z n else inject_Z n)%Q.
Proof.
  unfold label_order. intros H Hn.
  repeat (destruct H as [H|H]; [symmetry in H|]); [| | | | | |destruct H].
  - exists "latitude". eexists. split; [now rewrite H|].
    split; [rewrite H; eexists; reflexivity|].
    rewrite (decode_message_dispatch m "6A" "latitude" decode_latitude H eq_refl).
    unfold decode_latitude. rewrite Hn, H. cbn [rbind].
    split; [reflexivity|]. change (decode_scale "latitude") with 10000%Q.
    change (signed_label "6A") with true. cbn [andb].
    destruct (String.eqb (ARINC429Message.ssm m) "11"); field.
  - exists "longitude". eexists. split; [now rewrite H|].
    split; [rewrite H; eexists; reflexivity|].
    rewrite (decode_message_dispatch m "6B" "longitude" decode_longitude H
               eq_refl).
    unfold decode_longitude. rewrite Hn, H. cbn [rbind].
    split; [reflexivity|]. change (decode_scale "longitude") with 10000%Q.
    change (signed_label "6B") with true. cbn [andb].
    destruct (String.eqb (ARINC429Message.ssm m) "11"); field.
  - exists "altitude". eexists. split; [now rewrite H|].
    split; [rewrite H; eexists; reflexivity|].
    rewrite (decode_message_dispatch m "6C" "altitude" decode_altitude H eq_refl).
    unfold decode_altitude. rewrite Hn, H. cbn [rbind].
    split; [reflexivity|]. change (decode_scale "altitude") with 1%Q.
    change (signed_label "6C") with false. cbn [andb]. field.
  - exists "airspeed". eexists. split; [now rewrite H|].
    split; [rewrite H; eexists; reflexivity|].
    rewrite (decode_message_dispatch m "6D" "airspeed" decode_airspeed H eq_refl).
    unfold decode_airspeed. rewrite Hn, H. cbn [rbind].
    split; [reflexivity|]. change (decode_scale "airspeed") with 10%Q.
    change (signed_label "6D") with false. cbn [andb]. field.
  - exists "heading". eexists. split; [now rewrite H|].
    split; [rewrite H; eexists; reflexivity|].
    rewrite (decode_message_dispatch m "6E" "heading" decode_heading H eq_refl).
    unfold decode_heading. rewrite Hn, H. cbn [rbind].
    split; [reflexivity|]. change (decode_scale "heading") with 10%Q.
    change (signed_label "6E") with false. cbn [andb]. field.
  - exists "vertical_speed". eexists. split; [now rewrite H|].
    split; [rewrite H; eexists; reflexivity|].
    rewrite (decode_message_dispatch m "6F" "vertical_speed"
               decode_vertical_speed H eq_refl).
    unfold decode_vertical_speed. rewrite Hn, H. cbn [rbind].
    split; [reflexivity|]. change (decode_scale "vertical_speed") with 1%Q.
    change (signed_label "6F") with true. cbn [andb].
    destruct (String.eqb (ARINC429Message.ssm m) "11"); field.
Qed.

Lemma decode_scale_pos name : (0 < decode_scale name)%Q.
Proof.
  unfold decode_scale.
  repeat match goal with
         | |- context [String.eqb ?a ?b] => destruct (String.eqb a b)
         end; reflexivity.
Qed.

(** X7. A word with a label of the table and nineteen binary data digits
    always decodes, and the magnitude of the value is the data value
    divided by the field's scale: at most 52.4287 for latitude and
    longitude, 52428.7 for airspeed and heading, 524287 for altitude and
    vertical speed.  The decoder applies no envelope check. *)
Theorem X7_decoded_magnitude (m : ARINC429Message.t) :
  In (ARINC429Message.label m) label_order ->
  all_bits (ARINC429Message.data m) = true ->
  String.length (ARINC429Message.data m) = 19%nat ->
  exists name n v,
    dict_index LABELS name = Ok (ARINC429Message.label m) /\
    int2 (ARINC429Message.data m) = Ok n /\ 0 <= n <= 524287 /\
    decode_message m = Ok (name, v) /\
    (Qabs v * decode_scale name == inject_Z n)%Q /\
    (Qabs v * decode_scale name <= 524287)%Q.
Proof.
  intros Hl Hb Hlen.
  destruct (int2_bits _ Hb ltac:(lia)) as (n & Hn & Hr & _).
  rewrite Hlen in Hr. change (2 ^ Z.of_nat 19) with 524288 in Hr.
  destruct (decode_message_value m n Hl Hn)
    as (name & v & Hname & _ & Hd & Hv).
  exists name, n, v. split; [exact Hname|]. split; [exact Hn|].
  split; [lia|]. split; [exact Hd|].
  pose proof (decode_scale_pos name) as Hs.
  assert (Hn0 : (0 <= inject_Z n)%Q).
  { change 0%Q with (inject_Z 0). rewrite <- Zle_Qle. lia. }
  assert (Habs : (Qabs v * decode_scale name == inject_Z n)%Q).
  { rewrite <- (Qabs_pos (decode_scale name)) at 1 by lra.
    rewrite <- Qabs_Qmult, Hv.
    destruct (signed_label (ARINC429Message.label m)
              && String.eqb (ARINC429Message.ssm m) "11").
    - rewrite Qabs_opp. apply Qabs_pos. exact Hn0.
    - apply Qabs_pos. exact Hn0. }
  split; [exact Habs|]. rewrite Habs.
  change 524287%Q with (inject_Z 524287). rewrite <- Zle_Qle. lia.
Qed.

(** The theorem on a word that no encoder call produces: altitude data of
    all ones decodes to 524287 feet. *)
Lemma X7_decoded_magnitude_witness :
  exists name n v,
    dict_index LABELS name = Ok "6C" /\
    int2 (ones 19) = Ok n /\ 0 <= n <= 524287 /\
    decode_message (ARINC429Message.mk "6C" "00" (ones 19) "00" "0" 0)
      = Ok (name, v) /\
    (Qabs v * decode_scale name == inject_Z n)%Q /\
    (Qabs v * decode_scale name <= 524287)%Q.
Proof.
  apply (X7_decoded_magnitude
           (ARINC429Message.mk "6C" "00" (ones 19) "00" "0" 0)).
  - right. right. left. reflexivity.
  - reflexivity.
  - reflexivity.
Defined.

Lemma signed_label_cases lbl :
  signed_label lbl = true -> lbl = "6A" \/ lbl = "6B" \/ lbl = "6F".
Proof.
  unfold signed_label. intros H.
  apply orb_prop in H as [H|H]; [apply orb_prop in H as [H|H]|];
    apply String.eqb_eq in H; auto.
Qed.

(** X8. What [ssm] means to the decoder.  For altitude, airspeed, heading
    and for unknown labels the outcome does not depend on [ssm] at all.
    For latitude, longitude and vertical speed every [ssm] other than
    ["11"] (also ["01"] and ["10"]) decodes like ["00"], and ["11"] gives
    the opposite of the value decoded under ["00"]. *)
Theorem X8_decoder_reading_of_ssm (lbl sdi data ssm p : string)
    (ts : datetime) :
  (signed_label lbl = false ->
     decode_message (ARINC429Message.mk lbl sdi data ssm p ts)
     = decode_message (ARINC429Message.mk lbl sdi data "00" p ts)) /\
  (ssm <> "11" ->
     decode_message (ARINC429Message.mk lbl sdi data ssm p ts)
     = decode_message (ARINC429Message.mk lbl sdi data "00" p ts)) /\
  (signed_label lbl = true ->
     forall name v,
       decode_message (ARINC429Message.mk lbl sdi data "00" p ts)
         = Ok (name, v) ->
       decode_message (ARINC429Message.mk lbl sdi data "11" p ts)
         = Ok (name, (- v)%Q)).
Proof.
  assert (Hne : ssm <> "11" -> String.eqb ssm "11" = false)
    by (intros H; apply String.eqb_neq; exact H).
  unfold decode_message.
  cbn [ARINC429Message.label ARINC429Message.data ARINC429Message.ssm].
  split; [|split].
  - intros Hs. unfold decoders. cbn [dict_get].
    unfold signed_label in Hs. apply orb_false_iff in Hs as [Hs H3].
    apply orb_false_iff in Hs as [H1 H2]. rewrite H1, H2, H3.
    repeat match goal with
           | |- context [String.eqb lbl ?b] => destruct (String.eqb lbl b)
           end; reflexivity.
  - intros Hs. specialize (Hne Hs). unfold decoders. cbn [dict_get].
    repeat match goal with
           | |- context [String.eqb lbl ?b] => destruct (String.eqb lbl b)
           end;
      unfold decode_latitude, decode_longitude, decode_vertical_speed,
        decode_altitude, decode_airspeed, decode_heading;
      try rewrite Hne; reflexivity.
  - intros Hs name v.
    destruct (signed_label_cases lbl Hs) as [-> | [-> | ->]];
      cbn [decoders dict_get String.eqb Ascii.eqb Bool.eqb];
      unfold decode_latitude, decode_longitude, decode_vertical_speed;
      destruct (int2 data) as [n|e]; cbn [rbind]; try discriminate;
      change (String.eqb "00" "11") with false;
      change (String.eqb "11" "11") with true; cbv iota;
      intros H; inversion H; reflexivity.
Qed.

Lemma entry_word_masked ts name v (f : Q -> M ARINC429Encoder.t string)
    n ssm' lbl m :
  ssm' = "00" \/ ssm' = "11" ->
  (forall self, f v self =
     (Ok (format_b 19 (Z.land n 0x7FFFF)),
      ARINC429Encoder.mk (self_sdi self) ssm')) ->
  dict_index LABELS name = Ok lbl -> In lbl label_order ->
  word_alone ts (name, v, f) = Some m ->
  ARINC429Message.label m = lbl /\ ARINC429Message.ssm m = ssm' /\
  int2 (ARINC429Message.data m) = Ok (Z.land n 0x7FFFF).
Proof.
  intros Hssm Hf Hlbl Hlo Hw.
  destruct (encode_entry_ok ts name v f n ssm' lbl ARINC429Encoder.init
              Hssm Hf Hlbl Hlo eq_refl) as (p & _ & Hrun).
  unfold word_alone in Hw. rewrite Hrun in Hw. inversion Hw. subst m. cbn.
  split; [reflexivity|]. split; [reflexivity|].
  apply int2_format_b. apply mask19_range.
Qed.

(** The word of one entry decodes to a value of the field's sign. *)
Lemma entry_decodes_with_sign ts name v (f : Q -> M ARINC429Encoder.t string)
    lbl lo hi msg n ssm' m :
  (forall self, f v self =
     if Qltb v lo || Qltb hi v then (Raise (ValueError msg), self)
     else (Ok (format_b 19 (Z.land n 0x7FFFF)),
           ARINC429Encoder.mk (self_sdi self) ssm')) ->
  ssm' = "00" \/ ssm' = "11" ->
  ((0 <= v)%Q -> ssm' = "00") ->
  ((lo <= v)%Q -> (v < 0)%Q -> ssm' = "11" /\ signed_label lbl = true) ->
  dict_index LABELS name = Ok lbl -> In lbl label_order ->
  word_alone ts (name, v, f) = Some m ->
  exists name' value,
    (exists dec, dict_get decoders lbl = Some (name', dec)) /\
    ARINC429Message.label m = lbl /\
    decode_message m = Ok (name', value) /\
    ((0 <= v)%Q -> (0 <= value)%Q) /\ ((v < 0)%Q -> (value <= 0)%Q).
Proof.
  intros Hf Hssm Hpos Hneg Hlbl Hlo Hw.
  destruct (Qltb v lo || Qltb hi v) eqn:E.
  { exfalso. apply (entry_raises ts name v f msg m); [|exact Hw].
    intros self. rewrite Hf. reflexivity. }
  apply range_check_false in E. destruct E as [Elo Ehi].
  assert (Hf' : forall self, f v self =
            (Ok (format_b 19 (Z.land n 0x7FFFF)),
             ARINC429Encoder.mk (self_sdi self) ssm'))
    by (intros self; rewrite Hf; reflexivity).
  destruct (entry_word_masked ts name v f n ssm' lbl m Hssm Hf' Hlbl Hlo Hw)
    as (Hl & Hs & Hd).
  assert (Hlo' : In (ARINC429Message.label m) label_order)
    by (rewrite Hl; exact Hlo).
  destruct (decode_message_value m _ Hlo' Hd)
    as (name' & value & _ & Hdec & Hdm & Hv).
  rewrite Hl in Hdec, Hv. rewrite Hs in Hv.
  exists name', value. split; [exact Hdec|]. split; [exact Hl|].
  split; [exact Hdm|].
  pose proof (decode_scale_pos name') as Hsc.
  pose proof (mask19_range n) as [Hm0 _].
  assert (HN : (0 <= inject_Z (Z.land n 0x7FFFF))%Q).
  { change 0%Q with (inject_Z 0). rewrite <- Zle_Qle. exact Hm0. }
  set (N := inject_Z (Z.land n 0x7FFFF)) in *.
  set (sc := decode_scale name') in *.
  split.
  - intros Hv0. rewrite (Hpos Hv0) in Hv.
    change (String.eqb "00" "11") with false in Hv.
    rewrite andb_false_r in Hv.
    destruct (Qlt_le_dec value 0) as [Hlt|Hge]; [|exact Hge].
    exfalso. assert (value * sc < 0)%Q; [nra|lra].
  - intros Hv0. destruct (Hneg Elo Hv0) as [Hs11 Hsig].
    rewrite Hs11, Hsig in Hv. cbn in Hv.
    destruct (Qlt_le_dec 0 value) as [Hlt|Hle]; [|exact Hle].
    exfalso. assert (0 < value * sc)%Q; [nra|lra].
Qed.

Lemma ssm_of_sign_pos (v : Q) :
  (0 <= v)%Q -> (if Qle_bool 0 v then "00" else "11") = "00".
Proof. intros H. apply Qle_bool_iff in H. now rewrite H. Qed.

Lemma ssm_of_sign_neg (v : Q) :
  (v < 0)%Q -> (if Qle_bool 0 v then "00" else "11") = "11".
Proof. intros H. destruct (Qle_bool_of_sign v) as [Hn _]. now rewrite (Hn H). Qed.

(** X9. Whatever the record, every word that [encode_flight_data] returns
    is decoded by [decode_message] without an exception, to the name of the
    field it was encoded from and to a value of that field's sign (zero
    included); this also holds for the latitudes and longitudes whose
    magnitude the 19-bit mask truncates. *)
Theorem X9_encoded_words_decode_to_their_field (ssm0 : string)
    (fd : FlightData.t) (msgs : list ARINC429Message.t)
    (self' : ARINC429Encoder.t) (m : ARINC429Message.t) :
  encode_flight_data fd (ARINC429Encoder.mk "00" ssm0) = (Ok msgs, self') ->
  In m msgs ->
  exists name v value,
    field_value fd name = Some v /\
    dict_index LABELS name = Ok (ARINC429Message.label m) /\
    decode_message m = Ok (name, value) /\
    ((0 <= v)%Q -> (0 <= value)%Q) /\ ((v < 0)%Q -> (value <= 0)%Q).
Proof.
  intros Hrun Hin.
  destruct (encode_flight_data_omap ssm0 fd) as (self'' & Hrun').
  assert (Hmsgs : msgs = omap (word_alone (FlightData.timestamp fd))
                             (encodings fd)) by congruence.
  rewrite Hmsgs in Hin. apply list_elem_of_In, list_elem_of_omap in Hin.
  destruct Hin as (e & He & Hw). apply list_elem_of_In in He.
  unfold encodings in He.
  repeat (destruct He as [He|He]; [subst e|]); [| | | | | |destruct He].
  - destruct (entry_decodes_with_sign _ "latitude" _ encode_latitude "6A"
                (-90) 90 _ _ _ m (encode_latitude_run _) (ssm_choice _)
                (ssm_of_sign_pos _)
                (fun _ H => conj (ssm_of_sign_neg _ H) eq_refl)
                eq_refl (or_introl eq_refl) Hw)
      as (name' & value & (dec & Hdec) & Hl & Hd & Hs).
    inversion Hdec. subst name'.
    exists "latitude", (FlightData.latitude fd), value.
    rewrite Hl. auto.
  - destruct (entry_decodes_with_sign _ "longitude" _ encode_longitude "6B"
                (-180) 180 _ _ _ m (encode_longitude_run _) (ssm_choice _)
                (ssm_of_sign_pos _)
                (fun _ H => conj (ssm_of_sign_neg _ H) eq_refl)
                eq_refl (or_intror (or_introl eq_refl)) Hw)
      as (name' & value & (dec & Hdec) & Hl & Hd & Hs).
    inversion Hdec. subst name'.
    exists "longitude", (FlightData.longitude fd), value.
    rewrite Hl. auto.
  - destruct (entry_decodes_with_sign _ "altitude" _ encode_altitude "6C"
                0 50000 _ _ "00" m (encode_altitude_run _)
                (or_introl eq_refl) (fun _ => eq_refl)
                (fun H1 H2 => False_ind _ (Qle_not_lt _ _ H1 H2))
                eq_refl (or_intror (or_intror (or_introl eq_refl))) Hw)
      as (name' & value & (dec & Hdec) & Hl & Hd & Hs).
    inversion Hdec. subst name'.
    exists "altitude", (FlightData.altitude fd), value.
    rewrite Hl. auto.
  - destruct (entry_decodes_with_sign _ "airspeed" _ encode_airspeed "6D"
                0 1000 _ _ "00" m (encode_airspeed_run _)
                (or_introl eq_refl) (fun _ => eq_refl)
                (fun H1 H2 => False_ind _ (Qle_not_lt _ _ H1 H2))
                eq_refl
                (or_intror (or_intror (or_intror (or_introl eq_refl)))) Hw)
      as (name' & value & (dec & Hdec) & Hl & Hd & Hs).
    inversion Hdec. subst name'.
    exists "airspeed", (FlightData.airspeed fd), value.
    rewrite Hl. auto.
  - destruct (entry_decodes_with_sign _ "heading" _ encode_heading "6E"
                0 360 _ _ "00" m (encode_heading_run _)
                (or_introl eq_refl) (fun _ => eq_refl)
                (fun H1 H2 => False_ind _ (Qle_not_lt _ _ H1 H2))
                eq_refl
                (or_intror (or_intror (or_intror (or_intror
                   (or_introl eq_refl))))) Hw)
      as (name' & value & (dec & Hdec) & Hl & Hd & Hs).
    inversion Hdec. subst name'.
    exists "heading", (FlightData.heading fd), value.
    rewrite Hl. auto.
  - destruct (entry_decodes_with_sign _ "vertical_speed" _
                encode_vertical_speed "6F"
                (-10000) 10000 _ _ _ m (encode_vertical_speed_run _)
                (ssm_choice _) (ssm_of_sign_pos _)
                (fun _ H => conj (ssm_of_sign_neg _ H) eq_refl)
                eq_refl
                (or_intror (or_intror (or_intror (or_intror (or_intror
                   (or_introl eq_refl)))))) Hw)
      as (name' & value & (dec & Hdec) & Hl & Hd & Hs).
    inversion Hdec. subst name'.
    exists "vertical_speed", (FlightData.vertical_speed fd), value.
    rewrite Hl. auto.
Qed.

(** The theorem on the latitude word of latitude -60, whose magnitude is
    truncated: it decodes to latitude -7.5712. *)
Lemma X9_encoded_words_decode_to_their_field_witness :
  exists msgs self' m,
    encode_flight_data (FlightData.mk (-60) 0 0 0 0 0 0) ARINC429Encoder.init
      = (Ok msgs, self') /\
    In m msgs /\
    decode_message m = Ok ("latitude", (- (inject_Z 75712 / 10000))%Q) /\
    exists name v value,
      field_value (FlightData.mk (-60) 0 0 0 0 0 0) name = Some v /\
      dict_index LABELS name = Ok (ARINC429Message.label m) /\
      decode_message m = Ok (name, value) /\
      ((0 <= v)%Q -> (0 <= value)%Q) /\ ((v < 0)%Q -> (value <= 0)%Q).
Proof.
  eexists _, _, _. split; [vm_compute; reflexivity|].
  split; [left; reflexivity|]. split; [reflexivity|].
  eapply (X9_encoded_words_decode_to_their_field "00"
            (FlightData.mk (-60) 0 0 0 0 0 0)).
  - vm_compute. reflexivity.
  - left. reflexivity.
Defined.

(** X10. When the scaled magnitudes of latitude and longitude fit in 19
    bits (magnitudes below 52.4288 degrees), every word of the batch
    decodes to its field's name and to the field's value within the
    field's quantization step: 0.0001 degree, 1 foot, 0.1 knot, 0.1 degree,
    1 foot per minute.  Altitude, airspeed, heading and vertical speed
    need no condition.  (Arithmetic on rationals.) *)
Theorem X10_round_trip_below_19_bits (ssm0 : string) (fd : FlightData.t)
    (msgs : list ARINC429Message.t) (self' : ARINC429Encoder.t)
    (m : ARINC429Message.t) :
  encode_flight_data fd (ARINC429Encoder.mk "00" ssm0) = (Ok msgs, self') ->
  In m msgs ->
  (Qabs (FlightData.latitude fd) * 10000 < 524288)%Q ->
  (Qabs (FlightData.longitude fd) * 10000 < 524288)%Q ->
  exists name v value,
    field_value fd name = Some v /\
    decode_message m = Ok (name, value) /\
    (Qabs (v - value) < quantization_step name)%Q.
Proof. exact (roundtrip_within_19_bits ssm0 fd msgs self' m). Qed.

(** The theorem on the airspeed word of the generator's initial sample. *)
Lemma X10_round_trip_below_19_bits_witness :
  let fd := FlightData.mk 41.2622 28.7278 35000 450.37 270 0 0 in
  exists msgs self' m,
    encode_flight_data fd ARINC429Encoder.init = (Ok msgs, self') /\
    msgs !! 3%nat = Some m /\
    decode_message m = Ok ("airspeed", (inject_Z 4503 / 10)%Q) /\
    exists name v value,
      field_value fd name = Some v /\
      decode_message m = Ok (name, value) /\
      (Qabs (v - value) < quantization_step name)%Q.
Proof.
  intros fd. eexists _, _, _. split; [vm_compute; reflexivity|].
  split; [reflexivity|]. split; [reflexivity|].
  eapply (X10_round_trip_below_19_bits "00" fd).
  - vm_compute. reflexivity.
  - right. right. right. left. reflexivity.
  - reflexivity.
  - reflexivity.
Defined.

(** ** Decoding, then encoding again *)

Lemma bin_digit_of_bit c :
  (Ascii.eqb c "0" || Ascii.eqb c "1") = true ->
  (c = "0"%char /\ bin_digit c = Some 0) \/
  (c = "1"%char /\ bin_digit c = Some 1).
Proof.
  intros H. unfold bin_digit. destruct (Ascii.eqb c "0") eqn:E0.
  - apply Ascii.eqb_eq in E0. left. auto.
  - destruct (Ascii.eqb c "1") eqn:E1; [|discriminate H].
    apply Ascii.eqb_eq in E1. right. auto.
Qed.

(** Two strings of binary digits of the same length that read as the same
    number are the same string. *)
Lemma parse_bits_inj s1 s2 a1 a2 :
  all_bits s1 = true -> all_bits s2 = true ->
  String.length s1 = String.length s2 ->
  parse_digits bin_digit 2 a1 s1 = parse_digits bin_digit 2 a2 s2 ->
  a1 = a2 /\ s1 = s2.
Proof.
  revert s2 a1 a2. induction s1 as [|c1 s1 IH]; intros [|c2 s2] a1 a2 H1 H2 Hl He;
    try discriminate Hl.
  - cbn in He. inversion He. auto.
  - cbn [all_bits] in H1, H2.
    apply andb_prop in H1 as [Hc1 Hs1]. apply andb_prop in H2 as [Hc2 Hs2].
    cbn [parse_digits] in He. cbn [String.length] in Hl.
    destruct (bin_digit_of_bit c1 Hc1) as [[-> D1]|[-> D1]];
      destruct (bin_digit_of_bit c2 Hc2) as [[-> D2]|[-> D2]];
      rewrite ?D1, ?D2 in He;
      destruct (IH s2 _ _ Hs1 Hs2 ltac:(lia) He) as [Ha Hs];
      first [ lia | split; [lia|now rewrite Hs] ].
Qed.

Lemma format_b_of_int2 (w : nat) s n :
  all_bits s = true -> String.length s = w -> (0 < w)%nat ->
  int2 s = Ok n -> format_b w n = s.
Proof.
  intros Hb Hl Hw Hn.
  destruct (int2_bits s Hb ltac:(lia)) as (n' & Hn' & Hr & _).
  rewrite Hn in Hn'. inversion Hn'. subst n'. rewrite Hl in Hr.
  pose proof (int2_format_b w n ltac:(lia)) as Hf.
  rewrite py_int_str_nonempty in Hf;
    [|apply all_bits_format_b; lia
     |rewrite (length_format_b w n Hw Hr); exact Hw].
  rewrite py_int_str_nonempty in Hn; [|exact Hb|lia].
  destruct (parse_digits bin_digit 2 0 (format_b w n)) as [x|] eqn:E1;
    [|discriminate Hf].
  destruct (parse_digits bin_digit 2 0 s) as [y|] eqn:E2; [|discriminate Hn].
  inversion Hf. inversion Hn. subst x y.
  apply (parse_bits_inj (format_b w n) s 0 0).
  - apply all_bits_format_b. lia.
  - exact Hb.
  - rewrite (length_format_b w n Hw Hr). now rewrite Hl.
  - now rewrite E1, E2.
Qed.

Lemma py_int_inject_Z n : py_int (inject_Z n) = n.
Proof. unfold py_int, inject_Z. cbn [Qnum Qden]. apply Z.quot_1_r. Qed.

(** X11. The decoders of altitude and vertical speed accept every
    nineteen-bit word, the encoders only the envelope.  Encoding a decoded
    altitude gives back the same data digits when the data value is at
    most 50000 and raises above; encoding a decoded vertical speed gives
    back the same data digits when the data value is at most 10000 and
    raises above. *)
Theorem X11_reencoding_a_decoded_word (data ssm : string) (n : Z)
    (self : ARINC429Encoder.t) :
  all_bits data = true -> String.length data = 19%nat -> int2 data = Ok n ->
  (exists v,
     decode_altitude data ssm = Ok v /\
     (n <= 50000 -> fst (encode_altitude v self) = Ok data) /\
     (50000 < n ->
        exists msg, encode_altitude v self = (Raise (ValueError msg), self))) /\
  (exists v,
     decode_vertical_speed data ssm = Ok v /\
     (n <= 10000 -> fst (encode_vertical_speed v self) = Ok data) /\
     (10000 < n ->
        exists msg,
          encode_vertical_speed v self = (Raise (ValueError msg), self))).
Proof.
  intros Hb Hl Hn.
  destruct (int2_bits data Hb ltac:(lia)) as (n' & Hn' & Hr & _).
  rewrite Hn in Hn'. inversion Hn'. subst n'. rewrite Hl in Hr.
  change (2 ^ Z.of_nat 19) with (2 ^ 19) in Hr.
  pose proof (format_b_of_int2 19 data n Hb Hl ltac:(lia) Hn) as Hfmt.
  assert (HnQ : (0 <= inject_Z n)%Q).
  { change 0%Q with (inject_Z 0). rewrite <- Zle_Qle. lia. }
  split.
  - exists (inject_Z n). unfold decode_altitude. rewrite Hn. cbn [rbind].
    split; [reflexivity|]. rewrite encode_altitude_run. split.
    + intros Hle.
      assert (E : Qltb (inject_Z n) 0 || Qltb 50000 (inject_Z n) = false).
      { apply range_check_false. split; [exact HnQ|].
        change 50000%Q with (inject_Z 50000). rewrite <- Zle_Qle. exact Hle. }
      rewrite E. cbn [fst]. rewrite py_int_inject_Z, (mask19_small n Hr).
      now rewrite Hfmt.
    + intros Hgt.
      assert (E : Qltb (inject_Z n) 0 || Qltb 50000 (inject_Z n) = true).
      { apply out_of_range_true. right.
        change 50000%Q with (inject_Z 50000). rewrite <- Zlt_Qlt. exact Hgt. }
      rewrite E. eexists. reflexivity.
  - set (v := if String.eqb ssm "11" then (- inject_Z n)%Q else inject_Z n).
    assert (Habs : Qabs v = inject_Z n).
    { unfold v. destruct (String.eqb ssm "11").
      - rewrite Qabs_opp_eq. unfold Qabs, inject_Z. cbn [Qnum Qden].
        now rewrite Z.abs_eq by lia.
      - unfold Qabs, inject_Z. cbn [Qnum Qden]. now rewrite Z.abs_eq by lia. }
    assert (Hvabs : (Qabs v == inject_Z n)%Q) by (rewrite Habs; reflexivity).
    exists v. unfold decode_vertical_speed. rewrite Hn. cbn [rbind].
    split; [reflexivity|]. rewrite encode_vertical_speed_run. split.
    + intros Hle.
      assert (E : Qltb v (-10000) || Qltb 10000 v = false).
      { apply range_check_false.
        assert (Hq : (Qabs v <= 10000)%Q).
        { rewrite Hvabs. change 10000%Q with (inject_Z 10000).
          rewrite <- Zle_Qle. exact Hle. }
        apply Qabs_Qle_condition in Hq. split; lra. }
      rewrite E. cbn [fst].
      rewrite Habs, py_int_inject_Z, (mask19_small n Hr). now rewrite Hfmt.
    + intros Hgt.
      assert (E : Qltb v (-10000) || Qltb 10000 v = true).
      { destruct (Qltb v (-10000) || Qltb 10000 v) eqn:E'; [reflexivity|].
        apply range_check_false in E'.
        assert (Hq : (Qabs v <= 10000)%Q)
          by (apply Qabs_Qle_condition; split; lra).
        rewrite Hvabs in Hq.
        change 10000%Q with (inject_Z 10000) in Hq. rewrite <- Zle_Qle in Hq.
        lia. }
      rewrite E. eexists. reflexivity.
Qed.

(** The theorem on the data digits of 35000, read with [ssm = "11"]. *)
Lemma X11_reencoding_a_decoded_word_witness :
  int2 "0001000100010111000" = Ok 35000 /\
  (exists v,
     decode_altitude "0001000100010111000" "11" = Ok v /\
     (35000 <= 50000 ->
        fst (encode_altitude v ARINC429Encoder.init)
          = Ok "0001000100010111000") /\
     (50000 < 35000 ->
        exists msg, encode_altitude v ARINC429Encoder.init
                    = (Raise (ValueError msg), ARINC429Encoder.init))) /\
  (exists v,
     decode_vertical_speed "0001000100010111000" "11" = Ok v /\
     (35000 <= 10000 ->
        fst (encode_vertical_speed v ARINC429Encoder.init)
          = Ok "0001000100010111000") /\
     (10000 < 35000 ->
        exists msg, encode_vertical_speed v ARINC429Encoder.init
                    = (Raise (ValueError msg), ARINC429Encoder.init))).
Proof.
  split; [reflexivity|].
  apply (X11_reencoding_a_decoded_word "0001000100010111000" "11" 35000
           ARINC429Encoder.init); reflexivity.
Defined.

(** * Properties of the data models *)

Section DictConversions.
Variable isoformat : datetime -> string.
Variable fromisoformat : json -> result datetime.
Variable pydantic_float : json -> option Q.

(** X12. [dict_to_flight_data] inverts [flight_data_to_dict] on every
    record of the closed envelope, provided [fromisoformat] reads back the
    record's own [isoformat] text and the validation takes floats as they
    are.  A record outside the envelope does not come back: the
    constructor refuses it.  A dictionary without one of the seven keys
    raises [KeyError] for the first missing key. *)
Theorem X12_flight_data_dict_round_trip (fd : FlightData.t) :
  fromisoformat (JStr (isoformat (FlightData.timestamp fd)))
    = Ok (FlightData.timestamp fd) ->
  (forall q, pydantic_float (JNum q) = Some q) ->
  (in_envelope fd ->
     dict_to_flight_data fromisoformat pydantic_float
       (flight_data_to_dict isoformat fd) = Ok fd) /\
  (~ in_envelope fd ->
     exists field,
       dict_to_flight_data fromisoformat pydantic_float
         (flight_data_to_dict isoformat fd) = Raise (ValidationError field)) /\
  (forall key,
     In key ["latitude"; "longitude"; "altitude"; "airspeed"; "heading";
             "vertical_speed"; "timestamp"] ->
     dict_to_flight_data fromisoformat pydantic_float
       (List.filter (fun kv => negb (String.eqb (fst kv) key))
          (flight_data_to_dict isoformat fd)) = Raise (KeyError key)).
Proof.
  intros Hiso Hfloat.
  assert (Hrun : dict_to_flight_data fromisoformat pydantic_float
                   (flight_data_to_dict isoformat fd)
                 = FlightData.new (FlightData.latitude fd)
                     (FlightData.longitude fd) (FlightData.altitude fd)
                     (FlightData.airspeed fd) (FlightData.heading fd)
                     (FlightData.vertical_speed fd) (FlightData.timestamp fd)).
  { unfold dict_to_flight_data, flight_data_to_dict, dict_index.
    cbn [dict_get String.eqb Ascii.eqb Bool.eqb rbind].
    rewrite Hiso. cbn [rbind]. unfold float_field. rewrite !Hfloat.
    reflexivity. }
  split; [|split].
  - intros Henv. rewrite Hrun. destruct fd. apply FlightData_new_ok.
    exact Henv.
  - intros Hout. rewrite Hrun.
    destruct (FlightData.new (FlightData.latitude fd)
                (FlightData.longitude fd) (FlightData.altitude fd)
                (FlightData.airspeed fd) (FlightData.heading fd)
                (FlightData.vertical_speed fd) (FlightData.timestamp fd))
      as [fd'|e] eqn:E.
    + exfalso. apply Hout. pose proof (FlightData_new_envelope _ _ _ _ _ _ _ _ E).
      unfold FlightData.new, FlightData.check_field in E.
      repeat match type of E with
             | context [Qle_bool ?a ?b && Qle_bool ?c ?d] =>
                 destruct (Qle_bool a b && Qle_bool c d); cbn [rbind] in E;
                 [|discriminate E]
             end.
      inversion E. subst fd'. destruct fd. assumption.
    + unfold FlightData.new, FlightData.check_field in E.
      repeat match type of E with
             | context [Qle_bool ?a ?b && Qle_bool ?c ?d] =>
                 destruct (Qle_bool a b && Qle_bool c d); cbn [rbind] in E;
                 [|inversion E; eexists; reflexivity]
             end.
      discriminate E.
  - intros key Hkey.
    repeat (destruct Hkey as [Hkey|Hkey]; [subst key|]);
      [| | | | | | |destruct Hkey]; reflexivity.
Qed.
End DictConversions.

(** The theorem on the generator's initial sample, with a clock of one
    instant. *)
Lemma X12_flight_data_dict_round_trip_witness :
  let iso := fun _ : datetime => "2024-01-01T00:00:00" in
  let fromiso := fun v : json =>
    match v with
    | JStr "2024-01-01T00:00:00" => Ok 0
    | _ => Raise (ValueError "Invalid isoformat string")
    end in
  let as_float := fun v : json =>
    match v with JNum q => Some q | _ => None end in
  let fd := FlightData.mk 41.2622 28.7278 35000 450 270 0 0 in
  (in_envelope fd ->
     dict_to_flight_data fromiso as_float (flight_data_to_dict iso fd) = Ok fd) /\
  (~ in_envelope fd ->
     exists field,
       dict_to_flight_data fromiso as_float (flight_data_to_dict iso fd)
         = Raise (ValidationError field)) /\
  (forall key,
     In key ["latitude"; "longitude"; "altitude"; "airspeed"; "heading";
             "vertical_speed"; "timestamp"] ->
     dict_to_flight_data fromiso as_float
       (List.filter (fun kv => negb (String.eqb (fst kv) key))
          (flight_data_to_dict iso fd)) = Raise (KeyError key)).
Proof.
  intros iso fromiso as_float fd.
  apply (X12_flight_data_dict_round_trip iso fromiso as_float fd).
  - reflexivity.
  - reflexivity.
Defined.

(** * Further properties of the generator *)

Lemma _update_position_keeps cos sin radians s r s1 :
  G._update_position cos sin radians s = (r, s1) ->
  G.encoder s1 = G.encoder s /\
  G.heading_change_rate s1 = G.heading_change_rate s /\
  G.altitude_change_rate s1 = G.altitude_change_rate s /\
  G.speed_change_rate s1 = G.speed_change_rate s.
Proof.
  destruct s as [ui enc cd hist mh lat lon alt spd hdg vs hr ar sr].
  unfold G._update_position, py_div.
  change (Qeq_bool 111320 0) with false. run_gen.
  match goal with
  | |- context [Qeq_bool ?den 0] => destruct (Qeq_bool den 0)
  end.
  - intros H. inversion H. subst. cbn. auto.
  - destruct (Qle_bool 360 (hdg + hr * ui)).
    + rewrite _apply_boundaries_run. intros H. inversion H. subst.
      cbn. auto.
    + destruct (Qltb (hdg + hr * ui) 0);
        rewrite _apply_boundaries_run; intros H; inversion H; subst;
        cbn; auto.
Qed.

(** The part of the generator that a returning tick overwrites with the
    draws. *)
Lemma generate_flight_data_overwrites cos sin radians d s fd s' :
  G.generate_flight_data cos sin radians d s = (Ok fd, s') ->
  G.heading_change_rate s' = u_heading_rate d /\
  G.altitude_change_rate s' = u_altitude_rate d /\
  G.speed_change_rate s' = u_speed_rate d /\
  G.current_vertical_speed s' = clamp (-10000) 10000 (u_altitude_rate d) /\
  FlightData.vertical_speed fd =
    py_round (clamp (-10000) 10000 (u_altitude_rate d)) 1 /\
  G.encoder s' = G.encoder s.
Proof.
  unfold G.generate_flight_data. unfold bind at 1.
  destruct (G._update_position cos sin radians s) as [r1 s1] eqn:E1.
  apply _update_position_keeps in E1. destruct E1 as (He & _).
  destruct r1 as [[]|e]; [|discriminate].
  unfold bind at 1. rewrite _add_realistic_variations_run.
  unfold bind at 1. rewrite _apply_boundaries_run.
  destruct s as [ui enc cd hist mh lat lon alt spd hdg vs hr ar sr].
  destruct s1 as [ui1 enc1 cd1 hist1 mh1 lat1 lon1 alt1 spd1 hdg1 vs1
                  hr1 ar1 sr1].
  cbn [G.encoder] in He. subst enc1.
  run_gen.
  rewrite (FlightData_new_ok _ _ _ _ _ _ _
             (rounded_sample_in_envelope _ _ _ _ _ _ _)).
  set (fd0 := FlightData.mk _ _ _ _ _ _ _).
  destruct (Z.of_nat (length (hist1 ++ [fd0])) >? mh1).
  - destruct (list_pop_0_snoc hist1 fd0) as (y & Hpop). rewrite Hpop.
    intros H. inversion H. subst fd s'. cbn.
    split; [reflexivity|]. split; [reflexivity|]. split; [reflexivity|].
    split; [reflexivity|]. split; reflexivity.
  - intros H. inversion H. subst fd s'. cbn.
    split; [reflexivity|]. split; [reflexivity|]. split; [reflexivity|].
    split; [reflexivity|]. split; reflexivity.
Qed.

Lemma clamp_inside lo hi x : (lo < x)%Q -> (x < hi)%Q -> clamp lo hi x = x.
Proof.
  intros H1 H2. unfold clamp, py_max, py_min.
  apply Qltb_true in H2. rewrite H2. apply Qltb_true in H1. now rewrite H1.
Qed.

(** X13. A tick overwrites the three rate attributes with its own random
    draws: after any [generate_flight_data] call that returns, the rates
    are the draws of that call, whatever [set_flight_parameters] had
    installed, so externally set rates act on one tick at most.  The
    sample's vertical speed is the drawn altitude rate, clamped and
    rounded; with draws in the ranges of [random.uniform] it is the rounded
    draw and lies between -500 and 500 feet per minute. *)
Theorem X13_tick_overwrites_rates (cos sin radians : Q -> Q) (d : draws)
    (heading_change altitude_change speed_change : Q)
    (s s' : FlightDataGenerator.t) (fd : FlightData.t) :
  G.generate_flight_data cos sin radians d
    (snd (G.set_flight_parameters heading_change altitude_change
            speed_change s)) = (Ok fd, s') ->
  G.heading_change_rate s' = u_heading_rate d /\
  G.altitude_change_rate s' = u_altitude_rate d /\
  G.speed_change_rate s' = u_speed_rate d /\
  FlightData.vertical_speed fd =
    py_round (clamp (-10000) 10000 (u_altitude_rate d)) 1 /\
  (draws_ok d ->
     FlightData.vertical_speed fd = py_round (u_altitude_rate d) 1 /\
     (-500 <= FlightData.vertical_speed fd)%Q /\
     (FlightData.vertical_speed fd <= 500)%Q).
Proof.
  intros H. apply generate_flight_data_overwrites in H.
  destruct H as (H1 & H2 & H3 & _ & H5 & _).
  split; [exact H1|]. split; [exact H2|]. split; [exact H3|].
  split; [exact H5|].
  intros (_ & _ & _ & _ & _ & _ & _ & [Hlo Hhi] & _).
  rewrite H5, clamp_inside by lra.
  split; [reflexivity|].
  assert (A : (inject_Z (-5000) / inject_Z (10 ^ Z.of_nat 1)
               <= u_altitude_rate d)%Q).
  { setoid_replace (inject_Z (-5000) / inject_Z (10 ^ Z.of_nat 1))%Q
      with (-500)%Q using relation Qeq by reflexivity. exact Hlo. }
  assert (B : (u_altitude_rate d
               <= inject_Z 5000 / inject_Z (10 ^ Z.of_nat 1))%Q).
  { setoid_replace (inject_Z 5000 / inject_Z (10 ^ Z.of_nat 1))%Q
      with 500%Q using relation Qeq by reflexivity. exact Hhi. }
  destruct (py_round_bounds _ 1 (-5000) 5000 A B) as [R1 R2].
  setoid_replace (inject_Z (-5000) / inject_Z (10 ^ Z.of_nat 1))%Q
    with (-500)%Q using relation Qeq in R1 by reflexivity.
  setoid_replace (inject_Z 5000 / inject_Z (10 ^ Z.of_nat 1))%Q
    with 500%Q using relation Qeq in R2 by reflexivity.
  split; assumption.
Qed.

(** The theorem on a new generator with extreme rates installed. *)
Lemma X13_tick_overwrites_rates_witness :
  let d := mk_draws 0 0 0 0 0 0 0.5 (-123.44) 2 7 in
  exists g fd s',
    G.init 1 0 = Ok g /\
    G.generate_flight_data (fun _ => 1%Q) (fun _ => 0%Q) (fun x => x) d
      (snd (G.set_flight_parameters 500 9000 (-400) g)) = (Ok fd, s') /\
    G.heading_change_rate s' = u_heading_rate d /\
    G.altitude_change_rate s' = u_altitude_rate d /\
    G.speed_change_rate s' = u_speed_rate d /\
    FlightData.vertical_speed fd =
      py_round (clamp (-10000) 10000 (u_altitude_rate d)) 1 /\
    (draws_ok d ->
       FlightData.vertical_speed fd = py_round (u_altitude_rate d) 1 /\
       (-500 <= FlightData.vertical_speed fd)%Q /\
       (FlightData.vertical_speed fd <= 500)%Q).
Proof.
  intros d. eexists _, _, _. split; [vm_compute; reflexivity|].
  match goal with
  | |- (G.generate_flight_data _ _ _ _
          (snd (G.set_flight_parameters _ _ _ ?g)) = (Ok ?fd, ?s')) /\ _ =>
      assert (H : G.generate_flight_data (fun _ => 1%Q) (fun _ => 0%Q)
                    (fun x => x) d
                    (snd (G.set_flight_parameters 500 9000 (-400) g))
                  = (Ok fd, s')) by (vm_compute; reflexivity);
      split;
      [exact H
      |exact (X13_tick_overwrites_rates _ _ _ d 500 9000 (-400) g s' fd H)]
  end.
Defined.

(** * Fan-out under any failure pattern *)

Lemma list_in_app_r x pre l : list_in x (pre ++ x :: l)%list = true.
Proof. apply list_in_true, in_or_app. right. now left. Qed.

Lemma list_remove_app_fresh x pre l :
  ~ In x pre -> list_remove x (pre ++ x :: l)%list = (pre ++ l)%list.
Proof.
  induction pre as [|y pre IH]; intros Hn; cbn [app list_remove].
  - now rewrite Nat.eqb_refl.
  - destruct (Nat.eqb y x) eqn:E.
    + apply Nat.eqb_eq in E. subst y. exfalso. apply Hn. now left.
    + rewrite IH; [reflexivity|]. intros H. apply Hn. now right.
Qed.

Section FanOutGeneral.
Variable Payload : Type.
Variable json_dumps : Payload -> string.
Variable send_fails : WebSocket -> bool.

(** The cleanup loop, run on the failing entries of the registry in
    registry order: each step removes the first registration of a failing
    socket, which is the one the step was collected for, so the loop
    leaves the entries that did not fail, in order, also when a socket is
    registered more than once. *)
Lemma disconnect_loop_filter l pre ext wire :
  (forall x, In x pre -> send_fails x = false) ->
  A.disconnect_loop (List.filter send_fails l) (A.mk (pre ++ l)%list ext wire) =
  (Ok tt,
   A.mk (pre ++ List.filter (fun c => negb (send_fails c)) l)%list ext wire).
Proof.
  revert pre. induction l as [|y l IH]; intros pre Hpre.
  - reflexivity.
  - cbn [List.filter]. destruct (send_fails y) eqn:Ey; cbn [negb].
    + cbn [A.disconnect_loop]. unfold bind at 1, A.disconnect_websocket.
      unfold bind at 1, get. cbn [A.active_connections].
      rewrite list_in_app_r. unfold modify, A.set_active_connections.
      cbn [A.external_configs A.wire].
      rewrite list_remove_app_fresh.
      * apply IH. exact Hpre.
      * intros Hin. apply Hpre in Hin. congruence.
    + replace (pre ++ y :: l)%list with ((pre ++ [y]) ++ l)%list
        by (now rewrite <- app_assoc).
      rewrite IH.
      * now rewrite <- app_assoc.
      * intros x Hx. apply in_app_or in Hx. destruct Hx as [Hx|[<-|[]]];
          [now apply Hpre|exact Ey].
Qed.

Lemma broadcast_data_run (data : Payload) (s : A.t) :
  A.broadcast_data Payload json_dumps send_fails data s =
  (Ok tt,
   A.mk (List.filter (fun c => negb (send_fails c)) (A.active_connections s))
        (A.external_configs s)
        (A.wire s ++ map (fun c => (c, json_dumps data))
                       (List.filter (fun c => negb (send_fails c))
                          (A.active_connections s)))%list).
Proof.
  destruct s as [conns ext wire].
  cbn [A.active_connections A.external_configs A.wire].
  unfold A.broadcast_data, bind at 1, get. cbn [A.active_connections].
  destruct conns as [|c0 conns0] eqn:Econns.
  - cbn. now rewrite app_nil_r.
  - rewrite <- Econns. unfold bind at 1. rewrite send_loop_spec.
    cbn [app A.active_connections A.external_configs A.wire].
    apply (disconnect_loop_filter conns []). intros x [].
Qed.

(** X14. [broadcast_data] under any failure pattern, for any registry
    (a socket may be registered several times): the call returns normally;
    the registry afterwards holds the entries whose send succeeded, in
    their order; the wire gains the tick's message once for each of them
    and nothing for a failing socket; no socket that failed stays
    registered; the sink registry is untouched; and a second broadcast
    right after removes nobody. *)
Theorem X14_broadcast_any_failures (data data' : Payload) (s : A.t) :
  let ok := List.filter (fun c => negb (send_fails c))
              (A.active_connections s) in
  exists s',
    A.broadcast_data Payload json_dumps send_fails data s = (Ok tt, s') /\
    A.active_connections s' = ok /\
    A.wire s' = (A.wire s ++ map (fun c => (c, json_dumps data)) ok)%list /\
    (forall c, In c (A.active_connections s') -> send_fails c = false) /\
    (forall c, send_fails c = true -> ~ In (c, json_dumps data)
                                        (drop (length (A.wire s)) (A.wire s'))) /\
    A.external_configs s' = A.external_configs s /\
    exists s'',
      A.broadcast_data Payload json_dumps send_fails data' s' = (Ok tt, s'') /\
      A.active_connections s'' = A.active_connections s'.
Proof.
  intros ok. eexists. split; [apply broadcast_data_run|].
  cbn [A.active_connections A.wire A.external_configs]. fold ok.
  assert (Hok : forall c, In c ok -> send_fails c = false).
  { intros c Hc. apply List.filter_In in Hc. destruct Hc as [_ Hc].
    now destruct (send_fails c). }
  split; [reflexivity|]. split; [reflexivity|]. split; [exact Hok|].
  split.
  - intros c Hc. rewrite drop_app_length. intros Hin.
    apply List.in_map_iff in Hin. destruct Hin as (c' & Heq & Hc').
    inversion Heq. subst c'. apply Hok in Hc'. congruence.
  - split; [reflexivity|].
    eexists. split; [apply broadcast_data_run|].
    cbn [A.active_connections].
    clear - Hok. induction ok as [|y l IH]; [reflexivity|].
    cbn [List.filter]. rewrite (Hok y (or_introl eq_refl)). cbn [negb].
    f_equal. apply IH. intros c Hc. apply Hok. now right.
Qed.
End FanOutGeneral.

(** * The current sample and the history *)

Lemma push_history_newest mh (h : list FlightData.t) fd0 fd :
  1 <= mh ->
  exists h', push_history mh (h ++ [fd0]) fd = (h' ++ [fd])%list.
Proof.
  intros Hmh. unfold push_history.
  destruct (Z.of_nat (length ((h ++ [fd0]) ++ [fd])) >? mh).
  - destruct h as [|x h].
    + exists []. reflexivity.
    + exists (h ++ [fd0])%list. reflexivity.
  - exists (h ++ [fd0])%list. reflexivity.
Qed.

Lemma do_call_newest cos sin radians c s :
  current_is_newest s ->
  let s' := fst (do_call cos sin radians c s) in
  let out := snd (do_call cos sin radians c s) in
  current_is_newest s' /\
  forall fd0, G.current_data s = Some fd0 ->
    G.current_data s' = Some (default fd0 (last out)).
Proof.
  intros (Hmh & h & fd1 & Hh & Hc).
  destruct c as [d|hc a v|lat lon]; cbn [do_call].
  - destruct (G.generate_flight_data cos sin radians d s) as [r s1] eqn:E.
    apply generate_flight_data_spec in E.
    destruct E as [[-> (Hh1 & Hm1 & Hc1 & _)]
                  | (fd & -> & _ & Hm1 & Hc1 & Hh1 & _)]; cbn [fst snd].
    + split.
      * split; [now rewrite Hm1|]. exists h, fd1.
        split; [now rewrite Hh1|now rewrite Hc1].
      * intros fd0 H0. cbn. now rewrite Hc1.
    + split.
      * split; [now rewrite Hm1|].
        rewrite Hh in Hh1.
        destruct (push_history_newest (G.max_history s) h fd1 fd Hmh)
          as (h' & Hp).
        exists h', fd. split; [now rewrite Hh1|exact Hc1].
      * intros fd0 _. cbn. exact Hc1.
  - cbn [fst snd]. destruct s. cbn in *. split.
    + split; [exact Hmh|]. exists h, fd1. split; assumption.
    + intros fd0 H0. exact H0.
  - cbn [fst snd]. destruct s. cbn in *. split.
    + split; [exact Hmh|]. exists h, fd1. split; assumption.
    + intros fd0 H0. exact H0.
Qed.

Lemma do_calls_newest cos sin radians cs s :
  current_is_newest s ->
  let s' := fst (do_calls cos sin radians cs s) in
  let out := snd (do_calls cos sin radians cs s) in
  current_is_newest s' /\
  forall fd0, G.current_data s = Some fd0 ->
    G.current_data s' = Some (default fd0 (last out)).
Proof.
  revert s. induction cs as [|c cs IH]; intros s Hinv; cbn [do_calls].
  - cbn [fst snd]. split; [exact Hinv|]. intros fd0 H0. exact H0.
  - pose proof (do_call_newest cos sin radians c s Hinv) as H1.
    destruct (do_call cos sin radians c s) as [s1 out1].
    cbn [fst snd] in H1. destruct H1 as [Hinv1 Hc1].
    specialize (IH s1 Hinv1).
    destruct (do_calls cos sin radians cs s1) as [s2 out2].
    cbn [fst snd] in *. destruct IH as [Hinv2 Hc2].
    split; [exact Hinv2|].
    intros fd0 H0. rewrite (Hc2 _ (Hc1 _ H0)). f_equal.
    rewrite last_app. destruct (last out2); reflexivity.
Qed.

(** X15. On a generator built by [__init__], after any sequence of
    [generate_flight_data], [set_flight_parameters] and [reset_position]
    calls (ticks that raise included): [get_current_data] returns a sample,
    namely the last one that a tick returned, or the initial sample when no
    tick returned; that sample is the last entry of the history; and
    [get_history(1)] returns exactly that sample. *)
Theorem X15_current_sample_is_newest (cos sin radians : Q -> Q)
    (update_interval : Q) (now : datetime) (g : FlightDataGenerator.t)
    (cs : list call) :
  FlightDataGenerator.init update_interval now = Ok g ->
  let g' := fst (do_calls cos sin radians cs g) in
  let out := snd (do_calls cos sin radians cs g) in
  let newest :=
    default (FlightData.mk 41.2622 28.7278 35000 450 270 0 now) (last out) in
  G.get_current_data g' = Some newest /\
  last (G.history g') = Some newest /\
  G.get_history (Some 1) g' = [newest].
Proof.
  intros Hinit g' out newest.
  destruct (init_store _ _ _ Hinit) as (Hm & Hh & Hc).
  assert (Hinv : current_is_newest g).
  { split; [rewrite Hm; lia|].
    exists [], (FlightData.mk 41.2622 28.7278 35000 450 270 0 now).
    split; assumption. }
  destruct (do_calls_newest cos sin radians cs g Hinv) as [Hinv' Hcur].
  specialize (Hcur _ Hc). fold g' out in Hinv', Hcur. fold newest in Hcur.
  destruct Hinv' as (_ & h & fd & Hh' & Hc').
  unfold G.get_current_data.
  assert (Hfd : fd = newest) by congruence. subst fd.
  split; [exact Hcur|]. split.
  - rewrite Hh'. apply last_snoc.
  - rewrite get_history_positive by lia. rewrite Hh', length_app.
    cbn [length]. unfold last_n. rewrite length_app. cbn [length].
    replace (Z.to_nat (Z.min 1 (Z.of_nat (length h + 1)))) with 1%nat by lia.
    replace (length h + 1 - 1)%nat with (length h) by lia.
    rewrite drop_app_length. reflexivity.
Qed.

(** The theorem on a new generator that is given rates and ticked twice. *)
Lemma X15_current_sample_is_newest_witness :
  exists g,
    FlightDataGenerator.init 1 0 = Ok g /\
    let cs := [Generate (mk_draws 0 0 0 0 0 0 0 0 0 1);
               SetFlightParameters 2 100 1;
               Generate (mk_draws 0 0 0 0 0 0 0 0 0 2)] in
    let g' := fst (do_calls (fun _ => 1%Q) (fun _ => 0%Q) (fun x => x) cs g) in
    let out := snd (do_calls (fun _ => 1%Q) (fun _ => 0%Q) (fun x => x) cs g) in
    let newest :=
      default (FlightData.mk 41.2622 28.7278 35000 450 270 0 0) (last out) in
    length out = 2%nat /\
    FlightData.timestamp newest = 2 /\
    G.get_current_data g' = Some newest /\
    last (G.history g') = Some newest /\
    G.get_history (Some 1) g' = [newest].
Proof.
  eexists. split; [vm_compute; reflexivity|].
  intros cs g' out newest. split; [vm_compute; reflexivity|].
  split; [vm_compute; reflexivity|].
  apply (X15_current_sample_is_newest (fun _ => 1%Q) (fun _ => 0%Q)
           (fun x => x) 1%Q 0).
  vm_compute. reflexivity.
Defined.

(** * Generated batches *)

(** The batch of a record inside the envelope, from any encoder whose
    [sdi] is the ["00"] that [__init__] sets. *)
Lemma complete_batch_from self fd :
  self_sdi self = "00" -> in_envelope fd ->
  exists msgs self',
    encode_flight_data fd self = (Ok msgs, self') /\
    self_sdi self' = "00" /\
    map ARINC429Message.label msgs = label_order /\
    Forall (fun m =>
              ARINC429Message.timestamp m = FlightData.timestamp fd /\
              ARINC429Message.sdi m = "00" /\
              String.length (ARINC429Message.data m) = 19%nat /\
              all_bits (ARINC429Message.data m) = true) msgs.
Proof.
  intros Hsdi Henv. set (ts := FlightData.timestamp fd).
  destruct (encode_loop_spec ts fd (encodings fd) [] self) as (self' & Hrun & Hs');
    [auto|exact Hsdi|].
  exists (omap (word_alone ts) (encodings fd)), self'.
  split; [exact Hrun|]. split; [exact Hs'|].
  apply (in_envelope_entries ts fd) in Henv. split.
  - change label_order with (map entry_label (encodings fd)).
    apply (omap_labels_full ts fd); auto.
  - apply Forall_forall. intros m Hm.
    apply list_elem_of_omap in Hm. destruct Hm as (e & He & Hw).
    apply list_elem_of_In in He.
    exact (word_alone_fields ts fd e m He Hw).
Qed.

(** The dictionary built from six messages labelled 6A to 6F: one key per
    message, in the order of the messages. *)
Lemma build_raw_data_complete isoformat msgs :
  map ARINC429Message.label msgs = label_order ->
  build_raw_data isoformat msgs =
  map (fun m => (("label_" ++ ARINC429Message.label m)%string,
                 raw_entry isoformat m)) msgs.
Proof.
  intros H.
  destruct msgs as [|m1 [|m2 [|m3 [|m4 [|m5 [|m6 [|m7 l]]]]]]];
    try discriminate H.
  unfold label_order in H. cbn [map] in H.
  inversion H as [[H1 H2 H3 H4 H5 H6]]. clear H.
  unfold build_raw_data. cbn [fold_left map].
  rewrite H1, H2, H3, H4, H5, H6. reflexivity.
Qed.

Section Batches.
Variables cos sin radians : Q -> Q.
Variable isoformat : datetime -> string.


End Batches.


(** * Waypoint navigation *)

Module SG := SimulatedFlightDataGenerator.

Lemma py_int_unique (x : Q) (z : Z) :
  (0 <= x)%Q -> (inject_Z z <= x)%Q -> (x < inject_Z z + 1)%Q ->
  py_int x = z.
Proof.
  intros H0 H1 H2.
  destruct (py_int_floor x H0) as (_ & F1 & F2).
  assert (A : (inject_Z z < inject_Z (py_int x) + 1)%Q) by lra.
  assert (B : (inject_Z (py_int x) < inject_Z z + 1)%Q) by lra.
  change 1%Q with (inject_Z 1) in A, B. rewrite <- inject_Z_plus in A, B.
  rewrite <- Zlt_Qlt in A, B. lia.
Qed.

(** The remainder by 360 of a number from 0 up to, but not including, two
    turns: no sum, so no rounding. *)
Lemma py_fmod_360_cases (float_round : Q -> Q) (x : Q) :
  (0 <= x)%Q -> (x < 720)%Q ->
  ((x < 360)%Q -> (py_fmod float_round x 360 == x)%Q) /\
  ((360 <= x)%Q -> (py_fmod float_round x 360 == x - 360)%Q).
Proof.
  intros H0 H720. unfold py_fmod.
  assert (Hq : forall z : Z, (inject_Z z <= x / 360)%Q ->
                 (x / 360 < inject_Z z + 1)%Q -> py_int (x / 360) = z).
  { intros z H1 H2. apply py_int_unique; [|assumption|assumption].
    unfold Qdiv. change (/ 360)%Q with (1 # 360)%Q. lra. }
  split; intros Hx.
  - rewrite (Hq 0).
    + change (inject_Z 0) with 0%Q.
      destruct (Qeq_bool (x - 360 * 0) 0) eqn:E.
      * apply Qeq_bool_iff in E. lra.
      * assert (Hn : Qltb (x - 360 * 0) 0 = false)
          by (apply Qltb_false; lra).
        rewrite Hn. change (Qltb 360 0) with false. cbn [xorb]. lra.
    + change (inject_Z 0) with 0%Q. unfold Qdiv.
      change (/ 360)%Q with (1 # 360)%Q. lra.
    + change (inject_Z 0) with 0%Q. unfold Qdiv.
      change (/ 360)%Q with (1 # 360)%Q. lra.
  - rewrite (Hq 1).
    + change (inject_Z 1) with 1%Q.
      destruct (Qeq_bool (x - 360 * 1) 0) eqn:E.
      * apply Qeq_bool_iff in E. lra.
      * assert (Hn : Qltb (x - 360 * 1) 0 = false)
          by (apply Qltb_false; lra).
        rewrite Hn. change (Qltb 360 0) with false. cbn [xorb]. lra.
    + change (inject_Z 1) with 1%Q. unfold Qdiv.
      change (/ 360)%Q with (1 # 360)%Q. lra.
    + change (inject_Z 1) with 1%Q. unfold Qdiv.
      change (/ 360)%Q with (1 # 360)%Q. lra.
Qed.

Section Navigation.
Variables cos sin radians degrees sqrt : Q -> Q.
Variable atan2 : Q -> Q -> Q.
Variable float_round : Q -> Q.

(** X17. [_calculate_bearing], when the angle that
    [math.degrees(math.atan2(y, x))] gives lies in [-180, 180], as it does
    for these library functions, and the rounding of a sum to a double
    keeps the order and leaves 180 and 540 as they are.  The sum
    [bearing + 360], rounded, lies between 180 and 540, and the result is
    that sum if it is below 360 and that sum less a full turn otherwise:
    so the result is always in [0, 360).  A negative angle so small that
    the sum rounds to 360 gives the bearing 0, not a bearing just under
    360. *)
Theorem X17_bearing_normalised (lat1 lon1 lat2 lon2 : Q) :
  let b := SG._calculate_bearing cos sin radians degrees atan2 float_round
             lat1 lon1 lat2 lon2 in
  let angle :=
    degrees
      (atan2 (sin (radians (lon2 - lon1)) * cos (radians lat2))%Q
             (cos (radians lat1) * sin (radians lat2)
              - sin (radians lat1) * cos (radians lat2)
                * cos (radians (lon2 - lon1)))%Q) in
  let sum := float_round (angle + 360)%Q in
  (-180 <= angle /\ angle <= 180)%Q ->
  (forall x y : Q, (x <= y)%Q -> (float_round x <= float_round y)%Q) ->
  (float_round 180 == 180)%Q -> (float_round 540 == 540)%Q ->
  (180 <= sum /\ sum <= 540)%Q /\
  ((sum < 360)%Q -> (b == sum)%Q) /\
  ((360 <= sum)%Q -> (b == sum - 360)%Q) /\
  (0 <= b /\ b < 360)%Q /\
  ((sum == 360)%Q -> (b == 0)%Q).
Proof.
  intros b angle sum [Hlo Hhi] Hmono H180 H540.
  assert (Hsum : (180 <= sum /\ sum <= 540)%Q).
  { split.
    - rewrite <- H180. apply Hmono. lra.
    - rewrite <- H540. apply Hmono. lra. }
  destruct Hsum as [S1 S2].
  assert (Hb : b = py_fmod float_round sum 360) by reflexivity.
  destruct (py_fmod_360_cases float_round sum ltac:(lra) ltac:(lra))
    as [Hlt Hge].
  rewrite <- Hb in Hlt, Hge.
  split; [split; assumption|]. split; [exact Hlt|]. split; [exact Hge|].
  split.
  - destruct (Qlt_le_dec sum 360) as [H|H].
    + rewrite (Hlt H). split; lra.
    + rewrite (Hge H). split; lra.
  - intros H360. rewrite Hge by lra. lra.
Qed.
End Navigation.

(** A rounding that takes the numbers just under 360 to 360, as the
    rounding to a double does, and leaves the others as they are. *)
Lemma round_up_to_360_monotone (x y : Q) :
  let r := fun q : Q =>
    if Qltb (360 - (1 # 1000000)) q && Qltb q 360 then 360%Q else q in
  (x <= y)%Q -> (r x <= r y)%Q.
Proof.
  intros r H. subst r. cbn beta.
  destruct (Qltb (360 - (1 # 1000000)) x) eqn:A1;
    destruct (Qltb x 360) eqn:A2;
    destruct (Qltb (360 - (1 # 1000000)) y) eqn:B1;
    destruct (Qltb y 360) eqn:B2; cbn [andb];
    repeat match goal with
           | E : Qltb _ _ = true |- _ => apply Qltb_true in E
           | E : Qltb _ _ = false |- _ => apply Qltb_false in E
           end; lra.
Qed.

(** The theorem for a waypoint that is a hair to the west of north: the
    angle is negative, the sum rounds to 360, and the bearing is 0. *)
Lemma X17_bearing_normalised_witness :
  let atan2 := fun _ _ : Q => (- (1 # 100000000000000000000))%Q in
  let float_round := fun q : Q =>
    if Qltb (360 - (1 # 1000000)) q && Qltb q 360 then 360%Q else q in
  let b := SG._calculate_bearing (fun x => x) (fun x => x) (fun x => x)
             (fun x => x) atan2 float_round 41 28 42 28 in
  let angle := (- (1 # 100000000000000000000))%Q in
  let sum := float_round (angle + 360)%Q in
  (angle < 0)%Q /\ (sum == 360)%Q /\ (b == 0)%Q /\
  (180 <= sum /\ sum <= 540)%Q /\
  ((sum < 360)%Q -> (b == sum)%Q) /\
  ((360 <= sum)%Q -> (b == sum - 360)%Q) /\
  (0 <= b /\ b < 360)%Q /\
  ((sum == 360)%Q -> (b == 0)%Q).
Proof.
  intros atan2 float_round b angle sum.
  split; [reflexivity|]. split; [reflexivity|]. split; [reflexivity|].
  apply (X17_bearing_normalised (fun x => x) (fun x => x) (fun x => x)
           (fun x => x) atan2 float_round 41 28 42 28).
  - split; discriminate.
  - exact round_up_to_360_monotone.
  - reflexivity.
  - reflexivity.
Defined.

Section NavigationStep.
Variables cos sin radians degrees sqrt : Q -> Q.
Variable atan2 : Q -> Q -> Q.

Lemma turn_rate_bounds (heading_diff : Q) :
  let rate := py_max (- 3) (py_min 3 heading_diff) in
  (1 < Qabs heading_diff)%Q ->
  (-3 <= rate /\ rate <= 3)%Q /\ (1 < Qabs rate)%Q /\
  ((0 < heading_diff)%Q -> (0 < rate)%Q) /\
  ((heading_diff < 0)%Q -> (rate < 0)%Q).
Proof.
  intros rate Habs. subst rate. unfold py_max, py_min.
  assert (Hcases : (heading_diff < -1 \/ 1 < heading_diff)%Q).
  { destruct (Qlt_le_dec heading_diff 0) as [Hn|Hp].
    - left. rewrite Qabs_neg in Habs by lra. lra.
    - right. rewrite Qabs_pos in Habs by lra. lra. }
  destruct (Qltb heading_diff 3) eqn:E1.
  - apply Qltb_true in E1. destruct (Qltb (- 3) heading_diff) eqn:E2.
    + apply Qltb_true in E2. split; [split; lra|]. split; [exact Habs|].
      split; intros; lra.
    + apply Qltb_false in E2. split; [split; lra|].
      split; [rewrite Qabs_neg by lra; lra|]. split; intros; lra.
  - apply Qltb_false in E1.
    assert (E2 : Qltb (- 3) 3 = true) by reflexivity. rewrite E2.
    split; [split; lra|]. split; [rewrite Qabs_pos by lra; lra|].
    split; intros; lra.
Qed.
End NavigationStep.

Section NavigationSteps.
Variables cos sin radians degrees sqrt : Q -> Q.
Variable atan2 : Q -> Q -> Q.
Variable float_round : Q -> Q.

Lemma list_index_in_range {A} (l : list A) (i : Z) :
  0 <= i < Z.of_nat (length l) ->
  exists x, list_index l i = Ok x /\ l !! Z.to_nat i = Some x.
Proof.
  intros [H0 H1]. unfold list_index.
  assert (E1 : (i <? 0) = false) by (apply Z.ltb_ge; lia). rewrite E1.
  assert (E2 : (0 <=? i) && (i <? Z.of_nat (length l)) = true).
  { apply andb_true_intro. split; [apply Z.leb_le|apply Z.ltb_lt]; lia. }
  rewrite E2.
  destruct (l !! Z.to_nat i) as [x|] eqn:E.
  - exists x. split; reflexivity.
  - apply lookup_ge_None in E. lia.
Qed.

(** X18. One call of [_navigate_to_waypoint], on waypoints stored by
    [add_waypoint] and an index that is not negative.  Without an active
    waypoint (no waypoint, or the index at or past the end) the call
    returns and changes nothing.  With one, the call returns or raises the
    domain error of [math.sqrt] in [_calculate_distance]; in both cases
    the only attribute of the base generator it has written is
    [heading_change_rate], which is then within the turn limit of 3
    degrees per second, and is either 0 (inside the one-degree dead band)
    or larger than 1 in magnitude.  The waypoint list and the flight phase
    are kept, and the index stays or moves on by one, only on a normal
    return and only from an active waypoint, so it never passes the end of
    the list. *)
Theorem X18_navigation_step (s s' : SG.t) (r : result unit) :
  Forall waypoint_added (SG.waypoints s) ->
  0 <= SG.current_waypoint_index s ->
  SG._navigate_to_waypoint cos sin radians degrees sqrt atan2 float_round s
    = (r, s') ->
  let n := Z.of_nat (length (SG.waypoints s)) in
  let rate' := G.heading_change_rate (SG.base s') in
  SG.waypoints s' = SG.waypoints s /\
  SG.flight_phase s' = SG.flight_phase s /\
  SG.base s' = G.set_heading_change_rate rate' (SG.base s) /\
  (r = Ok tt \/ r = Raise (ValueError "math domain error")) /\
  (SG.current_waypoint_index s' = SG.current_waypoint_index s \/
   (r = Ok tt /\ SG.current_waypoint_index s < n /\
    SG.current_waypoint_index s' = SG.current_waypoint_index s + 1)) /\
  (n <= SG.current_waypoint_index s -> r = Ok tt /\ s' = s) /\
  (SG.current_waypoint_index s < n ->
     (-3 <= rate' /\ rate' <= 3)%Q /\ (rate' == 0 \/ 1 < Qabs rate')%Q).
Proof.
  destruct s as [b ph wps idx].
  cbn [SG.waypoints SG.current_waypoint_index SG.flight_phase SG.base].
  intros Hshape Hidx. unfold SG._navigate_to_waypoint.
  unfold bind at 1, get. cbn [SG.waypoints SG.current_waypoint_index].
  destruct wps as [|w0 ws] eqn:Ewps.
  - intros H. inversion H. subst r s'. cbn. destruct b. cbn.
    split; [reflexivity|]. split; [reflexivity|]. split; [reflexivity|].
    split; [now left|]. split; [now left|]. split; [auto|]. lia.
  - rewrite <- Ewps in *. clear Ewps w0 ws.
    destruct (Z.of_nat (length wps) <=? idx) eqn:Elen.
    + apply Z.leb_le in Elen.
      intros H. inversion H. subst r s'. cbn. destruct b. cbn.
      split; [reflexivity|]. split; [reflexivity|]. split; [reflexivity|].
      split; [now left|]. split; [now left|]. split; [auto|]. lia.
    + apply Z.leb_gt in Elen.
      destruct (list_index_in_range wps idx (conj Hidx Elen))
        as (w & Hw & Hlook).
      assert (Hadded : waypoint_added w).
      { rewrite Forall_forall in Hshape. apply Hshape.
        apply list_elem_of_lookup. eexists. exact Hlook. }
      destruct Hadded as (la & lo & al & ->).
      cbv [bind lift modify ret]. rewrite Hw.
      change (dict_index [("latitude", la); ("longitude", lo); ("altitude", al)]
                "latitude") with (Ok la).
      change (dict_index [("latitude", la); ("longitude", lo); ("altitude", al)]
                "longitude") with (Ok lo).
      cbv beta iota. cbn [SG.base SG.set_base SG.flight_phase SG.waypoints
                          SG.current_waypoint_index
                          SG.set_current_waypoint_index].
      set (target := SG._calculate_bearing cos sin radians degrees atan2
                       float_round _ _ _ _).
      set (diff := (target - _)%Q).
      set (hd := if Qltb 180 diff then _ else _).
      match goal with
      | |- _ -> ?C =>
          assert (Hcont : forall rate,
            (-3 <= rate /\ rate <= 3)%Q -> (rate == 0 \/ 1 < Qabs rate)%Q ->
            match SG._calculate_distance cos sin radians sqrt atan2
                    (G.current_latitude b) (G.current_longitude b) la lo with
            | Ok a =>
                (if Qltb a 0.01
                 then fun s : SG.t =>
                   (Ok tt,
                    SG.set_current_waypoint_index
                      (SG.current_waypoint_index s + 1) s)
                 else fun s : SG.t => (Ok tt, s))
                  (SG.mk (G.set_heading_change_rate rate b) ph wps idx)
            | Raise e =>
                (Raise e, SG.mk (G.set_heading_change_rate rate b) ph wps idx)
            end = (r, s') -> C)
      end.
      { intros rate Hb Hz.
        assert (Hbase : G.set_heading_change_rate rate b =
                        G.set_heading_change_rate
                          (G.heading_change_rate
                             (G.set_heading_change_rate rate b)) b)
          by (destruct b; reflexivity).
        assert (Hr : G.heading_change_rate (G.set_heading_change_rate rate b)
                     = rate) by (destruct b; reflexivity).
        destruct (SG._calculate_distance cos sin radians sqrt atan2
                    (G.current_latitude b) (G.current_longitude b) la lo)
          as [dist|e] eqn:Ed.
        - destruct (Qltb dist 0.01); intros H; inversion H; subst r s';
            cbn [SG.waypoints SG.flight_phase SG.base
                 SG.current_waypoint_index SG.set_current_waypoint_index];
            rewrite Hr;
            (split; [reflexivity|]); (split; [reflexivity|]);
            (split; [exact Hbase|]); (split; [now left|]).
          + split; [right; split; [reflexivity|split; [exact Elen|reflexivity]]|].
            split; [lia|]. intros _. split; assumption.
          + split; [now left|]. split; [lia|]. intros _. split; assumption.
        - assert (He : e = ValueError "math domain error").
          { unfold SG._calculate_distance, SG.py_sqrt, rbind in Ed.
            repeat match type of Ed with
                   | context [if ?c then _ else _] => destruct c
                   end; congruence. }
          subst e. intros H. inversion H. subst r s'.
          cbn [SG.waypoints SG.flight_phase SG.base SG.current_waypoint_index].
          rewrite Hr.
          split; [reflexivity|]. split; [reflexivity|]. split; [exact Hbase|].
          split; [now right|]. split; [now left|]. split; [lia|].
          intros _. split; assumption. }
      destruct (Qltb 1 (Qabs hd)) eqn:E.
      * apply Qltb_true in E.
        destruct (turn_rate_bounds hd E) as (Hb & Ha & _).
        exact (Hcont _ Hb (or_intror Ha)).
      * apply (Hcont 0%Q); [split; lra|left; reflexivity].
Qed.
End NavigationSteps.

(** The theorem on a new generator with one waypoint, with math functions
    that put the waypoint at bearing 0 and distance 0: the heading 270 is
    90 degrees off, the rate is the limit 3, and the waypoint counts as
    reached. *)
Lemma X18_navigation_step_witness :
  exists g s',
    SG.init 1 0 = Ok g /\
    let s := snd (SG.add_waypoint 41 27 10000 g) in
    Forall waypoint_added (SG.waypoints s) /\
    0 <= SG.current_waypoint_index s /\
    SG._navigate_to_waypoint (fun _ => 1%Q) (fun _ => 0%Q) (fun x => x)
      (fun x => x) (fun x => x) (fun _ _ => 0%Q) (fun x => x) s
      = (Ok tt, s') /\
    (G.heading_change_rate (SG.base s') == 3)%Q /\
    SG.current_waypoint_index s' = 1 /\
    let n := Z.of_nat (length (SG.waypoints s)) in
    let rate' := G.heading_change_rate (SG.base s') in
    SG.waypoints s' = SG.waypoints s /\
    SG.flight_phase s' = SG.flight_phase s /\
    SG.base s' = G.set_heading_change_rate rate' (SG.base s) /\
    (Ok tt = Ok tt \/ Ok tt = Raise (ValueError "math domain error")) /\
    (SG.current_waypoint_index s' = SG.current_waypoint_index s \/
     (Ok tt = Ok tt /\ SG.current_waypoint_index s < n /\
      SG.current_waypoint_index s' = SG.current_waypoint_index s + 1)) /\
    (n <= SG.current_waypoint_index s -> Ok tt = Ok tt /\ s' = s) /\
    (SG.current_waypoint_index s < n ->
       (-3 <= rate' /\ rate' <= 3)%Q /\ (rate' == 0 \/ 1 < Qabs rate')%Q).
Proof.
  eexists _, _. split; [vm_compute; reflexivity|].
  match goal with
  | |- let s := ?s0 in
       _ /\ _ /\ (_ = (Ok tt, ?s1)) /\ _ =>
      intros s;
      assert (Hshape : Forall waypoint_added (SG.waypoints s))
        by (constructor; [eexists _, _, _; reflexivity|constructor]);
      assert (Hidx : 0 <= SG.current_waypoint_index s) by (cbn; lia);
      assert (Hrun : SG._navigate_to_waypoint (fun _ => 1%Q) (fun _ => 0%Q)
                       (fun x => x) (fun x => x) (fun x => x)
                       (fun _ _ => 0%Q) (fun x => x) s = (Ok tt, s1))
        by (vm_compute; reflexivity);
      split; [exact Hshape|]; split; [exact Hidx|]; split; [exact Hrun|];
      split; [vm_compute; reflexivity|]; split; [vm_compute; reflexivity|];
      exact (X18_navigation_step _ _ _ _ _ _ _ s s1 (Ok tt) Hshape Hidx Hrun)
  end.
Defined.

(** * The manual dashboard *)

Module D := ManualARINC429Dashboard.

Lemma FlightData_new_inv lat lon alt spd hdg vs ts fd :
  FlightData.new lat lon alt spd hdg vs ts = Ok fd ->
  fd = FlightData.mk lat lon alt spd hdg vs ts.
Proof.
  unfold FlightData.new, rbind. intros H.
  repeat match type of H with
         | context [FlightData.check_field ?n ?a ?b ?c] =>
             destruct (FlightData.check_field n a b c); [|discriminate H]
         end.
  now inversion H.
Qed.

Section Dashboard.
Variable isoformat : datetime -> string.

(** X19. [process_flight_data] of the manual dashboard, for any six
    values typed in: the call never raises.  It returns a packet exactly
    when the values lie in the closed envelope that [FlightData] accepts
    (heading 360 included).  The packet then holds the values as given,
    stamped with the clock reading, all six words labelled 6A to 6F, and
    one [raw_data] entry per word, and it is appended to the flight
    history.  Otherwise the call returns [None] and the dashboard,
    history included, is as before: no partial packet is ever stored. *)
Theorem X19_dashboard_packet_iff_in_envelope
    (latitude longitude altitude airspeed heading vertical_speed : Q)
    (now : datetime) (s : D.t) :
  self_sdi (D.encoder s) = "00" ->
  let fd := FlightData.mk latitude longitude altitude airspeed heading
              vertical_speed now in
  exists r s',
    D.process_flight_data isoformat latitude longitude altitude airspeed
      heading vertical_speed now s = (Ok r, s') /\
    self_sdi (D.encoder s') = "00" /\
    (r <> None <-> in_envelope fd) /\
    (forall data, r = Some data ->
       ARINC429Data.flight_data data = fd /\
       map ARINC429Message.label (ARINC429Data.arinc_messages data)
         = label_order /\
       Forall (fun m => ARINC429Message.timestamp m = now)
              (ARINC429Data.arinc_messages data) /\
       ARINC429Data.raw_data data =
         map (fun m => (("label_" ++ ARINC429Message.label m)%string,
                        raw_entry isoformat m))
             (ARINC429Data.arinc_messages data) /\
       D.flight_history s' = (D.flight_history s ++ [data])%list) /\
    (r = None -> s' = s).
Proof.
  intros Hsdi fd. unfold D.process_flight_data, try_except.
  unfold bind at 1, lift.
  destruct (FlightData.new latitude longitude altitude airspeed heading
              vertical_speed now) as [fd'|e] eqn:Enew.
  - pose proof (FlightData_new_envelope _ _ _ _ _ _ _ _ Enew) as Henv.
    apply FlightData_new_inv in Enew. fold fd in Enew. subst fd'.
    destruct (complete_batch_from (D.encoder s) fd Hsdi Henv)
      as (msgs & self' & Hrun & Hs' & Hlabels & Hall).
    unfold bind at 1, D.with_encoder. rewrite Hrun.
    unfold bind, modify, ret. cbn [D.encoder D.flight_history].
    eexists _, _. split; [reflexivity|].
    cbn [D.encoder D.flight_history]. split; [exact Hs'|]. split.
    + split; [intros _; exact Henv|intros _; discriminate].
    + split; [|intros H; discriminate H].
      intros data H. inversion H. subst data. clear H.
      cbn [ARINC429Data.flight_data ARINC429Data.arinc_messages
           ARINC429Data.raw_data].
      split; [reflexivity|]. split; [exact Hlabels|]. split.
      * eapply Forall_impl; [exact Hall|]. intros m (Hts & _). exact Hts.
      * split; [|reflexivity]. apply build_raw_data_complete. exact Hlabels.
  - unfold ret. exists None, s. split; [reflexivity|]. split; [exact Hsdi|].
    split.
    + split; [intros H; now contradiction H|].
      intros Henv. apply FlightData_new_ok in Henv. fold fd in Henv.
      congruence.
    + split; [intros data H; discriminate H|reflexivity].
Qed.
End Dashboard.

(** The theorem on a new dashboard, for heading 360 at the edge of the
    envelope. *)
Lemma X19_dashboard_packet_iff_in_envelope_witness :
  self_sdi (D.encoder D.init) = "00" /\
  exists r s',
    D.process_flight_data (fun _ => "t") 41.2622 28.7278 35000 450 360 0 7
      D.init = (Ok r, s') /\
    self_sdi (D.encoder s') = "00" /\
    (r <> None <->
     in_envelope (FlightData.mk 41.2622 28.7278 35000 450 360 0 7)) /\
    (forall data, r = Some data ->
       ARINC429Data.flight_data data =
         FlightData.mk 41.2622 28.7278 35000 450 360 0 7 /\
       map ARINC429Message.label (ARINC429Data.arinc_messages data)
         = label_order /\
       Forall (fun m => ARINC429Message.timestamp m = 7)
              (ARINC429Data.arinc_messages data) /\
       ARINC429Data.raw_data data =
         map (fun m => (("label_" ++ ARINC429Message.label m)%string,
                        raw_entry (fun _ => "t") m))
             (ARINC429Data.arinc_messages data) /\
       D.flight_history s' = (D.flight_history D.init ++ [data])%list) /\
    (r = None -> s' = D.init).
Proof.
  split; [reflexivity|].
  exact (X19_dashboard_packet_iff_in_envelope (fun _ => "t")
           41.2622 28.7278 35000 450 360 0 7 D.init eq_refl).
Defined.

(** * The current-data route *)

Section CurrentDataRoute.
Variables cos sin radians : Q -> Q.
Variable isoformat : datetime -> string.
Variable str_exn : exn -> string.

(** X20. [GET /api/current-data].  On a server whose generator was
    built by [__init__], after any sequence of generator calls, the route
    answers with status ["success"] and the six values and the timestamp
    of the newest sample.  On any generator, the only failure of the route
    is the one of a generator without a current sample, and it is reported
    with status 500: the 404 raised in the [else] branch is caught by the
    handler of the enclosing [try] and never reaches the client. *)
Theorem X20_current_data_route (update_interval : Q) (now : datetime)
    (g : FlightDataGenerator.t) (cs : list call) :
  FlightDataGenerator.init update_interval now = Ok g ->
  let g' := fst (do_calls cos sin radians cs g) in
  let out := snd (do_calls cos sin radians cs g) in
  let newest :=
    default (FlightData.mk 41.2622 28.7278 35000 450 270 0 now) (last out) in
  Routes.get_current_data isoformat str_exn g' =
    Ok (JDict
          [ ("status", JStr "success");
            ("data",
             JDict [ ("latitude", JNum (FlightData.latitude newest));
                     ("longitude", JNum (FlightData.longitude newest));
                     ("altitude", JNum (FlightData.altitude newest));
                     ("airspeed", JNum (FlightData.airspeed newest));
                     ("heading", JNum (FlightData.heading newest));
                     ("vertical_speed",
                      JNum (FlightData.vertical_speed newest));
                     ("timestamp",
                      JStr (isoformat (FlightData.timestamp newest))) ]) ]) /\
  forall g0 e,
    Routes.get_current_data isoformat str_exn g0 = Raise e ->
    G.get_current_data g0 = None /\
    e = HTTPException 500 (str_exn (HTTPException 404 "Veri bulunamadı")).
Proof.
  intros Hinit g' out newest. split.
  - destruct (init_store _ _ _ Hinit) as (Hm & Hh & Hc).
    assert (Hinv : current_is_newest g).
    { split; [rewrite Hm; lia|].
      exists [], (FlightData.mk 41.2622 28.7278 35000 450 270 0 now).
      split; assumption. }
    destruct (do_calls_newest cos sin radians cs g Hinv) as [_ Hcur].
    specialize (Hcur _ Hc). fold g' out in Hcur. fold newest in Hcur.
    unfold Routes.get_current_data, G.get_current_data. rewrite Hcur.
    reflexivity.
  - intros g0 e. unfold Routes.get_current_data.
    destruct (G.get_current_data g0) as [cd|]; [discriminate|].
    intros H. inversion H. split; reflexivity.
Qed.
End CurrentDataRoute.

(** The theorem on a new generator ticked once. *)
Lemma X20_current_data_route_witness :
  exists g,
    FlightDataGenerator.init 1 0 = Ok g /\
    let cs := [Generate (mk_draws 0 0 0 0 0 0 0 0 0 5)] in
    let g' := fst (do_calls (fun _ => 1%Q) (fun _ => 0%Q) (fun x => x) cs g) in
    let out := snd (do_calls (fun _ => 1%Q) (fun _ => 0%Q) (fun x => x) cs g) in
    let newest :=
      default (FlightData.mk 41.2622 28.7278 35000 450 270 0 0) (last out) in
    FlightData.timestamp newest = 5 /\
    Routes.get_current_data (fun _ => "t") (fun _ => "e") g' =
      Ok (JDict
            [ ("status", JStr "success");
              ("data",
               JDict [ ("latitude", JNum (FlightData.latitude newest));
                       ("longitude", JNum (FlightData.longitude newest));
                       ("altitude", JNum (FlightData.altitude newest));
                       ("airspeed", JNum (FlightData.airspeed newest));
                       ("heading", JNum (FlightData.heading newest));
                       ("vertical_speed",
                        JNum (FlightData.vertical_speed newest));
                       ("timestamp", JStr "t") ]) ]) /\
    forall g0 e,
      Routes.get_current_data (fun _ => "t") (fun _ => "e") g0 = Raise e ->
      G.get_current_data g0 = None /\
      e = HTTPException 500 "e".
Proof.
  eexists. split; [vm_compute; reflexivity|].
  intros cs g' out newest. split; [vm_compute; reflexivity|].
  apply (X20_current_data_route (fun _ => 1%Q) (fun _ => 0%Q) (fun x => x)
           (fun _ => "t") (fun _ => "e") 1%Q 0).
  vm_compute. reflexivity.
Defined.

(** * Delivery to the external systems *)

Section ExternalDelivery.
Variable isoformat : datetime -> string.
Variable post_result : http_request -> result Z.

Lemma external_loop_run configs arinc_data sent0 :
  external_loop isoformat post_result configs arinc_data sent0 =
  (Ok tt,
   (sent0 ++ map (fun c => (ExternalConfig.url c,
                            external_payload isoformat arinc_data,
                            ExternalConfig.headers c))
                 (List.filter ExternalConfig.enabled configs))%list).
Proof.
  revert sent0. induction configs as [|c configs IH]; intros sent0.
  - cbn. now rewrite app_nil_r.
  - cbn [external_loop List.filter]. unfold bind at 1.
    destruct (ExternalConfig.enabled c); cbn [negb].
    + unfold try_except, bind, requests_post.
      destruct (post_result _) as [code|e].
      * destruct (code =? 200); unfold ret; rewrite IH;
          cbn [map]; now rewrite <- app_assoc.
      * unfold ret. rewrite IH. cbn [map]. now rewrite <- app_assoc.
    + unfold ret. apply IH.
Qed.

(** X21. [_send_to_external_systems], whatever each request does
    (any status code, or any exception): the call returns normally and
    makes exactly one POST for every enabled sink of the registry, in
    registry order, each to the sink's url with the sink's headers and the
    same body; a disabled sink gets no request; and a sink whose request
    fails does not keep the sinks after it from being served. *)
Theorem X21_external_delivery (self : A.t) (arinc_data : ARINC429Data.t)
    (sent0 : list http_request) :
  exists sent1,
    _send_to_external_systems isoformat post_result self arinc_data sent0
      = (Ok tt, sent1) /\
    drop (length sent0) sent1 =
      map (fun c => (ExternalConfig.url c,
                     external_payload isoformat arinc_data,
                     ExternalConfig.headers c))
          (List.filter ExternalConfig.enabled (A.external_configs self)) /\
    take (length sent0) sent1 = sent0 /\
    (forall c, In c (A.external_configs self) ->
       ExternalConfig.enabled c = true ->
       In (ExternalConfig.url c, external_payload isoformat arinc_data,
           ExternalConfig.headers c) (drop (length sent0) sent1)) /\
    length (drop (length sent0) sent1) =
      length (List.filter ExternalConfig.enabled (A.external_configs self)).
Proof.
  eexists. split; [apply external_loop_run|].
  rewrite drop_app_length, take_app_length.
  split; [reflexivity|]. split; [reflexivity|]. split.
  - intros c Hin Hen.
    apply (in_map (fun c => (ExternalConfig.url c,
                             external_payload isoformat arinc_data,
                             ExternalConfig.headers c))).
    apply List.filter_In. split; assumption.
  - now rewrite length_map.
Qed.
End ExternalDelivery.

(** * One iteration of the data generation loop *)

Section LoopIteration.
Variables cos sin radians : Q -> Q.
Variable isoformat : datetime -> string.
Variable json_dumps : json -> string.
Variable send_fails : WebSocket -> bool.
Variable post_result : http_request -> result Z.

End LoopIteration.


(** * Registering and dropping subscribers *)

Lemma list_in_false x l : ~ In x l -> list_in x l = false.
Proof.
  intros H. unfold list_in. destruct (existsb (Nat.eqb x) l) eqn:E;
    [|reflexivity].
  apply existsb_exists in E. destruct E as (y & Hy & Heq).
  apply Nat.eqb_eq in Heq. subst y. contradiction.
Qed.

Lemma list_remove_count x l :
  In x l ->
  count_occ Nat.eq_dec (list_remove x l) x
    = Nat.pred (count_occ Nat.eq_dec l x) /\
  (forall c, c <> x ->
     count_occ Nat.eq_dec (list_remove x l) c = count_occ Nat.eq_dec l c) /\
  List.filter (fun c => negb (Nat.eqb c x)) (list_remove x l)
    = List.filter (fun c => negb (Nat.eqb c x)) l.
Proof.
  induction l as [|y l IH]; intros Hin; [destruct Hin|].
  cbn [list_remove]. destruct (Nat.eqb y x) eqn:E.
  - apply Nat.eqb_eq in E. subst y. split; [|split].
    + rewrite count_occ_cons_eq by reflexivity. reflexivity.
    + intros c Hc. rewrite count_occ_cons_neq by congruence. reflexivity.
    + cbn [List.filter]. rewrite Nat.eqb_refl. reflexivity.
  - apply Nat.eqb_neq in E.
    destruct Hin as [Hy|Hin]; [contradiction|].
    destruct (IH Hin) as (H1 & H2 & H3). split; [|split].
    + rewrite !count_occ_cons_neq by assumption. exact H1.
    + intros c Hc. destruct (Nat.eq_dec y c) as [->|Hne].
      * rewrite !count_occ_cons_eq by reflexivity. f_equal. now apply H2.
      * rewrite !count_occ_cons_neq by assumption. now apply H2.
    + cbn [List.filter]. apply Nat.eqb_neq in E. rewrite E. cbn [negb].
      now rewrite H3.
Qed.

(** X23. [disconnect_websocket] never raises and removes one
    registration of the socket: the number of times the socket is
    registered goes down by one (from 0 it stays 0, and the call changes
    nothing), every other socket is registered as often as before, and
    the other sockets keep their order; the sink registry and the wire
    are untouched.  After a [connect_websocket] whose [accept] returned,
    the socket is registered once more than before, at the end; connecting a socket that was not
    registered and disconnecting it gives back the registry as it was. *)
Theorem X23_disconnect_removes_one_registration (websocket : WebSocket)
    (s : A.t) :
  let registered := fun (c : WebSocket) (a : A.t) =>
    count_occ Nat.eq_dec (A.active_connections a) c in
  let others := fun a : A.t =>
    List.filter (fun c => negb (Nat.eqb c websocket)) (A.active_connections a) in
  exists s',
    A.disconnect_websocket websocket s = (Ok tt, s') /\
    registered websocket s' = Nat.pred (registered websocket s) /\
    (forall c, c <> websocket -> registered c s' = registered c s) /\
    others s' = others s /\
    (registered websocket s = 0%nat -> s' = s) /\
    A.external_configs s' = A.external_configs s /\ A.wire s' = A.wire s /\
  exists s1,
    A.connect_websocket websocket s = (Ok tt, s1) /\
    A.active_connections s1 = (A.active_connections s ++ [websocket])%list /\
    registered websocket s1 = S (registered websocket s) /\
    (registered websocket s = 0%nat ->
       A.disconnect_websocket websocket s1 = (Ok tt, s)).
Proof.
  intros registered others. destruct s as [conns ext wire].
  unfold A.disconnect_websocket, bind, get. cbn [A.active_connections].
  subst registered others. cbn beta.
  assert (Hconn : exists s1,
            A.connect_websocket websocket (A.mk conns ext wire) = (Ok tt, s1) /\
            A.active_connections s1 = (conns ++ [websocket])%list /\
            count_occ Nat.eq_dec (A.active_connections s1) websocket
              = S (count_occ Nat.eq_dec conns websocket) /\
            (count_occ Nat.eq_dec conns websocket = 0%nat ->
             (if list_in websocket (A.active_connections s1)
              then modify (A.set_active_connections
                             (list_remove websocket (A.active_connections s1)))
              else ret tt) s1 = (Ok tt, A.mk conns ext wire))).
  { eexists. split; [reflexivity|].
    cbn [A.active_connections A.set_active_connections A.external_configs
         A.wire].
    split; [reflexivity|]. split.
    - rewrite count_occ_app. cbn [count_occ].
      destruct (Nat.eq_dec websocket websocket) as [_|Hne];
        [apply Nat.add_1_r|now contradiction Hne].
    - intros H0. apply count_occ_not_In in H0.
      rewrite list_in_app_r.
      unfold modify, A.set_active_connections.
      cbn [A.active_connections A.external_configs A.wire].
      rewrite list_remove_app_fresh by exact H0. now rewrite app_nil_r. }
  destruct (in_dec Nat.eq_dec websocket conns) as [Hin|Hnot].
  - rewrite (list_in_true _ _ Hin).
    destruct (list_remove_count websocket conns Hin) as (H1 & H2 & H3).
    eexists. split; [reflexivity|].
    cbn [A.active_connections A.set_active_connections A.external_configs
         A.wire].
    split; [exact H1|]. split; [exact H2|]. split; [exact H3|]. split.
    + intros H0. apply count_occ_not_In in H0. contradiction.
    + split; [reflexivity|]. split; [reflexivity|]. exact Hconn.
  - rewrite (list_in_false _ _ Hnot).
    pose proof Hnot as H0. apply (count_occ_not_In Nat.eq_dec) in H0.
    eexists. split; [reflexivity|].
    cbn [A.active_connections A.external_configs A.wire].
    split; [rewrite H0; reflexivity|]. split; [reflexivity|].
    split; [reflexivity|]. split; [reflexivity|].
    split; [reflexivity|]. split; [reflexivity|]. exact Hconn.
Qed.

(** * Adding and removing sinks *)

Section SinkRoundTrip.
Variable str_exn : exn -> string.

(** X24. [add_external_config] never fails: it answers with success and
    puts the configuration at the end of the sink registry, after the
    entries already there (an equal entry included), leaving subscribers
    and wire alone.  The new entry has the index that was the length of
    the registry, and [remove_external_config] at that index answers with
    success and gives back the server as it was before the addition. *)
Theorem X24_add_then_remove_sink (config : ExternalConfig.t) (s : A.t) :
  exists s1,
    A.add_external_config str_exn config s =
      (Ok [("status", "success"); ("message", "Konfigürasyon eklendi")], s1) /\
    A.external_configs s1 = (A.external_configs s ++ [config])%list /\
    A.external_configs s1 !! length (A.external_configs s) = Some config /\
    A.active_connections s1 = A.active_connections s /\
    A.wire s1 = A.wire s /\
    A.remove_external_config str_exn
      (Z.of_nat (length (A.external_configs s))) s1 =
      (Ok [("status", "success"); ("message", "Konfigürasyon kaldırıldı")], s).
Proof.
  destruct s as [conns ext wire].
  cbn [A.external_configs A.active_connections A.wire].
  eexists. split; [reflexivity|].
  cbn [A.set_external_configs A.external_configs A.active_connections A.wire].
  split; [reflexivity|]. split.
  - rewrite lookup_app_r by lia. now rewrite Nat.sub_diag.
  - split; [reflexivity|]. split; [reflexivity|].
    rewrite remove_external_config_in_range.
    + cbn [A.external_configs A.set_external_configs A.active_connections
           A.wire].
      rewrite Nat2Z.id.
      replace (delete (length ext) (ext ++ [config])%list) with ext;
        [reflexivity|].
      clear. induction ext as [|x l IH]; [reflexivity|].
      cbn [length app]. change (delete (S (length l)) (x :: (l ++ [config])%list))
        with (x :: delete (length l) (l ++ [config])%list).
      now rewrite <- IH.
    + cbn [A.external_configs A.set_external_configs].
      rewrite length_app. cbn [length]. lia.
Qed.
End SinkRoundTrip.

(** * The altitude rate parameter *)

Lemma _update_position_altitude_rate cos sin radians a s :
  G._update_position cos sin radians (G.set_altitude_change_rate a s) =
  (fst (G._update_position cos sin radians s),
   G.set_altitude_change_rate a (snd (G._update_position cos sin radians s))).
Proof.
  destruct s as [ui enc cd hist mh lat lon alt spd hdg vs hr ar sr].
  unfold G._update_position, py_div.
  change (Qeq_bool 111320 0) with false. run_gen.
  match goal with
  | |- context [Qeq_bool ?den 0] => destruct (Qeq_bool den 0)
  end.
  - reflexivity.
  - destruct (Qle_bool 360 (hdg + hr * ui)).
    + rewrite !_apply_boundaries_run. reflexivity.
    + destruct (Qltb (hdg + hr * ui) 0);
        rewrite !_apply_boundaries_run; reflexivity.
Qed.

Lemma bind_run {S A B} (m : M S A) (k : A -> M S B) (s : S) :
  bind m k s = match m s with
               | (Ok a, s') => k a s'
               | (Raise e, s') => (Raise e, s')
               end.
Proof. reflexivity. Qed.

Lemma generate_flight_data_altitude_rate cos sin radians d a s :
  G.generate_flight_data cos sin radians d (G.set_altitude_change_rate a s) =
  match G.generate_flight_data cos sin radians d s with
  | (Ok fd, s') => (Ok fd, s')
  | (Raise e, s') => (Raise e, G.set_altitude_change_rate a s')
  end.
Proof.
  unfold G.generate_flight_data. rewrite !bind_run.
  rewrite _update_position_altitude_rate.
  destruct (G._update_position cos sin radians s) as [r1 s1] eqn:E1.
  cbn [fst snd]. destruct r1 as [[]|e]; [|reflexivity].
  rewrite !bind_run. rewrite !_add_realistic_variations_run.
  replace (G.mk (G.update_interval (G.set_altitude_change_rate a s1))
             (G.encoder (G.set_altitude_change_rate a s1))
             (G.current_data (G.set_altitude_change_rate a s1))
             (G.history (G.set_altitude_change_rate a s1))
             (G.max_history (G.set_altitude_change_rate a s1))
             (G.current_latitude (G.set_altitude_change_rate a s1)
              + u_latitude d)%Q
             (G.current_longitude (G.set_altitude_change_rate a s1)
              + u_longitude d)%Q
             (G.current_altitude (G.set_altitude_change_rate a s1)
              + u_altitude d)%Q
             (G.current_airspeed (G.set_altitude_change_rate a s1)
              + u_airspeed d)%Q
             (G.current_heading (G.set_altitude_change_rate a s1)
              + u_heading d)%Q
             (u_altitude_rate d) (u_heading_rate d) (u_altitude_rate d)
             (u_speed_rate d))
    with (G.mk (G.update_interval s1) (G.encoder s1) (G.current_data s1)
            (G.history s1) (G.max_history s1)
            (G.current_latitude s1 + u_latitude d)%Q
            (G.current_longitude s1 + u_longitude d)%Q
            (G.current_altitude s1 + u_altitude d)%Q
            (G.current_airspeed s1 + u_airspeed d)%Q
            (G.current_heading s1 + u_heading d)%Q
            (u_altitude_rate d) (u_heading_rate d) (u_altitude_rate d)
            (u_speed_rate d))
    by (destruct s1; reflexivity).
  match goal with
  | |- ?x = match ?y with _ => _ end =>
      change y with x;
      assert (H : exists fd s2, x = (Ok fd, s2));
      [|destruct H as (fd & s2 & ->); reflexivity]
  end.
  rewrite bind_run, _apply_boundaries_run.
  destruct s1 as [ui1 enc1 cd1 hist1 mh1 lat1 lon1 alt1 spd1 hdg1 vs1
                  hr1 ar1 sr1].
  run_gen.
  rewrite (FlightData_new_ok _ _ _ _ _ _ _
             (rounded_sample_in_envelope _ _ _ _ _ _ _)).
  set (fd0 := FlightData.mk _ _ _ _ _ _ _).
  destruct (Z.of_nat (length (hist1 ++ [fd0])) >? mh1).
  - destruct (list_pop_0_snoc hist1 fd0) as (y & Hpop). rewrite Hpop.
    eexists _, _. reflexivity.
  - eexists _, _. reflexivity.
Qed.

Lemma do_call_altitude_rate cos sin radians c s s' :
  differ_in_altitude_rate s s' ->
  snd (do_call cos sin radians c s') = snd (do_call cos sin radians c s) /\
  differ_in_altitude_rate (fst (do_call cos sin radians c s))
                          (fst (do_call cos sin radians c s')).
Proof.
  intros [a ->]. destruct c as [d|h a0 v|lat lon]; cbn [do_call].
  - rewrite generate_flight_data_altitude_rate.
    destruct (G.generate_flight_data cos sin radians d s) as [[fd|e] s1];
      cbn [fst snd]; (split; [reflexivity|]).
    + exists (G.altitude_change_rate s1). destruct s1. reflexivity.
    + exists a. reflexivity.
  - cbn [fst snd]. split; [reflexivity|].
    exists a0. destruct s. reflexivity.
  - cbn [fst snd]. split; [reflexivity|].
    exists a. destruct s. reflexivity.
Qed.

Lemma do_calls_altitude_rate cos sin radians cs s s' :
  differ_in_altitude_rate s s' ->
  snd (do_calls cos sin radians cs s') = snd (do_calls cos sin radians cs s) /\
  differ_in_altitude_rate (fst (do_calls cos sin radians cs s))
                          (fst (do_calls cos sin radians cs s')).
Proof.
  revert s s'. induction cs as [|c cs IH]; intros s s' Hd; cbn [do_calls].
  - cbn [fst snd]. split; [reflexivity|exact Hd].
  - destruct (do_call_altitude_rate cos sin radians c s s' Hd) as [Ho Hs].
    destruct (do_call cos sin radians c s) as [s1 out1].
    destruct (do_call cos sin radians c s') as [s1' out1'].
    cbn [fst snd] in Ho, Hs. subst out1'.
    destruct (IH s1 s1' Hs) as [Ho2 Hs2].
    destruct (do_calls cos sin radians cs s1) as [s2 out2].
    destruct (do_calls cos sin radians cs s1') as [s2' out2'].
    cbn [fst snd] in *. subst out2'. split; [reflexivity|exact Hs2].
Qed.

(** X6. The [altitude_change] argument of [set_flight_parameters] has
    no effect on what the generator produces: for any generator, and any
    sequence of calls made after [set_flight_parameters], the samples
    returned, the history and the current sample are the same for every
    value of [altitude_change], all other arguments being equal.  (A tick
    draws a new altitude rate before it reads the attribute.)  The two
    generators differ at most in the attribute itself. *)
Theorem X6_altitude_change_is_ignored (cos sin radians : Q -> Q)
    (cs : list call) (s : FlightDataGenerator.t)
    (heading_change speed_change altitude_change altitude_change' : Q) :
  let run := fun a =>
    do_calls cos sin radians cs
      (snd (G.set_flight_parameters heading_change a speed_change s)) in
  snd (run altitude_change) = snd (run altitude_change') /\
  G.history (fst (run altitude_change))
    = G.history (fst (run altitude_change')) /\
  G.get_current_data (fst (run altitude_change))
    = G.get_current_data (fst (run altitude_change')) /\
  differ_in_altitude_rate (fst (run altitude_change'))
                          (fst (run altitude_change)).
Proof.
  intros run. subst run. cbn beta.
  assert (Hd : differ_in_altitude_rate
                 (snd (G.set_flight_parameters heading_change altitude_change'
                         speed_change s))
                 (snd (G.set_flight_parameters heading_change altitude_change
                         speed_change s))).
  { exists altitude_change. destruct s. reflexivity. }
  destruct (do_calls_altitude_rate cos sin radians cs _ _ Hd) as [Ho Hs].
  split; [exact Ho|].
  destruct Hs as [a Ha]. rewrite Ha.
  split; [|split].
  - destruct (fst (do_calls cos sin radians cs _)). reflexivity.
  - destruct (fst (do_calls cos sin radians cs _)). reflexivity.
  - exists a. reflexivity.
Qed.
